(** * Project Synapse: the coordination core, embedded in Rocq

    A shallow embedding of the tool contract ([src/tools/base.py]), the tool
    registry ([src/tools/registry.py]), the reasoning ledger
    ([src/agent/reasoning.py]) and the orchestration engine
    ([src/agent/coordinator.py]), followed by the properties proved about them.

    Conventions of the embedding:
    - a Python [int] is a [Z]; a Python [float] is an exact rational [Q]
      (confidences, durations); a Python [str] is a [string] of ASCII text;
    - a [datetime] is a [Z], the number of microseconds since the epoch;
    - a [dict] with string keys that is only looked up is a [gmap string _];
      a [dict] that is carried around as data is an association list in
      insertion order ([Dict]);
    - code that raises or mutates shared objects runs in the monad [M], a
      state-and-exception monad over [World];
    - what the repository imports but does not define (the clock, the model
      behind the two LLM handles, LangGraph's ToolNode and step budget, the
      json module, string formatting of dates and floats) is a field of the
      classes [Python] and [Environment], never a fixed stub. *)

From Stdlib Require Import ZArith QArith Qround Lia Ascii.
From stdpp Require Import base option list strings gmap pretty relations.

Open Scope string_scope.

(** ** Python values *)

(** The JSON-like values that travel through argument maps, step contexts,
    tool outputs and solution plans. *)
#[warnings="-register-all"]
Inductive PyValue : Type :=
| PyNone
| PyBool (b : bool)
| PyInt (z : Z)
| PyFloat (q : Q)
| PyStr (s : string)
| PyList (l : list PyValue)
| PyDict (d : list (string * PyValue)).

Abbreviation Dict := (list (string * PyValue)).

(** Keyword arguments, a [kwargs] dict. *)
Abbreviation Kwargs := (gmap string PyValue).

(** [v is None] *)
Definition is_none (v : PyValue) : bool :=
  match v with PyNone => true | _ => false end.

(** Truth value of an object, as [if v:] and [v or w] test it. *)
Definition truthy (v : PyValue) : bool :=
  match v with
  | PyNone => false
  | PyBool b => b
  | PyInt z => negb (z =? 0)%Z
  | PyFloat q => negb (Qeq_bool q 0)
  | PyStr s => negb (String.eqb s "")
  | PyList l => match l with [] => false | _ => true end
  | PyDict d => match d with [] => false | _ => true end
  end.

(** [d.get(k)] on an association list; a later binding of a key wins, as
    assignment to an existing key overwrites it. *)
Fixpoint dict_get (k : string) (d : Dict) : option PyValue :=
  match d with
  | [] => None
  | (k', v) :: d' =>
      match dict_get k d' with
      | Some v' => Some v'
      | None => if String.eqb k k' then Some v else None
      end
  end.

(** [list(d.keys())] *)
Definition dict_keys (d : Dict) : list string := d.*1.

(** A raised exception: its class name and [str(e)]. Only subclasses of
    [Exception] are modelled; [BaseException]-only signals (interpreter exit,
    task cancellation) are outside the embedding. *)
Record Exn := mkExn { exn_type : string; exn_str : string }.

Inductive Outcome (A : Type) : Type :=
| Returned (a : A)
| Raised (e : Exn).
Arguments Returned {A} a.
Arguments Raised {A} e.

(** [len(v)] *)
Definition py_len (v : PyValue) : Outcome Z :=
  match v with
  | PyStr s => Returned (Z.of_nat (String.length s))
  | PyList l => Returned (Z.of_nat (length l))
  | PyDict d => Returned (Z.of_nat (length d))
  | _ => Raised (mkExn "TypeError" "object has no len()")
  end.

(** [list(v.keys())]: only a dict has the method. *)
Definition py_keys (v : PyValue) : Outcome (list string) :=
  match v with
  | PyDict d => Returned (dict_keys d)
  | _ => Raised (mkExn "AttributeError" "object has no attribute 'keys'")
  end.

(** ASCII case mapping, the restriction of [str.lower] and [str.upper] to
    ASCII text. *)
Definition lower_ascii (c : ascii) : ascii :=
  let n := nat_of_ascii c in
  if ((65 <=? n) && (n <=? 90))%nat then ascii_of_nat (n + 32) else c.

Definition upper_ascii (c : ascii) : ascii :=
  let n := nat_of_ascii c in
  if ((97 <=? n) && (n <=? 122))%nat then ascii_of_nat (n - 32) else c.

Fixpoint map_string (f : ascii -> ascii) (s : string) : string :=
  match s with
  | EmptyString => EmptyString
  | String c s' => String (f c) (map_string f s')
  end.

Definition lower (s : string) : string := map_string lower_ascii s.
Definition upper (s : string) : string := map_string upper_ascii s.

(** [w in s] for strings: [w] occurs in [s] as a contiguous substring. *)
Fixpoint contains (s w : string) : bool :=
  String.prefix w s ||
  match s with
  | EmptyString => false
  | String _ s' => contains s' w
  end.

(** [sep.join(l)] *)
Definition join (sep : string) (l : list string) : string := String.concat sep l.

Definition newline : string := String (ascii_of_nat 10) EmptyString.

(** [(a - b).total_seconds()] for two datetimes. *)
Definition total_seconds (a b : Z) : Q := (a - b) # 1000000.

(** ** Records of the data model *)

(** [reasoning.ReasoningStepType] *)
Inductive ReasoningStepType : Type :=
| ANALYSIS | PLANNING | TOOL_SELECTION | EXECUTION
| SYNTHESIS | VERIFICATION | DECISION.

(** [ReasoningStepType.value] *)
Definition step_type_value (t : ReasoningStepType) : string :=
  match t with
  | ANALYSIS => "analysis"
  | PLANNING => "planning"
  | TOOL_SELECTION => "tool_selection"
  | EXECUTION => "execution"
  | SYNTHESIS => "synthesis"
  | VERIFICATION => "verification"
  | DECISION => "decision"
  end.

(** [reasoning.ReasoningStep] *)
Module ReasoningStep.
Record t : Type := mk {
  step_number : Z;
  step_type : ReasoningStepType;
  reasoning : string;
  timestamp : Z;
  context : Dict;
  confidence : Q;
  alternatives_considered : list string;
  decision_factors : list string
}.
End ReasoningStep.

(** The fields of [reasoning.ChainOfThoughtReasoner]. *)
Module ChainOfThoughtReasoner.
Record t : Type := mk {
  reasoning_steps : list ReasoningStep.t;
  current_step : Z;
  reasoning_session_id : string
}.
End ChainOfThoughtReasoner.

(** [base.ToolStatus] *)
Inductive ToolStatus : Type := SUCCESS | FAILURE | PARTIAL | TIMEOUT.

(** [base.ToolResult] *)
Module ToolResult.
Record t : Type := mk {
  success : bool;
  data : Dict;
  message : string;
  timestamp : Z;
  execution_time_ms : Q;
  status : ToolStatus;
  tool_name : string;
  confidence_score : option Q;
  additional_context : option Dict
}.

Definition with_execution_time_ms (r : t) (ms : Q) : t :=
  mk (success r) (data r) (message r) (timestamp r) ms (status r)
     (tool_name r) (confidence_score r) (additional_context r).
End ToolResult.

(** What a caller may hand to [record_tool_execution] as [result]: a
    JSON-like value or a [ToolResult] object. *)
Inductive PyObject : Type :=
| Json (v : PyValue)
| ToolResultObject (r : ToolResult.t).

(** A tool call as an [AIMessage] carries it: the dicts
    [{"name": ..., "args": ..., "id": ...}]. *)
Module ToolCall.
Record t : Type := mk {
  name : string;
  args : Dict;
  id : option string
}.
End ToolCall.

(** The message classes of [langchain_core.messages] the engine handles. The
    content of a tool message is a string or, failing that, a structured
    value; the other contents are text. *)
Inductive Message : Type :=
| SystemMessage (content : string)
| HumanMessage (content : string)
| AIMessage (content : string) (tool_calls : list ToolCall.t)
| ToolMessage (content : PyValue) (tool_call_id : string).

(** An entry of [state["tool_calls_made"]]. *)
Module ToolCallRecord.
Record t : Type := mk {
  tool_name : string;
  args : Dict;
  tool_call_id : option string;
  timestamp : string
}.
End ToolCallRecord.

(** An entry of [state["gathered_data"]]. *)
Module GatheredDataEntry.
Record t : Type := mk {
  tool_name : string;
  result : PyValue
}.
End GatheredDataEntry.

(** [coordinator.AgentState] *)
Module AgentState.
Record t : Type := mk {
  messages : list Message;
  scenario : string;
  reasoning_steps : list Dict;
  tool_calls_made : list ToolCallRecord.t;
  gathered_data : list GatheredDataEntry.t;
  solution_plan : PyValue;
  current_iteration : Z;
  max_iterations : Z;
  confidence_score : Q;
  status : string;
  pending_tool_calls : option (list ToolCall.t)
}.

(** [state[key] = v], one definition per key the nodes assign. *)
Definition set_messages (s : t) (v : list Message) : t :=
  mk v (scenario s) (reasoning_steps s) (tool_calls_made s) (gathered_data s)
     (solution_plan s) (current_iteration s) (max_iterations s)
     (confidence_score s) (status s) (pending_tool_calls s).
Definition set_reasoning_steps (s : t) (v : list Dict) : t :=
  mk (messages s) (scenario s) v (tool_calls_made s) (gathered_data s)
     (solution_plan s) (current_iteration s) (max_iterations s)
     (confidence_score s) (status s) (pending_tool_calls s).
Definition set_tool_calls_made (s : t) (v : list ToolCallRecord.t) : t :=
  mk (messages s) (scenario s) (reasoning_steps s) v (gathered_data s)
     (solution_plan s) (current_iteration s) (max_iterations s)
     (confidence_score s) (status s) (pending_tool_calls s).
Definition set_gathered_data (s : t) (v : list GatheredDataEntry.t) : t :=
  mk (messages s) (scenario s) (reasoning_steps s) (tool_calls_made s) v
     (solution_plan s) (current_iteration s) (max_iterations s)
     (confidence_score s) (status s) (pending_tool_calls s).
Definition set_solution_plan (s : t) (v : PyValue) : t :=
  mk (messages s) (scenario s) (reasoning_steps s) (tool_calls_made s) (gathered_data s)
     v (current_iteration s) (max_iterations s)
     (confidence_score s) (status s) (pending_tool_calls s).
Definition set_current_iteration (s : t) (v : Z) : t :=
  mk (messages s) (scenario s) (reasoning_steps s) (tool_calls_made s) (gathered_data s)
     (solution_plan s) v (max_iterations s)
     (confidence_score s) (status s) (pending_tool_calls s).
Definition set_confidence_score (s : t) (v : Q) : t :=
  mk (messages s) (scenario s) (reasoning_steps s) (tool_calls_made s) (gathered_data s)
     (solution_plan s) (current_iteration s) (max_iterations s)
     v (status s) (pending_tool_calls s).
Definition set_status (s : t) (v : string) : t :=
  mk (messages s) (scenario s) (reasoning_steps s) (tool_calls_made s) (gathered_data s)
     (solution_plan s) (current_iteration s) (max_iterations s)
     (confidence_score s) v (pending_tool_calls s).
End AgentState.

(** The nodes of the compiled workflow and its end marker. *)
Inductive Node : Type :=
| N_call_model | N_tools | N_after_tools | N_synthesis | N_verification | N_END.

(** The [metrics] dict of a resolution result. *)
Module Metrics.
Record t : Type := mk {
  total_reasoning_steps : Z;
  tools_called : Z;
  resolution_time_seconds : Q;
  iterations : Z;
  confidence_score : Q
}.
End Metrics.

(** [coordinator.ResolutionResult] *)
Module ResolutionResult.
Record t : Type := mk {
  success : bool;
  scenario : string;
  reasoning_steps : list string;
  tools_used : list string;
  solution_plan : PyValue;
  metrics : Metrics.t;
  confidence_score : Q;
  execution_time_seconds : Q
}.
End ResolutionResult.

(** ** The world and the monad of effects *)

(** What the code reads and mutates outside its arguments: the number of
    clock readings taken so far, the number of requests sent to the model and
    to the tool node so far, the process-wide reasoner [global_reasoner], and
    a log with one entry per [execute] coroutine that [safe_execute] awaited
    (tool name and keyword arguments), which is what a spy tool observes. *)
Record World : Type := mkWorld {
  w_ticks : nat;
  w_requests : nat;
  w_reasoner : ChainOfThoughtReasoner.t;
  w_executed : list (string * Kwargs)
}.

Definition M (A : Type) : Type := World -> Outcome A * World.

Definition ret {A} (a : A) : M A := fun w => (Returned a, w).

Definition bind {A B} (m : M A) (k : A -> M B) : M B :=
  fun w =>
    match m w with
    | (Returned a, w') => k a w'
    | (Raised e, w') => (Raised e, w')
    end.

Definition raise {A} (e : Exn) : M A := fun w => (Raised e, w).

(** [try: m  except Exception as e: handler(e)] *)
Definition try_except {A} (m : M A) (handler : Exn -> M A) : M A :=
  fun w =>
    match m w with
    | (Returned a, w') => (Returned a, w')
    | (Raised e, w') => handler e w'
    end.

Definition lift_outcome {A} (o : Outcome A) : M A := fun w => (o, w).

Declare Scope py_scope.
Delimit Scope py_scope with py.
Notation "x <- m ;; k" := (bind m (fun x => k))
  (at level 63, m at next level, right associativity) : py_scope.
Notation "m ;;; k" := (bind m (fun _ => k))
  (at level 63, right associativity) : py_scope.
Open Scope py_scope.

Definition get_reasoner : M ChainOfThoughtReasoner.t :=
  fun w => (Returned (w_reasoner w), w).

Definition set_reasoner (r : ChainOfThoughtReasoner.t) : M unit :=
  fun w => (Returned tt, mkWorld (w_ticks w) (w_requests w) r (w_executed w)).

Definition log_execute (tool : string) (kwargs : Kwargs) : M unit :=
  fun w => (Returned tt,
            mkWorld (w_ticks w) (w_requests w) (w_reasoner w)
                    (w_executed w ++ [(tool, kwargs)])).

(** [tools.base.BaseTool]: the properties a tool class overrides and the body
    of its [execute] coroutine. *)
Module BaseTool.
Record t : Type := mk {
  name : string;
  description : string;
  category : string;
  required_parameters : list string;
  optional_parameters : list string;
  execute : Kwargs -> M ToolResult.t;
  class_name : string
}.
End BaseTool.

(** The fields of [coordinator.SynapseCoordinator] that are data: the copy
    of the registry's tools taken when the coordinator is built. The model
    handles, the reasoner and the prompts are the environment's. *)
Module SynapseCoordinator.
Record t : Type := mk {
  tools : gmap string BaseTool.t
}.
End SynapseCoordinator.

(** ** What the repository imports *)

(** Functions of the Python runtime and standard library that the code calls
    on values whose rendering the embedding keeps abstract. *)
Class Python : Type := {
  (** [json.loads(s)]; [None] when it raises. *)
  json_loads : string -> option PyValue;
  (** [json.dumps(v)] and [json.dumps(v, indent=2)] *)
  json_dumps : PyValue -> string;
  json_dumps_indent2 : PyValue -> string;
  (** [str(v)] for a JSON-like value and for a [ToolResult] object, [repr]
      of a list of strings inside an f-string *)
  py_str : PyValue -> string;
  str_tool_result : ToolResult.t -> string;
  repr_str_list : list string -> string;
  (** [d.isoformat()], [d.strftime(fmt)] *)
  isoformat : Z -> string;
  strftime : string -> Z -> string;
  (** [f"{x:.1%}"] *)
  format_percent_1 : Q -> string
}.

(** The collaborators of one process: the wall clock (the value of the
    [n]-th reading), the model behind [llm_with_tools] and [llm] (the answer
    to the [n]-th request, given the messages sent), LangGraph's prebuilt
    ToolNode (the messages it adds to the transcript) and the number of
    super-steps LangGraph grants one [ainvoke] before it raises
    [GraphRecursionError], the bodies of the [execute] coroutines of
    [tools/logistics.py], keyed by class name, and the prompt templates of
    [create_reasoning_prompts], already applied to their arguments. *)
Class Environment : Type := {
  now_at : nat -> Z;
  llm_with_tools_ainvoke : nat -> list Message -> Outcome (string * list ToolCall.t);
  llm_ainvoke : nat -> list Message -> Outcome string;
  tool_node : nat -> list Message -> Outcome (list Message);
  recursion_limit : nat;
  logistics_execute : string -> Kwargs -> M ToolResult.t;
  system_prompt : string -> string;
  synthesis_prompt : string -> string -> string;
  verification_prompt : string -> string -> string
}.

(** The summary dict of [get_reasoning_summary]. *)
Module ReasoningSummary.
Record t : Type := mk {
  session_id : string;
  total_steps : Z;
  step_types : gmap string Z;
  average_confidence : Q;
  reasoning_duration : Q;
  reasoning_quality : string
}.
End ReasoningSummary.

(** [tools.registry.ToolRegistry]: instances and their classes, by name. *)
Module ToolRegistry.
Record t : Type := mk {
  _tools : gmap string BaseTool.t;
  _tool_classes : gmap string string
}.
End ToolRegistry.

(** [min(a, b)]: the second argument when it is smaller, else the first. *)
Definition py_min (a b : Q) : Q := if Qlt_le_dec b a then b else a.

(** [x / n] on numbers: raises [ZeroDivisionError] when [n] is zero. *)
Definition py_div (x : Q) (n : Z) : Outcome Q :=
  if (n =? 0)%Z then Raised (mkExn "ZeroDivisionError" "division by zero")
  else Returned (x / inject_Z n)%Q.

(** [l[i]] for a list, with Python's negative indices: raises [IndexError]
    out of range. *)
Definition py_index {A} (l : list A) (i : Z) : Outcome A :=
  let n := Z.of_nat (length l) in
  let j := if (i <? 0)%Z then (n + i)%Z else i in
  if ((0 <=? j) && (j <? n))%Z then
    match l !! Z.to_nat j with
    | Some x => Returned x
    | None => Raised (mkExn "IndexError" "list index out of range")
    end
  else Raised (mkExn "IndexError" "list index out of range").

(** Rounding of an exact rational to the nearest integer, ties to even. *)
Definition round_half_even (q : Q) : Z :=
  let fl := Qfloor q in
  match Qcompare (q - inject_Z fl) (1 # 2) with
  | Lt => fl
  | Gt => (fl + 1)%Z
  | Eq => if Z.even fl then fl else (fl + 1)%Z
  end.

(** [round(x, 2)], on the exact value of [x]. *)
Definition round2 (x : Q) : Q := round_half_even (x * 100) # 100.

Definition bind_outcome {A B} (o : Outcome A) (k : A -> Outcome B) : Outcome B :=
  match o with
  | Returned a => k a
  | Raised e => Raised e
  end.

Section Synapse.
Context {py : Python} {env : Environment}.

(** [datetime.now()]: the next reading of the clock. *)
Definition datetime_now : M Z :=
  fun w => (Returned (now_at (w_ticks w)),
            mkWorld (S (w_ticks w)) (w_requests w) (w_reasoner w) (w_executed w)).

(** The number of the next request to a collaborator. *)
Definition next_request : M nat :=
  fun w => (Returned (w_requests w),
            mkWorld (w_ticks w) (S (w_requests w)) (w_reasoner w) (w_executed w)).

(** *** [src/agent/reasoning.py] *)

Definition session_id_at (now : Z) : string :=
  "reasoning_" +:+ strftime "%Y%m%d_%H%M%S" now.

(** [ChainOfThoughtReasoner.__init__] *)
Definition new_reasoner : M ChainOfThoughtReasoner.t :=
  now <- datetime_now ;;
  ret (ChainOfThoughtReasoner.mk [] 0 (session_id_at now)).

(** [ChainOfThoughtReasoner.add_reasoning_step]; an argument left at its
    default [None] is [None] here, and [confidence] is passed explicitly. *)
Definition add_reasoning_step (step_type : ReasoningStepType) (reasoning : string)
    (context : option Dict) (confidence : Q)
    (alternatives_considered decision_factors : option (list string))
  : M ReasoningStep.t :=
  self <- get_reasoner ;;
  set_reasoner (ChainOfThoughtReasoner.mk
                  (ChainOfThoughtReasoner.reasoning_steps self)
                  (ChainOfThoughtReasoner.current_step self + 1)
                  (ChainOfThoughtReasoner.reasoning_session_id self)) ;;;
  self <- get_reasoner ;;
  now <- datetime_now ;;
  let step :=
    ReasoningStep.mk (ChainOfThoughtReasoner.current_step self) step_type reasoning
      now (default [] context) confidence
      (default [] alternatives_considered) (default [] decision_factors) in
  set_reasoner (ChainOfThoughtReasoner.mk
                  (ChainOfThoughtReasoner.reasoning_steps self ++ [step])
                  (ChainOfThoughtReasoner.current_step self)
                  (ChainOfThoughtReasoner.reasoning_session_id self)) ;;;
  ret step.

Definition analyze_scenario (scenario : string) : M ReasoningStep.t :=
  add_reasoning_step ANALYSIS
    ("Analyzing delivery scenario: " +:+ scenario +:+
     ". Identifying key problems, constraints, and stakeholders involved.")
    (Some [("scenario", PyStr scenario)])
    (9 # 10)
    None
    (Some ["scenario_complexity"; "stakeholder_count"; "time_constraints"]).

Definition plan_tool_usage (available_tools scenario_needs : list string)
  : M ReasoningStep.t :=
  add_reasoning_step PLANNING
    ("Planning tool usage strategy. Available tools: " +:+ join ", " available_tools +:+
     ". Scenario needs: " +:+ join ", " scenario_needs +:+
     ". Determining optimal tool sequence.")
    (Some [("available_tools", PyList (PyStr <$> available_tools));
           ("scenario_needs", PyList (PyStr <$> scenario_needs))])
    (85 # 100)
    None
    (Some ["tool_effectiveness"; "execution_order"; "dependency_chain"]).

Definition select_tool (tool_name reasoning : string) (alternatives : option (list string))
  : M ReasoningStep.t :=
  add_reasoning_step TOOL_SELECTION
    ("Selecting tool '" +:+ tool_name +:+ "': " +:+ reasoning)
    (Some [("selected_tool", PyStr tool_name)])
    (8 # 10)
    (Some (default [] alternatives))
    (Some ["tool_capability"; "expected_outcome"; "execution_time"]).

(** [hasattr(result, 'success')]: a [ToolResult] has the attribute; a
    JSON-like value ([None], a decoded document, the raw wrapper) has not. *)
Definition hasattr_success (result : PyObject) : bool :=
  match result with
  | ToolResultObject _ => true
  | Json _ => false
  end.

(** [getattr(result, 'success', True)] *)
Definition getattr_success (result : PyObject) : bool :=
  match result with
  | ToolResultObject r => ToolResult.success r
  | Json _ => true
  end.

(** Truth value and [str] of a result. *)
Definition truthy_object (result : PyObject) : bool :=
  match result with
  | ToolResultObject _ => true
  | Json v => truthy v
  end.

Definition str_object (result : PyObject) : string :=
  match result with
  | ToolResultObject r => str_tool_result r
  | Json v => py_str v
  end.

Definition record_tool_execution (tool_name : string) (parameters : Dict) (result : PyObject)
  : M ReasoningStep.t :=
  let success := if hasattr_success result then getattr_success result else true in
  add_reasoning_step EXECUTION
    ("Executed tool '" +:+ tool_name +:+ "' with parameters " +:+
     repr_str_list (dict_keys parameters) +:+ ". Result: " +:+
     (if success then "Success" else "Failed") +:+
     ". Gathering information for next decision.")
    (Some [("tool_name", PyStr tool_name);
           ("parameters", PyDict parameters);
           ("success", PyBool success);
           ("result_summary",
            if truthy_object result
            then PyStr (String.substring 0 200 (str_object result)) else PyNone)])
    (if success then 9 # 10 else 5 # 10)
    None
    None.

Definition synthesize_solution (gathered_data solution_plan : Dict) : M ReasoningStep.t :=
  n_actions <- lift_outcome (py_len (default (PyList []) (dict_get "immediate_actions" solution_plan))) ;;
  n_options <- lift_outcome (py_len (default (PyList []) (dict_get "alternative_options" solution_plan))) ;;
  add_reasoning_step SYNTHESIS
    ("Synthesizing comprehensive solution based on gathered data from " +:+
     pretty (length gathered_data) +:+ " sources. Created solution plan with " +:+
     pretty n_actions +:+ " immediate actions and " +:+ pretty n_options +:+ " alternatives.")
    (Some [("data_sources", PyList (PyStr <$> dict_keys gathered_data));
           ("solution_components", PyList (PyStr <$> dict_keys solution_plan))])
    (85 # 100)
    None
    (Some ["data_completeness"; "solution_feasibility"; "stakeholder_impact"]).

Definition verify_solution (solution : PyValue) (verification_criteria : list string)
  : M ReasoningStep.t :=
  solution_aspects <- lift_outcome (py_keys solution) ;;
  add_reasoning_step VERIFICATION
    ("Verifying solution against " +:+ pretty (length verification_criteria) +:+
     " criteria. Checking completeness, feasibility, and alignment with scenario requirements.")
    (Some [("verification_criteria", PyList (PyStr <$> verification_criteria));
           ("solution_aspects", PyList (PyStr <$> solution_aspects))])
    (9 # 10)
    None
    (Some verification_criteria).

Definition make_final_decision (decision reasoning : string) (confidence : Q)
  : M ReasoningStep.t :=
  add_reasoning_step DECISION
    ("Final decision: " +:+ decision +:+ ". Rationale: " +:+ reasoning)
    (Some [("final_decision", PyStr decision)])
    confidence
    None
    (Some ["solution_completeness"; "stakeholder_satisfaction"; "implementation_feasibility"]).

(** The loop of [get_reasoning_summary]: per-type counts and the sum of the
    confidences. *)
Fixpoint summary_loop (steps : list ReasoningStep.t) (step_types : gmap string Z)
    (total_confidence : Q) : gmap string Z * Q :=
  match steps with
  | [] => (step_types, total_confidence)
  | step :: rest =>
      let step_type := step_type_value (ReasoningStep.step_type step) in
      summary_loop rest
        (<[step_type := (default 0 (step_types !! step_type) + 1)%Z]> step_types)
        (total_confidence + ReasoningStep.confidence step)%Q
  end.

(** [ChainOfThoughtReasoner.get_reasoning_summary], on the reasoner [self].
    Division and indexing are the partial operations of Python. *)
Definition get_reasoning_summary (self : ChainOfThoughtReasoner.t)
  : Outcome ReasoningSummary.t :=
  let steps := ChainOfThoughtReasoner.reasoning_steps self in
  let '(step_types, total_confidence) := summary_loop steps ∅ 0%Q in
  bind_outcome
    (match steps with
     | [] => Returned 0%Q
     | _ => py_div total_confidence (Z.of_nat (length steps))
     end) (fun avg_confidence =>
  bind_outcome
    (if (1 <? Z.of_nat (length steps))%Z then
       bind_outcome (py_index steps (-1)) (fun last =>
       bind_outcome (py_index steps 0) (fun first =>
       Returned (total_seconds (ReasoningStep.timestamp last) (ReasoningStep.timestamp first))))
     else Returned 0%Q) (fun reasoning_duration =>
  Returned (ReasoningSummary.mk
              (ChainOfThoughtReasoner.reasoning_session_id self)
              (Z.of_nat (length steps))
              step_types
              (round2 avg_confidence)
              reasoning_duration
              (if Qlt_le_dec (8 # 10) avg_confidence then "high"
               else if Qlt_le_dec (6 # 10) avg_confidence then "medium"
               else "low")))).

(** [ChainOfThoughtReasoner.get_formatted_reasoning] *)
Definition format_step (step : ReasoningStep.t) : string :=
  let timestamp := strftime "%H:%M:%S" (ReasoningStep.timestamp step) in
  let confidence_str := "(" +:+ format_percent_1 (ReasoningStep.confidence step) +:+ " confidence)" in
  "Step " +:+ pretty (ReasoningStep.step_number step) +:+ " [" +:+
  upper (step_type_value (ReasoningStep.step_type step)) +:+ "] " +:+
  timestamp +:+ " " +:+ confidence_str +:+
  newline +:+ "  " +:+ ReasoningStep.reasoning step +:+
  (match ReasoningStep.alternatives_considered step with
   | [] => ""
   | alts => newline +:+ "  Alternatives considered: " +:+ join ", " alts
   end) +:+
  (match ReasoningStep.decision_factors step with
   | [] => ""
   | factors => newline +:+ "  Decision factors: " +:+ join ", " factors
   end).

Definition get_formatted_reasoning (self : ChainOfThoughtReasoner.t) : list string :=
  format_step <$> ChainOfThoughtReasoner.reasoning_steps self.

(** [ReasoningStep.to_dict] *)
Definition step_to_dict (step : ReasoningStep.t) : Dict :=
  [("step_number", PyInt (ReasoningStep.step_number step));
   ("step_type", PyStr (step_type_value (ReasoningStep.step_type step)));
   ("reasoning", PyStr (ReasoningStep.reasoning step));
   ("timestamp", PyStr (isoformat (ReasoningStep.timestamp step)));
   ("context", PyDict (ReasoningStep.context step));
   ("confidence", PyFloat (ReasoningStep.confidence step));
   ("alternatives_considered", PyList (PyStr <$> ReasoningStep.alternatives_considered step));
   ("decision_factors", PyList (PyStr <$> ReasoningStep.decision_factors step))].

(** [ChainOfThoughtReasoner.clear_reasoning] *)
Definition clear_reasoning : M unit :=
  self <- get_reasoner ;;
  set_reasoner (ChainOfThoughtReasoner.mk []
                  (ChainOfThoughtReasoner.current_step self)
                  (ChainOfThoughtReasoner.reasoning_session_id self)) ;;;
  self <- get_reasoner ;;
  set_reasoner (ChainOfThoughtReasoner.mk
                  (ChainOfThoughtReasoner.reasoning_steps self) 0
                  (ChainOfThoughtReasoner.reasoning_session_id self)) ;;;
  now <- datetime_now ;;
  self <- get_reasoner ;;
  set_reasoner (ChainOfThoughtReasoner.mk
                  (ChainOfThoughtReasoner.reasoning_steps self)
                  (ChainOfThoughtReasoner.current_step self)
                  (session_id_at now)).

(** One call of a method of the reasoner that appends a step, or of
    [clear_reasoning]. *)
Inductive LedgerOp : Type :=
| Op_add_reasoning_step (step_type : ReasoningStepType) (reasoning : string)
    (context : option Dict) (confidence : Q)
    (alternatives_considered decision_factors : option (list string))
| Op_analyze_scenario (scenario : string)
| Op_plan_tool_usage (available_tools scenario_needs : list string)
| Op_select_tool (tool_name reasoning : string) (alternatives : option (list string))
| Op_record_tool_execution (tool_name : string) (parameters : Dict) (result : PyObject)
| Op_synthesize_solution (gathered_data solution_plan : Dict)
| Op_verify_solution (solution : PyValue) (verification_criteria : list string)
| Op_make_final_decision (decision reasoning : string) (confidence : Q)
| Op_clear_reasoning.

Definition run_ledger_op (op : LedgerOp) : M unit :=
  match op with
  | Op_add_reasoning_step t r c q a f => add_reasoning_step t r c q a f ;;; ret tt
  | Op_analyze_scenario s => analyze_scenario s ;;; ret tt
  | Op_plan_tool_usage a n => plan_tool_usage a n ;;; ret tt
  | Op_select_tool t r a => select_tool t r a ;;; ret tt
  | Op_record_tool_execution t p r => record_tool_execution t p r ;;; ret tt
  | Op_synthesize_solution g p => synthesize_solution g p ;;; ret tt
  | Op_verify_solution v c => verify_solution v c ;;; ret tt
  | Op_make_final_decision d r q => make_final_decision d r q ;;; ret tt
  | Op_clear_reasoning => clear_reasoning
  end.

(** The world after a sequence of calls, one after the other; a call that
    raises leaves the world as it was when it raised, and the caller goes on. *)
Definition run_ledger_ops (ops : list LedgerOp) (w : World) : World :=
  foldl (fun w op => (run_ledger_op op w).2) w ops.

(** The world once [global_reasoner] has been replaced by a reasoner built
    by the constructor. *)
Definition install_new_reasoner (w : World) : World :=
  match new_reasoner w with
  | (Returned r, w') => (set_reasoner r w').2
  | (Raised _, w') => w'
  end.

(** The invariant of the ledger: the counter equals the number of stored
    steps, and the stored step numbers are 1, 2, ... in order. *)
Definition ledger_ok (r : ChainOfThoughtReasoner.t) : Prop :=
  ChainOfThoughtReasoner.current_step r
  = Z.of_nat (length (ChainOfThoughtReasoner.reasoning_steps r))
  /\ ReasoningStep.step_number <$> ChainOfThoughtReasoner.reasoning_steps r
     = Z.of_nat <$> seq 1 (length (ChainOfThoughtReasoner.reasoning_steps r)).

(** *** [src/tools/base.py] *)

(** The test [param not in kwargs or kwargs[param] is None]. *)
Definition is_missing (kwargs : Kwargs) (param : string) : bool :=
  match kwargs !! param with
  | None => true
  | Some v => is_none v
  end.

(** [BaseTool.validate_parameters] *)
Definition validate_parameters (self : BaseTool.t) (kwargs : Kwargs) : bool * string :=
  let missing_params := List.filter (is_missing kwargs) (BaseTool.required_parameters self) in
  match missing_params with
  | _ :: _ => (false, "Missing required parameters: " +:+ join ", " missing_params)
  | [] => (true, "")
  end.

(** [await self.execute] on the keyword arguments: the call is logged, then the body of the
    tool's coroutine runs. *)
Definition await_execute (self : BaseTool.t) (kwargs : Kwargs) : M ToolResult.t :=
  log_execute (BaseTool.name self) kwargs ;;;
  BaseTool.execute self kwargs.

(** [BaseTool.safe_execute] *)
Definition safe_execute (self : BaseTool.t) (kwargs : Kwargs) : M ToolResult.t :=
  start_time <- datetime_now ;;
  try_except
    (let '(is_valid, error_msg) := validate_parameters self kwargs in
     if negb is_valid then
       ret (ToolResult.mk false [] ("Parameter validation failed: " +:+ error_msg)
              start_time 0 FAILURE (BaseTool.name self) None None)
     else
       result <- await_execute self kwargs ;;
       end_time <- datetime_now ;;
       let execution_time := (total_seconds end_time start_time * 1000)%Q in
       ret (ToolResult.with_execution_time_ms result execution_time))
    (fun e =>
       end_time <- datetime_now ;;
       let execution_time := (total_seconds end_time start_time * 1000)%Q in
       ret (ToolResult.mk false
              [("error", PyStr (exn_str e)); ("error_type", PyStr (exn_type e))]
              ("Tool execution failed: " +:+ exn_str e)
              start_time execution_time FAILURE (BaseTool.name self) None None)).

(** *** [src/tools/logistics.py]: the declared contract of each tool class.
    The simulation in each [execute] body is the environment's. *)

Definition CheckTrafficTool : BaseTool.t :=
  BaseTool.mk "check_traffic"
    ("Check real-time traffic conditions, delays, and congestion levels for specific routes. " +:+
     "Provides estimated delay times and alternative route suggestions. " +:+
     "Required parameters: origin, destination. Optional: current_time, route_preference.")
    "logistics"
    ["origin"; "destination"]
    ["current_time"; "route_preference"; "vehicle_type"]
    (logistics_execute "CheckTrafficTool")
    "CheckTrafficTool".

Definition GetMerchantStatusTool : BaseTool.t :=
  BaseTool.mk "get_merchant_status"
    ("Get current status of restaurant or merchant including order preparation time, " +:+
     "queue length, and availability. Required parameters: merchant_id. " +:+
     "Optional: order_type, priority_level.")
    "logistics"
    ["merchant_id"]
    ["order_type"; "priority_level"]
    (logistics_execute "GetMerchantStatusTool")
    "GetMerchantStatusTool".

Definition NotifyCustomerTool : BaseTool.t :=
  BaseTool.mk "notify_customer"
    ("Send notifications to customers about delivery updates, delays, or issues. " +:+
     "Can include compensation offers and alternative solutions. " +:+
     "Required parameters: customer_id, message_type. " +:+
     "Optional: compensation_type, compensation_amount, estimated_delay.")
    "communication"
    ["customer_id"; "message_type"]
    ["compensation_type"; "compensation_amount"; "estimated_delay"; "alternative_options"]
    (logistics_execute "NotifyCustomerTool")
    "NotifyCustomerTool".

Definition CalculateAlternativeRouteTool : BaseTool.t :=
  BaseTool.mk "calculate_alternative_route"
    ("Calculate alternative delivery routes when primary route is disrupted. " +:+
     "Considers traffic, distance, and delivery constraints. " +:+
     "Required parameters: origin, destination, disruption_type. " +:+
     "Optional: vehicle_type, priority_level, time_constraint.")
    "logistics"
    ["origin"; "destination"; "disruption_type"]
    ["vehicle_type"; "priority_level"; "time_constraint"]
    (logistics_execute "CalculateAlternativeRouteTool")
    "CalculateAlternativeRouteTool".

Definition ContactRecipientTool : BaseTool.t :=
  BaseTool.mk "contact_recipient"
    ("Contact delivery recipient to coordinate delivery details, confirm availability, " +:+
     "or resolve delivery issues. Required parameters: recipient_id, contact_method. " +:+
     "Optional: message_content, urgency_level.")
    "communication"
    ["recipient_id"; "contact_method"]
    ["message_content"; "urgency_level"; "delivery_time_window"]
    (logistics_execute "ContactRecipientTool")
    "ContactRecipientTool".

Definition FindNearbyLockerTool : BaseTool.t :=
  BaseTool.mk "find_nearby_locker"
    ("Find secure parcel lockers near delivery location for safe package storage. " +:+
     "Required parameters: location, package_size. " +:+
     "Optional: max_distance_km, locker_type.")
    "logistics"
    ["location"; "package_size"]
    ["max_distance_km"; "locker_type"; "access_hours"]
    (logistics_execute "FindNearbyLockerTool")
    "FindNearbyLockerTool".

Definition InitiateMediationFlowTool : BaseTool.t :=
  BaseTool.mk "initiate_mediation_flow"
    ("Start formal mediation process for delivery disputes between customers and drivers. " +:+
     "Required parameters: dispute_id, parties_involved. " +:+
     "Optional: dispute_type, severity_level, evidence_available.")
    "dispute_resolution"
    ["dispute_id"; "parties_involved"]
    ["dispute_type"; "severity_level"; "evidence_available"]
    (logistics_execute "InitiateMediationFlowTool")
    "InitiateMediationFlowTool".

Definition AnalyzeEvidenceTool : BaseTool.t :=
  BaseTool.mk "analyze_evidence"
    ("Analyze evidence submitted in delivery disputes to determine facts and fault. " +:+
     "Required parameters: evidence_items, dispute_context. " +:+
     "Optional: analysis_type, bias_check.")
    "dispute_resolution"
    ["evidence_items"; "dispute_context"]
    ["analysis_type"; "bias_check"; "cross_reference"]
    (logistics_execute "AnalyzeEvidenceTool")
    "AnalyzeEvidenceTool".

(** *** [src/tools/registry.py] *)

(** [ToolRegistry.register_custom_tool] *)
Definition register_custom_tool (self : ToolRegistry.t) (tool : BaseTool.t) : ToolRegistry.t :=
  ToolRegistry.mk
    (<[BaseTool.name tool := tool]> (ToolRegistry._tools self))
    (<[BaseTool.name tool := BaseTool.class_name tool]> (ToolRegistry._tool_classes self)).

(** [ToolRegistry._initialize_tools]: one instance of each class, in the
    order of the source; the two assignments of the loop body are those of
    [register_custom_tool]. *)
Definition _initialize_tools (self : ToolRegistry.t) : ToolRegistry.t :=
  let tool_classes :=
    [CheckTrafficTool; GetMerchantStatusTool; NotifyCustomerTool;
     CalculateAlternativeRouteTool; ContactRecipientTool; FindNearbyLockerTool;
     InitiateMediationFlowTool; AnalyzeEvidenceTool] in
  foldl register_custom_tool self tool_classes.

(** [ToolRegistry.__init__], the value of the global [tool_registry] at
    import. *)
Definition new_registry : ToolRegistry.t :=
  _initialize_tools (ToolRegistry.mk ∅ ∅).

(** The names under which [_initialize_tools] registers the eight classes. *)
Definition default_tool_names : list string :=
  ["check_traffic"; "get_merchant_status"; "notify_customer";
   "calculate_alternative_route"; "contact_recipient"; "find_nearby_locker";
   "initiate_mediation_flow"; "analyze_evidence"].

(** [ToolRegistry.get_tool] *)
Definition get_tool (self : ToolRegistry.t) (tool_name : string) : option BaseTool.t :=
  ToolRegistry._tools self !! tool_name.

(** [ToolRegistry.get_all_tools] *)
Definition get_all_tools (self : ToolRegistry.t) : gmap string BaseTool.t :=
  ToolRegistry._tools self.

(** [ToolRegistry.is_tool_available] *)
Definition is_tool_available (self : ToolRegistry.t) (tool_name : string) : bool :=
  bool_decide (is_Some (ToolRegistry._tools self !! tool_name)).

(** [ToolRegistry.get_tools_by_category] *)
Definition get_tools_by_category (self : ToolRegistry.t) (category : string)
  : gmap string BaseTool.t :=
  filter (fun kv => BaseTool.category kv.2 = category) (ToolRegistry._tools self).

(** [ToolRegistry.get_tool_descriptions] *)
Definition get_tool_descriptions (self : ToolRegistry.t) : gmap string string :=
  BaseTool.description <$> ToolRegistry._tools self.

(** *** [src/agent/coordinator.py] *)

(** [SynapseCoordinator.__init__], given the global registry:
    [self.tools = get_available_tools()]. *)
Definition new_coordinator (registry : ToolRegistry.t) : SynapseCoordinator.t :=
  SynapseCoordinator.mk (get_all_tools registry).

(** [state["reasoning_steps"] = [step.to_dict() for step in self.reasoner.reasoning_steps]] *)
Definition snapshot_reasoning_steps (state : AgentState.t) : M AgentState.t :=
  reasoner <- get_reasoner ;;
  ret (AgentState.set_reasoning_steps state
         (step_to_dict <$> ChainOfThoughtReasoner.reasoning_steps reasoner)).

(** The inner [add_call] of [_create_forced_tool_calls], on the list of calls
    built so far. *)
Definition add_call (self : SynapseCoordinator.t) (calls : list ToolCall.t)
    (name : string) (args : Dict) : list ToolCall.t :=
  if bool_decide (is_Some (SynapseCoordinator.tools self !! name)) then
    calls ++ [ToolCall.mk name args
                (Some ("forced_" +:+ name +:+ "_" +:+ pretty (length calls + 1)%nat))]
  else calls.

Definition traffic_keywords : list string :=
  ["traffic"; "congestion"; "road"; "route"; "accident"; "obstruction"; "delay"].
Definition merchant_keywords : list string :=
  ["restaurant"; "merchant"; "kitchen"; "prep"; "order"].
Definition customer_keywords : list string :=
  ["customer"; "recipient"; "address"; "contact"; "notify"].

(** [any(w in s for w in keywords)] *)
Definition any_in (s : string) (keywords : list string) : bool :=
  existsb (contains s) keywords.

(** [SynapseCoordinator._create_forced_tool_calls] *)
Definition _create_forced_tool_calls (self : SynapseCoordinator.t) (scenario : string)
  : M (list ToolCall.t) :=
  let calls : list ToolCall.t := [] in
  let s := lower scenario in
  calls <-
    (if any_in s traffic_keywords then
       now <- datetime_now ;;
       let calls := add_call self calls "check_traffic"
         [("origin", PyStr "Current Location");
          ("destination", PyStr "Delivery Address");
          ("current_time", PyStr (strftime "%H:%M" now))] in
       ret (add_call self calls "calculate_alternative_route"
         [("origin", PyStr "Current Location");
          ("destination", PyStr "Delivery Address");
          ("disruption_type", PyStr "traffic_obstruction")])
     else ret calls) ;;
  let calls :=
    if any_in s merchant_keywords then
      add_call self calls "get_merchant_status" [("merchant_id", PyStr "MERCHANT_001")]
    else calls in
  let calls :=
    if any_in s customer_keywords then
      let calls := add_call self calls "notify_customer"
        [("customer_id", PyStr "CUSTOMER_001");
         ("message_type", PyStr "delay_notification");
         ("estimated_delay", PyInt 15)] in
      add_call self calls "contact_recipient"
        [("recipient_id", PyStr "RECIPIENT_001");
         ("contact_method", PyStr "chat");
         ("urgency_level", PyStr "high")]
    else calls in
  ret (take 3 calls).

(** [SynapseCoordinator._call_model_node]. The model's answer is the content
    and the tool calls of the [AIMessage] it returns; an answer of another
    type is wrapped into an [AIMessage] without tool calls. The tools are
    listed in the enumeration order of the map, which only shows in the text
    of the system prompt and in the context of the PLANNING step. *)
Definition _call_model_node (self : SynapseCoordinator.t) (state : AgentState.t)
  : M AgentState.t :=
  state <-
    (match AgentState.messages state with
     | [] =>
         let tool_desc :=
           join newline
             ((fun kv => "- " +:+ kv.1 +:+ ": " +:+ BaseTool.description kv.2)
                <$> map_to_list (SynapseCoordinator.tools self)) in
         let system_msg := SystemMessage (system_prompt tool_desc) in
         let human_msg :=
           HumanMessage
             ("Analyze and resolve this scenario using the REASONING PROCESS. " +:+
              "Call tools as needed to gather facts before proposing a solution." +:+
              newline +:+ newline +:+
              "Scenario: " +:+ AgentState.scenario state) in
         let state := AgentState.set_messages state [system_msg; human_msg] in
         analyze_scenario (AgentState.scenario state) ;;;
         add_reasoning_step PLANNING
           "Planning tool usage based on scenario; LLM will select appropriate tools via function calling."
           (Some [("available_tools",
                   PyList (PyStr <$> (map_to_list (SynapseCoordinator.tools self)).*1))])
           (85 # 100)
           None
           (Some ["tool_effectiveness"; "data_requirements"]) ;;;
         ret state
     | _ :: _ => ret state
     end) ;;
  n <- next_request ;;
  answer <- lift_outcome (llm_with_tools_ainvoke n (AgentState.messages state)) ;;
  let ai_msg := AIMessage answer.1 answer.2 in
  let state := AgentState.set_messages state (AgentState.messages state ++ [ai_msg]) in
  let has_calls := match answer.2 with [] => false | _ :: _ => true end in
  state <-
    (if negb has_calls && (AgentState.current_iteration state =? 0)%Z then
       forced_calls <- _create_forced_tool_calls self (AgentState.scenario state) ;;
       match forced_calls with
       | _ :: _ =>
           let forced_ai :=
             AIMessage "Calling tools to gather critical facts before proposing a plan."
               forced_calls in
           ret (AgentState.set_messages state (AgentState.messages state ++ [forced_ai]))
       | [] => ret state
       end
     else ret state) ;;
  snapshot_reasoning_steps state.

(** The [tools] node, LangGraph's [ToolNode]: the messages it returns are
    added to the transcript. *)
Definition tools_node (state : AgentState.t) : M AgentState.t :=
  n <- next_request ;;
  new_messages <- lift_outcome (tool_node n (AgentState.messages state)) ;;
  ret (AgentState.set_messages state (AgentState.messages state ++ new_messages)).

(** The loop [for msg in reversed(state["messages"])] that finds the last
    [AIMessage]: its tool calls, or [None] when there is no such message. *)
Definition last_ai_tool_calls (messages : list Message) : option (list ToolCall.t) :=
  list_find (fun m => match m with AIMessage _ _ => true | _ => false end = true)
            (reverse messages)
  ≫= (fun im => match im.2 with AIMessage _ tool_calls => Some tool_calls | _ => None end).

(** The loop that finds the last [ToolMessage] whose [tool_call_id] equals
    [call_id]: its content. *)
Definition find_tool_message (messages : list Message) (call_id : option string)
  : option PyValue :=
  list_find (fun m =>
               match m with
               | ToolMessage _ tool_call_id => bool_decide (Some tool_call_id = call_id)
               | _ => false
               end = true)
            (reverse messages)
  ≫= (fun im => match im.2 with ToolMessage content _ => Some content | _ => None end).

(** [tool_msg.content if isinstance(tool_msg.content, str) else json.dumps(tool_msg.content)] *)
Definition tool_message_text (tool_content : PyValue) : string :=
  match tool_content with
  | PyStr s => s
  | v => json_dumps v
  end.

(** The value of [output_parsed] for one call. *)
Definition parse_tool_output (tool_msg : option PyValue) : PyValue :=
  match tool_msg with
  | Some tool_content =>
      let content := tool_message_text tool_content in
      match json_loads content with
      | Some parsed => parsed
      | None => PyDict [("raw", PyStr content)]
      end
  | None => PyNone
  end.

(** The body of the loop [for call in tool_calls] of [_after_tools_node]. *)
Definition record_call (state : AgentState.t) (call : ToolCall.t) : M AgentState.t :=
  let call_id := ToolCall.id call in
  let tool_name := ToolCall.name call in
  let tool_args := ToolCall.args call in
  let tool_msg := find_tool_message (AgentState.messages state) call_id in
  let output_parsed := parse_tool_output tool_msg in
  now <- datetime_now ;;
  let state :=
    AgentState.set_tool_calls_made state
      (AgentState.tool_calls_made state ++
       [ToolCallRecord.mk tool_name tool_args call_id (isoformat now)]) in
  let state :=
    if negb (is_none output_parsed) then
      AgentState.set_gathered_data state
        (AgentState.gathered_data state ++ [GatheredDataEntry.mk tool_name output_parsed])
    else state in
  record_tool_execution
    (if String.eqb tool_name "" then "unknown_tool" else tool_name)
    tool_args (Json output_parsed) ;;;
  ret state.

Fixpoint record_calls (state : AgentState.t) (tool_calls : list ToolCall.t)
  : M AgentState.t :=
  match tool_calls with
  | [] => ret state
  | call :: rest =>
      state <- record_call state call ;;
      record_calls state rest
  end.

(** The gathered-data entries the bookkeeping adds for one call, given the
    transcript: none or one. *)
Definition entries_for_call (messages : list Message) (call : ToolCall.t)
  : list GatheredDataEntry.t :=
  match find_tool_message messages (ToolCall.id call) with
  | None => []
  | Some tool_content =>
      match json_loads (tool_message_text tool_content) with
      | None =>
          [GatheredDataEntry.mk (ToolCall.name call)
             (PyDict [("raw", PyStr (tool_message_text tool_content))])]
      | Some PyNone => []
      | Some parsed => [GatheredDataEntry.mk (ToolCall.name call) parsed]
      end
  end.

(** [SynapseCoordinator._after_tools_node] *)
Definition _after_tools_node (state : AgentState.t) : M AgentState.t :=
  state <-
    (match last_ai_tool_calls (AgentState.messages state) with
     | Some (call :: rest) => record_calls state (call :: rest)
     | _ => ret state
     end) ;;
  let state :=
    AgentState.set_current_iteration state (AgentState.current_iteration state + 1) in
  snapshot_reasoning_steps state.

(** [SynapseCoordinator._has_tool_calls] *)
Definition _has_tool_calls (state : AgentState.t) : string :=
  match last_ai_tool_calls (AgentState.messages state) with
  | Some (_ :: _) => "use_tools"
  | Some [] => "synthesize"
  | None =>
      match AgentState.messages state with
      | _ :: _ => "retry"
      | [] => "synthesize"
      end
  end.

(** [SynapseCoordinator._should_continue_reasoning] *)
Definition _should_continue_reasoning (state : AgentState.t) : string :=
  if (AgentState.max_iterations state <=? AgentState.current_iteration state)%Z then
    "synthesize"
  else
    let unique_tools : gset string :=
      list_to_set (GatheredDataEntry.tool_name <$> AgentState.gathered_data state) in
    if (3 <=? size unique_tools)%nat then "synthesize" else "continue".

(** [s.find(c)] and [s.rfind(c)] for a one-character [c]: the index of the
    first, respectively last, occurrence, or [-1]. *)
Fixpoint str_find (c : ascii) (s : string) : Z :=
  match s with
  | EmptyString => (-1)%Z
  | String a s' =>
      if Ascii.eqb a c then 0%Z
      else let r := str_find c s' in if (r <? 0)%Z then (-1)%Z else (r + 1)%Z
  end.

Fixpoint str_rfind (c : ascii) (s : string) : Z :=
  match s with
  | EmptyString => (-1)%Z
  | String a s' =>
      let r := str_rfind c s' in
      if (0 <=? r)%Z then (r + 1)%Z
      else if Ascii.eqb a c then 0%Z else (-1)%Z
  end.

(** The fallback of [_extract_solution_from_response]. *)
Definition fallback_solution : PyValue :=
  PyDict
    [("immediate_actions", PyList [PyStr "Analyze situation"; PyStr "Contact relevant parties"]);
     ("alternative_options",
      PyList [PyStr "Option 1: Direct resolution"; PyStr "Option 2: Escalate"]);
     ("communication_plan",
      PyList [PyStr "Notify customer"; PyStr "Update driver"; PyStr "Inform support"]);
     ("follow_up", PyList [PyStr "Monitor resolution"; PyStr "Collect feedback"]);
     ("estimated_resolution_time", PyStr "15-30 minutes");
     ("success_probability", PyFloat (85 # 100))].

(** [SynapseCoordinator._extract_solution_from_response] *)
Definition _extract_solution_from_response (response_content : string) : PyValue :=
  let start := str_find "{"%char response_content in
  let end_ := (str_rfind "}"%char response_content + 1)%Z in
  let decoded :=
    if ((0 <=? start) && (start <? end_))%Z then
      json_loads (String.substring (Z.to_nat start) (Z.to_nat (end_ - start)) response_content)
    else None in
  match decoded with
  | Some plan => plan
  | None => fallback_solution
  end.

(** Character classes of the two patterns, on ASCII text: [\d], [[:\s]] and
    [[0-9.]]. *)
Definition is_digit (c : ascii) : bool :=
  let n := nat_of_ascii c in ((48 <=? n) && (n <=? 57))%nat.

Definition is_space (c : ascii) : bool :=
  let n := nat_of_ascii c in
  (((9 <=? n) && (n <=? 13)) || ((28 <=? n) && (n <=? 32)))%nat.

Definition is_colon_or_space (c : ascii) : bool :=
  Ascii.eqb c ":"%char || is_space c.

Definition is_digit_or_dot (c : ascii) : bool :=
  is_digit c || Ascii.eqb c "."%char.

(** The longest prefix of [s] whose characters satisfy [p], and the rest: a
    greedy [[...]+] takes exactly this prefix when what follows the class in
    the pattern cannot start with a character of the class. *)
Fixpoint span (p : ascii -> bool) (s : string) : string * string :=
  match s with
  | EmptyString => (EmptyString, EmptyString)
  | String c s' =>
      if p c then let '(taken, rest) := span p s' in (String c taken, rest)
      else (EmptyString, s)
  end.

(** The value of a string of decimal digits. *)
Definition digit_value (c : ascii) : Z := Z.of_nat (nat_of_ascii c - 48).

Fixpoint digits_value_from (acc : Z) (s : string) : Z :=
  match s with
  | EmptyString => acc
  | String c s' => digits_value_from (10 * acc + digit_value c) s'
  end.

Definition digits_value (s : string) : Z := digits_value_from 0 s.

(** A match of [(\d+)%] that starts at the first character of [s]: group 1. *)
Definition percent_match_here (s : string) : option string :=
  let '(digits, rest) := span is_digit s in
  match digits, rest with
  | String _ _, String c _ => if Ascii.eqb c "%"%char then Some digits else None
  | _, _ => None
  end.

(** [re.search(r'(\d+)%', s)]: group 1 of the leftmost match. *)
Fixpoint search_percent (s : string) : option string :=
  match percent_match_here s with
  | Some g => Some g
  | None =>
      match s with
      | EmptyString => None
      | String _ s' => search_percent s'
      end
  end.

(** A match of [confidence[:\s]+([0-9.]+)], ignoring case, that starts at the
    first character of [s]: group 1. *)
Definition decimal_match_here (s : string) : option string :=
  if String.prefix "confidence" (lower s) then
    let after_label := String.substring 10 (String.length s - 10) s in
    let '(separators, rest) := span is_colon_or_space after_label in
    let '(number, _) := span is_digit_or_dot rest in
    match separators, number with
    | String _ _, String _ _ => Some number
    | _, _ => None
    end
  else None.

(** [re.search(r'confidence[:\s]+([0-9.]+)', s, re.IGNORECASE)]: group 1 of
    the leftmost match. *)
Fixpoint search_decimal (s : string) : option string :=
  match decimal_match_here s with
  | Some g => Some g
  | None =>
      match s with
      | EmptyString => None
      | String _ s' => search_decimal s'
      end
  end.

(** [float(g)] for a string [g] of digits and dots: digits with at most one
    dot and at least one digit; [None] when it raises [ValueError]. *)
Definition float_of_digits_and_dots (g : string) : option Q :=
  let '(int_part, rest) := span is_digit g in
  match rest with
  | EmptyString =>
      match int_part with
      | EmptyString => None
      | _ => Some (inject_Z (digits_value int_part))
      end
  | String c frac =>
      let '(frac_part, rest') := span is_digit frac in
      match rest' with
      | EmptyString =>
          match int_part, frac_part with
          | EmptyString, EmptyString => None
          | _, _ =>
              Some (inject_Z (digits_value int_part) +
                    inject_Z (digits_value frac_part) /
                    inject_Z (10 ^ Z.of_nat (String.length frac_part)))%Q
          end
      | String _ _ => None
      end
  end.

(** [SynapseCoordinator._extract_confidence_from_response] *)
Definition _extract_confidence_from_response (response_content : string) : Q :=
  match search_percent response_content with
  | Some g => (inject_Z (digits_value g) / 100)%Q
  | None =>
      match search_decimal response_content ≫= float_of_digits_and_dots with
      | Some x => py_min 1 x
      | None => (8 # 10)%Q
      end
  end.

Definition gathered_data_value (gathered_data : list GatheredDataEntry.t) : PyValue :=
  PyList ((fun entry =>
             PyDict [("tool_name", PyStr (GatheredDataEntry.tool_name entry));
                     ("result", GatheredDataEntry.result entry)])
          <$> gathered_data).

(** [SynapseCoordinator._synthesis_node] *)
Definition _synthesis_node (state : AgentState.t) : M AgentState.t :=
  let scenario := AgentState.scenario state in
  let gathered_data := AgentState.gathered_data state in
  add_reasoning_step SYNTHESIS
    "Synthesizing solution plan from gathered tool outputs and scenario context."
    (Some [("gathered_items", PyInt (Z.of_nat (length gathered_data)))])
    (85 # 100)
    None
    (Some ["data_completeness"; "feasibility"; "stakeholder_impact"]) ;;;
  let prompt :=
    synthesis_prompt scenario (json_dumps_indent2 (gathered_data_value gathered_data)) in
  let system_msg := SystemMessage "Create a comprehensive solution plan in JSON format." in
  n <- next_request ;;
  response <- lift_outcome (llm_ainvoke n [system_msg; HumanMessage prompt]) ;;
  let solution_plan := _extract_solution_from_response response in
  let state := AgentState.set_solution_plan state solution_plan in
  let state :=
    AgentState.set_messages state (AgentState.messages state ++ [AIMessage response []]) in
  snapshot_reasoning_steps state.

(** [SynapseCoordinator._verification_node] *)
Definition _verification_node (state : AgentState.t) : M AgentState.t :=
  let scenario := AgentState.scenario state in
  let solution := AgentState.solution_plan state in
  let verification_criteria :=
    ["addresses_all_problems"; "considers_all_stakeholders"; "feasible_implementation";
     "appropriate_alternatives"; "proper_follow_up"] in
  verify_solution solution verification_criteria ;;;
  let prompt := verification_prompt scenario (json_dumps_indent2 solution) in
  let system_msg := SystemMessage "Verify the solution and provide a confidence score." in
  n <- next_request ;;
  response <- lift_outcome (llm_ainvoke n [system_msg; HumanMessage prompt]) ;;
  let confidence := _extract_confidence_from_response response in
  make_final_decision
    "Solution verified and ready for implementation"
    ("Solution addresses scenario with " +:+ format_percent_1 confidence +:+ " confidence")
    confidence ;;;
  let state := AgentState.set_confidence_score state confidence in
  let state := AgentState.set_status state "completed" in
  let state :=
    AgentState.set_messages state (AgentState.messages state ++ [AIMessage response []]) in
  snapshot_reasoning_steps state.

(** *** The compiled workflow of [_create_workflow] *)

(** The function a node runs. *)
Definition run_node (self : SynapseCoordinator.t) (node : Node) (state : AgentState.t)
  : M AgentState.t :=
  match node with
  | N_call_model => _call_model_node self state
  | N_tools => tools_node state
  | N_after_tools => _after_tools_node state
  | N_synthesis => _synthesis_node state
  | N_verification => _verification_node state
  | N_END => ret state
  end.

(** The edges: the two conditional edges map the decision of their routing
    function to the next node. *)
Definition next_node (node : Node) (state : AgentState.t) : Node :=
  match node with
  | N_call_model =>
      let decision := _has_tool_calls state in
      if String.eqb decision "use_tools" then N_tools
      else if String.eqb decision "synthesize" then N_synthesis
      else N_call_model
  | N_tools => N_after_tools
  | N_after_tools =>
      let decision := _should_continue_reasoning state in
      if String.eqb decision "continue" then N_call_model else N_synthesis
  | N_synthesis => N_verification
  | N_verification => N_END
  | N_END => N_END
  end.

(** [workflow.ainvoke]: nodes run one after the other from the entry point
    until the end marker is reached; when the step budget is used up first,
    LangGraph raises [GraphRecursionError]. *)
Fixpoint workflow_run (self : SynapseCoordinator.t) (budget : nat) (node : Node)
    (state : AgentState.t) : M AgentState.t :=
  match budget with
  | O => raise (mkExn "GraphRecursionError" "Recursion limit reached without hitting a stop condition")
  | S budget' =>
      state' <- run_node self node state ;;
      match next_node node state' with
      | N_END => ret state'
      | node' => workflow_run self budget' node' state'
      end
  end.

(** One super-step of the workflow as a relation on configurations: the
    node that runs next, the state and the world. *)
Definition Config : Type := Node * AgentState.t * World.

Inductive workflow_step (self : SynapseCoordinator.t) : Config -> Config -> Prop :=
| workflow_step_intro (node : Node) (state state' : AgentState.t) (w w' : World) :
    node <> N_END ->
    run_node self node state w = (Returned state', w') ->
    workflow_step self (node, state, w) (next_node node state', state', w').

(** The two counters of a state. *)
Definition counters (state : AgentState.t) : Z * Z :=
  (AgentState.current_iteration state, AgentState.max_iterations state).

(** A computation that, when it returns, returns a state with the counters
    of [state]. *)
Definition keeps_counters (state : AgentState.t) (m : M AgentState.t) : Prop :=
  forall w state' w', m w = (Returned state', w') -> counters state' = counters state.

(** The invariant of a run with ceiling [m]: the ceiling is never reassigned,
    the counter stays between 0 and the larger of 1 and [m], and a node of
    the loop only runs while no tool pass has happened yet or the counter is
    below the ceiling. *)
Definition run_invariant (m : Z) (c : Config) : Prop :=
  let '(node, state, _) := c in
  AgentState.max_iterations state = m
  /\ (0 <= AgentState.current_iteration state <= Z.max 1 m)%Z
  /\ match node with
     | N_call_model | N_tools | N_after_tools =>
         AgentState.current_iteration state = 0%Z
         \/ (AgentState.current_iteration state < m)%Z
     | _ => True
     end.

Definition workflow_ainvoke (self : SynapseCoordinator.t) (initial_state : AgentState.t)
  : M AgentState.t :=
  workflow_run self recursion_limit N_call_model initial_state.

(** The [initial_state] of [resolve_scenario]. *)
Definition initial_state (scenario : string) (max_iterations : Z) : AgentState.t :=
  AgentState.mk [] scenario [] [] [] PyNone 0 max_iterations 0 "processing" None.

(** [SynapseCoordinator.resolve_scenario] *)
Definition resolve_scenario (self : SynapseCoordinator.t) (scenario : string)
    (max_iterations : Z) : M ResolutionResult.t :=
  start_time <- datetime_now ;;
  clear_reasoning ;;;
  let initial_state := initial_state scenario max_iterations in
  try_except
    (final_state <- workflow_ainvoke self initial_state ;;
     end_time <- datetime_now ;;
     let execution_time := total_seconds end_time start_time in
     reasoner <- get_reasoner ;;
     ret (ResolutionResult.mk
            (String.eqb (AgentState.status final_state) "completed")
            scenario
            (get_formatted_reasoning reasoner)
            (ToolCallRecord.tool_name <$> AgentState.tool_calls_made final_state)
            (if truthy (AgentState.solution_plan final_state)
             then AgentState.solution_plan final_state else PyDict [])
            (Metrics.mk
               (Z.of_nat (length (AgentState.reasoning_steps final_state)))
               (Z.of_nat (length (AgentState.tool_calls_made final_state)))
               execution_time
               (AgentState.current_iteration final_state)
               (AgentState.confidence_score final_state))
            (AgentState.confidence_score final_state)
            execution_time))
    (fun e =>
       end_time <- datetime_now ;;
       let execution_time := total_seconds end_time start_time in
       reasoner <- get_reasoner ;;
       ret (ResolutionResult.mk
              false
              scenario
              ["Error occurred: " +:+ exn_str e]
              []
              (PyDict [("error", PyStr (exn_str e))])
              (Metrics.mk
                 (Z.of_nat (length (ChainOfThoughtReasoner.reasoning_steps reasoner)))
                 0
                 execution_time
                 0
                 0)
              0
              execution_time)).

End Synapse.

(** ** Concrete collaborators and data for the closed examples

    The properties below hold for every [Python] and [Environment]. The
    closed examples need one of each to run the code on; these are small and
    explicit, and nothing proved in general depends on them. *)

(** A decoder for the examples: it decodes the three keyword documents as
    [json.loads] does and rejects every other text. The examples hand it
    only these documents and texts that are not JSON. *)
Definition json_loads_keywords (s : string) : option PyValue :=
  if String.eqb s "null" then Some PyNone
  else if String.eqb s "true" then Some (PyBool true)
  else if String.eqb s "false" then Some (PyBool false)
  else None.

(** Renderings for the examples: scalars as Python prints them, containers
    by their size only. *)
Definition render_value (v : PyValue) : string :=
  match v with
  | PyNone => "None"
  | PyBool true => "True"
  | PyBool false => "False"
  | PyInt z => pretty z
  | PyFloat q => pretty (Qnum q) +:+ "/" +:+ pretty (Zpos (Qden q))
  | PyStr s => s
  | PyList l => "[" +:+ pretty (length l) +:+ " items]"
  | PyDict d => "{" +:+ pretty (length d) +:+ " keys}"
  end.

Definition example_python : Python := {|
  json_loads := json_loads_keywords;
  json_dumps := render_value;
  json_dumps_indent2 := render_value;
  py_str := render_value;
  str_tool_result := fun r => "ToolResult(" +:+ ToolResult.tool_name r +:+ ")";
  repr_str_list := fun l => "[" +:+ join ", " l +:+ "]";
  isoformat := fun t => pretty t;
  strftime := fun _ t => pretty t;
  format_percent_1 := fun q => pretty (Qfloor (q * 100)) +:+ "%"
|}.

(** A tool node for the examples: every tool call of the last [AIMessage]
    that carries an id is answered by a tool message with that id whose
    content is the text [reply]. *)
Definition reply_to_calls (reply : string) (messages : list Message) : list Message :=
  let last_calls :=
    match list_find (fun m => match m with AIMessage _ _ => true | _ => false end = true)
                    (reverse messages) with
    | Some (_, AIMessage _ calls) => calls
    | _ => []
    end in
  omap (fun call => ToolMessage (PyStr reply) <$> ToolCall.id call) last_calls.

Definition example_logistics_execute (class_name : string) (kwargs : Kwargs)
  : M ToolResult.t :=
  fun w => (Returned (ToolResult.mk true [] "done" 0 500 SUCCESS class_name None None), w).

(** The model answers every request directly, without tool calls; tool
    outputs are a text that is not JSON; the clock advances by one second
    per reading. *)
Definition direct_answer_environment : Environment := {|
  now_at := fun n => (1000000 * Z.of_nat n)%Z;
  llm_with_tools_ainvoke := fun _ _ => Returned ("The delivery can proceed as planned.", []);
  llm_ainvoke := fun _ _ => Returned "No structured plan. Confidence: 0.9";
  tool_node := fun _ messages => Returned (reply_to_calls "Error: tool unavailable" messages);
  recursion_limit := 25;
  logistics_execute := example_logistics_execute;
  system_prompt := fun tool_descriptions => "Available tools: " +:+ tool_descriptions;
  synthesis_prompt := fun scenario tool_results =>
    "Scenario: " +:+ scenario +:+ " Tool Results: " +:+ tool_results;
  verification_prompt := fun scenario solution =>
    "Original Scenario: " +:+ scenario +:+ " Proposed Solution: " +:+ solution
|}.

(** The model is unreachable: every request to it raises. *)
Definition faulting_environment : Environment := {|
  now_at := fun n => (1000000 * Z.of_nat n)%Z;
  llm_with_tools_ainvoke := fun _ _ => Raised (mkExn "ConnectionError" "model unreachable");
  llm_ainvoke := fun _ _ => Raised (mkExn "ConnectionError" "model unreachable");
  tool_node := fun _ messages => Returned (reply_to_calls "Error: tool unavailable" messages);
  recursion_limit := 25;
  logistics_execute := example_logistics_execute;
  system_prompt := fun tool_descriptions => "Available tools: " +:+ tool_descriptions;
  synthesis_prompt := fun scenario tool_results =>
    "Scenario: " +:+ scenario +:+ " Tool Results: " +:+ tool_results;
  verification_prompt := fun scenario solution =>
    "Original Scenario: " +:+ scenario +:+ " Proposed Solution: " +:+ solution
|}.

(** The world at import: no clock reading yet, and a reasoner without steps. *)
Definition world_at_import : World :=
  mkWorld 0 0 (ChainOfThoughtReasoner.mk [] 0 "reasoning_0") [].

(** The registry as the constructor leaves it, its [check_traffic] tool, and
    the coordinator built from it. *)
Definition example_registry : ToolRegistry.t :=
  new_registry (env := direct_answer_environment).

Definition example_check_traffic : BaseTool.t :=
  CheckTrafficTool (env := direct_answer_environment).

Definition example_coordinator : SynapseCoordinator.t :=
  new_coordinator example_registry.

(** A tool that is not one of the eight, registered at runtime. *)
Definition weather_tool : BaseTool.t :=
  BaseTool.mk "check_weather" "Check the weather along a route." "logistics"
    ["location"] [] (example_logistics_execute "CheckWeatherTool") "CheckWeatherTool".

(** Arguments for [check_traffic] that lack the required [destination]. *)
Definition kwargs_without_destination : Kwargs :=
  {[ "origin" := PyStr "Depot" ]}.

(** A state at the continuation check whose gathered data names three tools. *)
Definition state_with_three_tools : AgentState.t :=
  AgentState.mk [] "Heavy traffic, customer order late" [] []
    [GatheredDataEntry.mk "check_traffic" (PyDict []);
     GatheredDataEntry.mk "notify_customer" (PyDict []);
     GatheredDataEntry.mk "check_traffic" (PyDict []);
     GatheredDataEntry.mk "get_merchant_status" (PyDict [])]
    PyNone 1 10 0 "processing" None.

(** A state after the tool node: one dispatched call, answered by a tool
    message whose content is not JSON. *)
Definition traffic_call : ToolCall.t :=
  ToolCall.mk "check_traffic"
    [("origin", PyStr "Current Location"); ("destination", PyStr "Delivery Address")]
    (Some "call_1").

Definition state_with_unparsable_output : AgentState.t :=
  AgentState.mk
    [HumanMessage "Scenario: heavy traffic";
     AIMessage "" [traffic_call];
     ToolMessage (PyStr "Error: tool unavailable") "call_1"]
    "heavy traffic" [] [] [] PyNone 0 10 0 "processing" None.

(** The end of a run of the workflow in the direct-answer environment, from
    the world at import: the final state and world, or the initial state when
    the run raises. *)
Definition direct_answer_run (scenario : string) (max_iterations : Z)
  : AgentState.t * World :=
  match workflow_ainvoke (py := example_python) (env := direct_answer_environment)
          example_coordinator (initial_state scenario max_iterations) world_at_import with
  | (Returned final_state, w) => (final_state, w)
  | (Raised _, w) => (initial_state scenario max_iterations, w)
  end.

(** ** Further functions of the same files, and of [main.py] *)

(** The dict of [export_reasoning_log]; [None] stands for Python's [None]
    in the two metadata times. *)
Module ReasoningLog.
Record t : Type := mk {
  session_id : string;
  summary : ReasoningSummary.t;
  steps : list Dict;
  metadata_total_steps : Z;
  metadata_start_time : option string;
  metadata_end_time : option string
}.
End ReasoningLog.

(** [ToolStatus.value] *)
Definition tool_status_value (s : ToolStatus) : string :=
  match s with
  | SUCCESS => "success"
  | FAILURE => "failure"
  | PARTIAL => "partial"
  | TIMEOUT => "timeout"
  end.

(** [d[k]] on a dict with string keys: raises [KeyError] for a missing key. *)
Definition py_getitem {A} (d : gmap string A) (k : string) : Outcome A :=
  match d !! k with
  | Some v => Returned v
  | None => Raised (mkExn "KeyError" k)
  end.

(** [main._get_builtin_scenarios] *)
Definition _get_builtin_scenarios : gmap string string :=
  <["recipient_unavailable" :=
      "Recipient is not available at the delivery address. Attempt to contact recipient, " +:+
      "consider alternative delivery options like nearby locker or rescheduling."]>
  (<["merchant_delay" :=
      "Restaurant indicates order prep delay due to high volume. Determine current prep time, " +:+
      "coordinate with driver and consider notifying the customer with options."]>
  (<["traffic_obstruction" :=
      "Driver reports heavy traffic and a road obstruction near the main highway, " +:+
      "delivery may be delayed by 20-30 minutes. Need to assess traffic, find alternative " +:+
      "route, and proactively notify the customer."]> ∅)).

(** [main.load_scenario_text], the second of the two definitions of that
    name in [main.py], which is the one in force when [main] runs. An
    argument that is [None] or the empty string is false. *)
Definition load_scenario_text (scenario_id scenario_text : option string) : Outcome string :=
  let by_id :=
    match scenario_id with
    | Some id =>
        if negb (String.eqb id "")
        then Returned (default id (_get_builtin_scenarios !! id))
        else py_getitem _get_builtin_scenarios "traffic_obstruction"
    | None => py_getitem _get_builtin_scenarios "traffic_obstruction"
    end in
  match scenario_text with
  | Some text => if negb (String.eqb text "") then Returned text else by_id
  | None => by_id
  end.

(** The number of super-steps a run with ceiling [m] has left, at most, when
    [node] is about to run in [state]. *)
Definition steps_left (m : Z) (node : Node) (state : AgentState.t) : Z :=
  let remaining := (Z.max 1 m - AgentState.current_iteration state)%Z in
  match node with
  | N_call_model => (3 * remaining + 2)%Z
  | N_tools => (3 * remaining + 1)%Z
  | N_after_tools => (3 * remaining)%Z
  | N_synthesis => 2%Z
  | N_verification => 1%Z
  | N_END => 0%Z
  end.

(** The registry's two maps agree: a tool is stored under its own name, and
    its class is stored under the same name. *)
Definition registry_ok (self : ToolRegistry.t) : Prop :=
  forall n,
    match ToolRegistry._tools self !! n with
    | Some tool =>
        BaseTool.name tool = n
        /\ ToolRegistry._tool_classes self !! n = Some (BaseTool.class_name tool)
    | None => ToolRegistry._tool_classes self !! n = None
    end.

(** The names [_create_forced_tool_calls] may call, in the order of its
    [add_call] statements. *)
Definition forced_tool_names : list string :=
  ["check_traffic"; "calculate_alternative_route"; "get_merchant_status";
   "notify_customer"; "contact_recipient"].

(** What [add_call] maintains: every call names a tool of [self.tools], and
    the id of the call at position [i] (from 0) is
    [forced_<name>_<i+1>]. *)
Definition forced_calls_ok (self : SynapseCoordinator.t) (calls : list ToolCall.t) : Prop :=
  Forall (fun call => is_Some (SynapseCoordinator.tools self !! ToolCall.name call)) calls
  /\ ToolCall.id <$> calls
     = imap (fun i call =>
               Some ("forced_" +:+ ToolCall.name call +:+ "_" +:+ pretty (S i))) calls.

(** Partial correctness in the monad: when [m] returns [a] in world [w'],
    [Q a w'] holds. *)
Definition wp {A} (m : M A) (Q : A -> World -> Prop) (w : World) : Prop :=
  match m w with
  | (Returned a, w') => Q a w'
  | (Raised _, _) => True
  end.

(** [state'] keeps the scenario and the ceiling of [state], and its
    transcript, call records and gathered data extend those of [state]. *)
Definition extends (state state' : AgentState.t) : Prop :=
  AgentState.scenario state' = AgentState.scenario state
  /\ AgentState.max_iterations state' = AgentState.max_iterations state
  /\ AgentState.messages state `prefix_of` AgentState.messages state'
  /\ AgentState.tool_calls_made state `prefix_of` AgentState.tool_calls_made state'
  /\ AgentState.gathered_data state `prefix_of` AgentState.gathered_data state'
  /\ (AgentState.current_iteration state <= AgentState.current_iteration state')%Z.

(** The transcript ends with an [AIMessage]. *)
Definition ends_with_ai (messages : list Message) : Prop :=
  exists front content calls, messages = (front ++ [AIMessage content calls])%list.

(** The number of steps whose type has the value [key]. *)
Definition count_type (key : string) (steps : list ReasoningStep.t) : Z :=
  Z.of_nat (length (List.filter
                      (fun step =>
                         String.eqb (step_type_value (ReasoningStep.step_type step)) key)
                      steps)).

(** The members of [ReasoningStepType]. *)
Definition all_step_types : list ReasoningStepType :=
  [ANALYSIS; PLANNING; TOOL_SELECTION; EXECUTION; SYNTHESIS; VERIFICATION; DECISION].

Section SynapseFurther.
Context {py : Python} {env : Environment}.

(** [ToolResult.to_dict] *)
Definition tool_result_to_dict (r : ToolResult.t) : Dict :=
  [("success", PyBool (ToolResult.success r));
   ("data", PyDict (ToolResult.data r));
   ("message", PyStr (ToolResult.message r));
   ("timestamp", PyStr (isoformat (ToolResult.timestamp r)));
   ("execution_time_ms", PyFloat (ToolResult.execution_time_ms r));
   ("status", PyStr (tool_status_value (ToolResult.status r)));
   ("tool_name", PyStr (ToolResult.tool_name r));
   ("confidence_score",
    match ToolResult.confidence_score r with
    | Some q => PyFloat q
    | None => PyNone
    end);
   ("additional_context", PyDict (default [] (ToolResult.additional_context r)))].

(** [BaseTool.get_schema] *)
Definition get_schema (self : BaseTool.t) : Dict :=
  [("name", PyStr (BaseTool.name self));
   ("description", PyStr (BaseTool.description self));
   ("category", PyStr (BaseTool.category self));
   ("required_parameters", PyList (PyStr <$> BaseTool.required_parameters self));
   ("optional_parameters", PyList (PyStr <$> BaseTool.optional_parameters self))].

(** The [tool_func] that [_create_langchain_tools] builds for a tool: the
    text handed back to the model for a call. *)
Definition tool_func (tool_obj : BaseTool.t) (kwargs : Kwargs) : M string :=
  res <- safe_execute tool_obj kwargs ;;
  ret (json_dumps (PyDict (tool_result_to_dict res))).

(** [ToolRegistry.get_tool_info] *)
Definition get_tool_info (self : ToolRegistry.t) (tool_name : string) : option Dict :=
  match get_tool self tool_name with
  | None => None
  | Some tool =>
      Some [("name", PyStr (BaseTool.name tool));
            ("description", PyStr (BaseTool.description tool));
            ("category", PyStr (BaseTool.category tool));
            ("required_parameters", PyList (PyStr <$> BaseTool.required_parameters tool));
            ("optional_parameters", PyList (PyStr <$> BaseTool.optional_parameters tool));
            ("class", PyStr (BaseTool.class_name tool))]
  end.

(** [ToolRegistry.list_tool_names], in the enumeration order of the map. *)
Definition list_tool_names (self : ToolRegistry.t) : list string :=
  (map_to_list (ToolRegistry._tools self)).*1.

(** [ChainOfThoughtReasoner.export_reasoning_log], on the reasoner [self]. *)
Definition export_reasoning_log (self : ChainOfThoughtReasoner.t) : Outcome ReasoningLog.t :=
  let steps := ChainOfThoughtReasoner.reasoning_steps self in
  bind_outcome (get_reasoning_summary self) (fun summary =>
  bind_outcome
    (match steps with
     | [] => Returned None
     | _ :: _ =>
         bind_outcome (py_index steps 0) (fun first =>
         Returned (Some (isoformat (ReasoningStep.timestamp first))))
     end) (fun start_time =>
  bind_outcome
    (match steps with
     | [] => Returned None
     | _ :: _ =>
         bind_outcome (py_index steps (-1)) (fun last =>
         Returned (Some (isoformat (ReasoningStep.timestamp last))))
     end) (fun end_time =>
  Returned (ReasoningLog.mk
              (ChainOfThoughtReasoner.reasoning_session_id self)
              summary
              (step_to_dict <$> steps)
              (Z.of_nat (length steps))
              start_time
              end_time)))).

(** The state carries the ledger: the ledger is well numbered and
    [state["reasoning_steps"]] holds the dict of each of its steps. *)
Definition mirrors_ledger (state : AgentState.t) (w : World) : Prop :=
  ledger_ok (w_reasoner w)
  /\ AgentState.reasoning_steps state
     = step_to_dict <$> ChainOfThoughtReasoner.reasoning_steps (w_reasoner w).

(** The call names one of the eight tools of the registry, and its
    arguments, passed as keyword arguments, pass that tool's
    [validate_parameters]. *)
Definition accepted_by_default_tool (call : ToolCall.t) : Prop :=
  exists tool,
    get_tool new_registry (ToolCall.name call) = Some tool
    /\ validate_parameters tool (list_to_map (ToolCall.args call)) = (true, "").

End SynapseFurther.

(** Further data for closed instances. A tool whose [execute] raises, and
    arguments that satisfy [check_traffic]. *)
Definition raising_tool : BaseTool.t :=
  BaseTool.mk "check_traffic" "Always fails." "logistics" ["origin"] []
    (fun _ => raise (mkExn "KeyError" "'destination'")) "RaisingTool".

Definition kwargs_with_route : Kwargs :=
  {[ "origin" := PyStr "Depot"; "destination" := PyStr "Main Street 5" ]}.

(** Two results that differ only in the context: absent in the first, the
    empty dict in the second. *)
Definition result_without_context : ToolResult.t :=
  ToolResult.mk true [] "done" 0 500 SUCCESS "check_traffic" None None.

Definition result_with_empty_context : ToolResult.t :=
  ToolResult.mk true [] "done" 0 500 SUCCESS "check_traffic" None (Some []).

(** * Properties *)

Section SynapseProperties.
Context {py : Python} {env : Environment}.

(** ** The monad *)

Lemma bind_returned {A B} (m : M A) (k : A -> M B) (w w' : World) (b : B) :
  (x <- m ;; k x) w = (Returned b, w') ->
  exists a w1, m w = (Returned a, w1) /\ k a w1 = (Returned b, w').
Proof.
  unfold bind. destruct (m w) as [[a|e] w1]; [eauto|discriminate].
Qed.

Lemma ret_returned {A} (a b : A) (w w' : World) :
  ret a w = (Returned b, w') -> a = b /\ w = w'.
Proof. unfold ret. intros [= -> ->]. split; reflexivity. Qed.

Lemma world_after_discard {A} (m : M A) (w : World) :
  ((m ;;; ret tt) w).2 = (m w).2.
Proof. unfold bind, ret. destruct (m w) as [[a|e] w']; reflexivity. Qed.

Lemma world_after_lift {A B} (o : Outcome A) (k : A -> M B) (w : World)
    (P : World -> Prop) :
  P w -> (forall a, P (k a w).2) -> P ((x <- lift_outcome o ;; k x) w).2.
Proof.
  intros Hw Hk. unfold bind, lift_outcome. destruct o as [a|e]; [apply Hk|exact Hw].
Qed.

(** ** The tool contract *)

Lemma is_missing_spec (kwargs : Kwargs) (param : string) :
  is_missing kwargs param = true <-> kwargs !! param = None \/ kwargs !! param = Some PyNone.
Proof.
  unfold is_missing. destruct (kwargs !! param) as [v|]; [|tauto].
  split.
  - destruct v; simpl; intros Hv; try discriminate. right; reflexivity.
  - intros [Hv|Hv]; [discriminate|]. injection Hv as ->. reflexivity.
Qed.

Lemma filter_is_missing_nonempty (kwargs : Kwargs) (required : list string) (param : string) :
  In param required -> is_missing kwargs param = true ->
  List.filter (is_missing kwargs) required <> [].
Proof.
  intros Hin Hmiss Hnil.
  assert (Hf : In param (List.filter (is_missing kwargs) required)).
  { apply filter_In. split; assumption. }
  rewrite Hnil in Hf. destruct Hf.
Qed.

(** What [safe_execute] returns when validation fails, as a function of the
    tool's name and required parameters only. *)
Lemma safe_execute_invalid (self : BaseTool.t) (kwargs : Kwargs) (w : World) :
  List.filter (is_missing kwargs) (BaseTool.required_parameters self) <> [] ->
  safe_execute self kwargs w
  = (Returned
       (ToolResult.mk false []
          ("Parameter validation failed: Missing required parameters: " +:+
           join ", " (List.filter (is_missing kwargs) (BaseTool.required_parameters self)))
          (now_at (w_ticks w)) 0 FAILURE (BaseTool.name self) None None),
     mkWorld (S (w_ticks w)) (w_requests w) (w_reasoner w) (w_executed w)).
Proof.
  intros Hne.
  unfold safe_execute, bind, try_except, datetime_now, validate_parameters.
  destruct (List.filter _ _) as [|p rest]; [congruence|]. reflexivity.
Qed.

(** C1. When some required parameter is absent from the arguments or bound
    to [None], [safe_execute] returns a result with [success = False],
    [status = FAILURE] and [execution_time_ms = 0] whose message lists the
    missing names, in the order of [required_parameters]. The [execute]
    coroutine is not awaited: the log of awaited [execute] calls is the one
    before the call (only the clock was read, once), and a tool with the same
    name and required parameters but any other [execute] gives the same
    result and world. *)
Theorem safe_execute_missing_parameter (self : BaseTool.t) (kwargs : Kwargs) (w : World) :
  (exists param, In param (BaseTool.required_parameters self)
                 /\ (kwargs !! param = None \/ kwargs !! param = Some PyNone)) ->
  exists result missing w',
    safe_execute self kwargs w = (Returned result, w')
    /\ ToolResult.success result = false
    /\ ToolResult.status result = FAILURE
    /\ ToolResult.execution_time_ms result = 0%Q
    /\ ToolResult.message result
       = "Parameter validation failed: Missing required parameters: " +:+ join ", " missing
    /\ missing <> []
    /\ missing = List.filter (is_missing kwargs) (BaseTool.required_parameters self)
    /\ (forall p, In p missing <->
                  In p (BaseTool.required_parameters self)
                  /\ (kwargs !! p = None \/ kwargs !! p = Some PyNone))
    /\ w_executed w' = w_executed w
    /\ w' = mkWorld (S (w_ticks w)) (w_requests w) (w_reasoner w) (w_executed w)
    /\ (forall other_execute,
          safe_execute
            (BaseTool.mk (BaseTool.name self) (BaseTool.description self)
               (BaseTool.category self) (BaseTool.required_parameters self)
               (BaseTool.optional_parameters self) other_execute
               (BaseTool.class_name self)) kwargs w
          = (Returned result, w')).
Proof.
  intros (param & Hin & Hmiss).
  apply is_missing_spec in Hmiss.
  pose proof (filter_is_missing_nonempty kwargs _ param Hin Hmiss) as Hne.
  do 3 eexists. split; [exact (safe_execute_invalid self kwargs w Hne)|].
  do 4 (split; [reflexivity|]).
  split; [exact Hne|]. split; [reflexivity|].
  split.
  { intros p. rewrite filter_In, is_missing_spec. reflexivity. }
  do 2 (split; [reflexivity|]).
  intros other_execute. apply (safe_execute_invalid (BaseTool.mk _ _ _ _ _ _ _) kwargs w Hne).
Qed.

(** ** The registry *)

(** C9, amended. Registering a tool at runtime leaves every entry under
    another name as it was: a lookup of a name other than the new tool's
    returns what it returned before the call, both for the instance and for
    its class. The entry under the new tool's own name is assigned: a lookup
    of that name returns the new tool and its class, whatever was registered
    under it before. *)
Theorem register_custom_tool_frame (self : ToolRegistry.t) (tool : BaseTool.t)
    (tool_name : string) :
  tool_name <> BaseTool.name tool ->
  get_tool (register_custom_tool self tool) tool_name = get_tool self tool_name
  /\ ToolRegistry._tool_classes (register_custom_tool self tool) !! tool_name
     = ToolRegistry._tool_classes self !! tool_name
  /\ (forall previous, get_tool self tool_name = Some previous ->
                       get_tool (register_custom_tool self tool) tool_name = Some previous)
  /\ get_tool (register_custom_tool self tool) (BaseTool.name tool) = Some tool
  /\ ToolRegistry._tool_classes (register_custom_tool self tool) !! BaseTool.name tool
     = Some (BaseTool.class_name tool).
Proof.
  intros Hne.
  assert (Hget : get_tool (register_custom_tool self tool) tool_name = get_tool self tool_name).
  { unfold get_tool, register_custom_tool. simpl. apply lookup_insert_ne. congruence. }
  split; [exact Hget|]. split; [|split; [|split]].
  - unfold register_custom_tool. simpl. apply lookup_insert_ne. congruence.
  - intros previous Hprev. rewrite Hget. exact Hprev.
  - unfold get_tool, register_custom_tool. simpl. apply lookup_insert_eq.
  - unfold register_custom_tool. simpl. apply lookup_insert_eq.
Qed.

Lemma register_custom_tool_keeps (self : ToolRegistry.t) (tool : BaseTool.t) (n : string) :
  is_Some (get_tool self n) -> is_Some (get_tool (register_custom_tool self tool) n).
Proof.
  unfold get_tool, register_custom_tool. simpl. intros Hn.
  destruct (decide (BaseTool.name tool = n)) as [->|Hne].
  - rewrite lookup_insert_eq. eauto.
  - rewrite lookup_insert_ne; assumption.
Qed.

Lemma registrations_keep (customs : list BaseTool.t) (self : ToolRegistry.t) (n : string) :
  is_Some (get_tool self n) -> is_Some (get_tool (foldl register_custom_tool self customs) n).
Proof.
  revert self. induction customs as [|tool customs IH]; intros self Hn; simpl; [exact Hn|].
  apply IH, register_custom_tool_keeps, Hn.
Qed.

Lemma new_registry_defaults (n : string) :
  In n default_tool_names -> is_Some (get_tool new_registry n).
Proof.
  intros Hn. simpl in Hn.
  repeat (destruct Hn as [<-|Hn]; [apply (bool_decide_unpack _); vm_compute; exact I|]).
  destruct Hn.
Qed.

(** Whatever was registered after import, the coordinator's copy of the
    registry has the eight default names. *)
Lemma coordinator_has_defaults (customs : list BaseTool.t) (n : string) :
  In n default_tool_names ->
  bool_decide
    (is_Some (SynapseCoordinator.tools
                (new_coordinator (foldl register_custom_tool new_registry customs)) !! n))
  = true.
Proof.
  intros Hn. apply bool_decide_eq_true.
  apply (registrations_keep customs new_registry n), new_registry_defaults, Hn.
Qed.

(** ** The reasoning ledger *)

Lemma add_reasoning_step_world t r c q a f (w : World) :
  let self := w_reasoner w in
  let step :=
    ReasoningStep.mk (ChainOfThoughtReasoner.current_step self + 1) t r
      (now_at (w_ticks w)) (default [] c) q (default [] a) (default [] f) in
  add_reasoning_step t r c q a f w
  = (Returned step,
     mkWorld (S (w_ticks w)) (w_requests w)
       (ChainOfThoughtReasoner.mk
          (ChainOfThoughtReasoner.reasoning_steps self ++ [step])
          (ChainOfThoughtReasoner.current_step self + 1)
          (ChainOfThoughtReasoner.reasoning_session_id self))
       (w_executed w)).
Proof. reflexivity. Qed.

Lemma ledger_ok_append (self : ChainOfThoughtReasoner.t) (step : ReasoningStep.t) :
  ledger_ok self ->
  ReasoningStep.step_number step = (ChainOfThoughtReasoner.current_step self + 1)%Z ->
  ledger_ok (ChainOfThoughtReasoner.mk
               (ChainOfThoughtReasoner.reasoning_steps self ++ [step])
               (ChainOfThoughtReasoner.current_step self + 1)
               (ChainOfThoughtReasoner.reasoning_session_id self)).
Proof.
  intros [Hcur Hnum] Hstep. unfold ledger_ok. simpl.
  rewrite length_app. simpl. split; [lia|].
  rewrite fmap_app, Hnum. simpl.
  rewrite Nat.add_1_r, seq_S, fmap_app. simpl.
  rewrite Hstep, Hcur. do 3 f_equal. lia.
Qed.

Lemma ledger_ok_add t r c q a f (w : World) :
  ledger_ok (w_reasoner w) ->
  ledger_ok (w_reasoner (add_reasoning_step t r c q a f w).2).
Proof.
  intros Hok. rewrite add_reasoning_step_world. simpl.
  apply ledger_ok_append; [assumption|reflexivity].
Qed.

Lemma ledger_ok_clear (w : World) : ledger_ok (w_reasoner (clear_reasoning w).2).
Proof. split; reflexivity. Qed.

Lemma ledger_ok_new (w : World) : ledger_ok (w_reasoner (install_new_reasoner w)).
Proof. split; reflexivity. Qed.

Lemma ledger_ok_op (op : LedgerOp) (w : World) :
  ledger_ok (w_reasoner w) -> ledger_ok (w_reasoner (run_ledger_op op w).2).
Proof.
  intros Hok. destruct op; cbn [run_ledger_op]; rewrite ?world_after_discard;
    unfold analyze_scenario, plan_tool_usage, select_tool, record_tool_execution,
      make_final_decision;
    try (apply ledger_ok_add; assumption).
  - unfold synthesize_solution.
    apply (world_after_lift _ _ w (fun w => ledger_ok (w_reasoner w))); [assumption|].
    intros n1.
    apply (world_after_lift _ _ w (fun w => ledger_ok (w_reasoner w))); [assumption|].
    intros n2. apply ledger_ok_add; assumption.
  - unfold verify_solution.
    apply (world_after_lift _ _ w (fun w => ledger_ok (w_reasoner w))); [assumption|].
    intros ks. apply ledger_ok_add; assumption.
  - apply ledger_ok_clear.
Qed.

Lemma ledger_ok_ops (ops : list LedgerOp) (w : World) :
  ledger_ok (w_reasoner w) -> ledger_ok (w_reasoner (run_ledger_ops ops w)).
Proof.
  revert w. induction ops as [|op ops IH]; intros w Hok; [exact Hok|].
  simpl. apply IH, ledger_ok_op, Hok.
Qed.

(** C7. In a ledger session, begun by the constructor or by
    [clear_reasoning], after any sequence of calls of the appending methods
    (and of further resets) the step numbers of the stored steps are
    1, 2, ..., n in the order the steps were appended. *)
Theorem step_numbers_gapless (ops : list LedgerOp) (w : World) :
  let numbers (w' : World) :=
    ReasoningStep.step_number <$> ChainOfThoughtReasoner.reasoning_steps (w_reasoner w') in
  let count (w' : World) := length (ChainOfThoughtReasoner.reasoning_steps (w_reasoner w')) in
  let after_clear := run_ledger_ops ops (clear_reasoning w).2 in
  let after_init := run_ledger_ops ops (install_new_reasoner w) in
  numbers after_clear = Z.of_nat <$> seq 1 (count after_clear)
  /\ numbers after_init = Z.of_nat <$> seq 1 (count after_init).
Proof.
  simpl. split.
  - apply (ledger_ok_ops ops), ledger_ok_clear.
  - apply (ledger_ok_ops ops), ledger_ok_new.
Qed.

Lemma py_div_total (x : Q) (n : nat) :
  n <> 0%nat -> exists q, py_div x (Z.of_nat n) = Returned q.
Proof.
  intros Hn. unfold py_div. destruct (Z.of_nat n =? 0)%Z eqn:E; [lia|eauto].
Qed.

Lemma py_index_last {A} (l : list A) : l <> [] -> exists x, py_index l (-1) = Returned x.
Proof.
  intros Hl. unfold py_index.
  replace ((-1 <? 0)%Z) with true by reflexivity.
  assert (Hlen : (0 < length l)%nat) by (destruct l; [congruence|simpl; lia]).
  replace ((0 <=? Z.of_nat (length l) + -1)%Z &&
           (Z.of_nat (length l) + -1 <? Z.of_nat (length l))%Z) with true.
  2:{ symmetry. apply andb_true_iff. split; [apply Z.leb_le|apply Z.ltb_lt]; lia. }
  destruct (l !! Z.to_nat (Z.of_nat (length l) + -1)) as [x|] eqn:E; [eauto|].
  apply lookup_ge_None in E. lia.
Qed.

(** C10. [get_reasoning_summary] returns a summary for every reasoner: the
    division by the number of steps and the two list accesses never raise.
    Without steps the average confidence and the duration are 0; with one
    step the duration is 0. *)
Theorem get_reasoning_summary_total (self : ChainOfThoughtReasoner.t) :
  exists summary,
    get_reasoning_summary self = Returned summary
    /\ (ChainOfThoughtReasoner.reasoning_steps self = [] ->
        (ReasoningSummary.average_confidence summary == 0)%Q
        /\ ReasoningSummary.reasoning_duration summary = 0%Q
        /\ ReasoningSummary.total_steps summary = 0%Z)
    /\ (length (ChainOfThoughtReasoner.reasoning_steps self) = 1%nat ->
        ReasoningSummary.reasoning_duration summary = 0%Q).
Proof.
  unfold get_reasoning_summary.
  destruct (summary_loop _ _ _) as [step_types total_confidence].
  destruct (ChainOfThoughtReasoner.reasoning_steps self) as [|s1 [|s2 rest]] eqn:Hsteps.
  - eexists. split; [reflexivity|]. split; [|discriminate].
    intros _. repeat split; reflexivity.
  - destruct (py_div_total total_confidence 1) as [avg Havg]; [lia|].
    simpl length. rewrite Havg. simpl.
    eexists. split; [reflexivity|]. split; [discriminate|]. reflexivity.
  - destruct (py_div_total total_confidence (length (s1 :: s2 :: rest))) as [avg Havg];
      [simpl; lia|].
    rewrite Havg. simpl bind_outcome at 1.
    destruct (py_index_last (s1 :: s2 :: rest)) as [last Hlast]; [discriminate|].
    rewrite Hlast. cbn [bind_outcome].
    destruct (1 <? _)%Z; cbn [bind_outcome];
      (eexists; split; [reflexivity|]; split; [discriminate|]; simpl; intros; lia).
Qed.

(** ** The workflow: iteration counter and continuation *)

Lemma keeps_counters_ret (state state' : AgentState.t) :
  counters state' = counters state -> keeps_counters state (ret state').
Proof. intros Hc w s w' [<- _]%ret_returned. exact Hc. Qed.

Lemma keeps_counters_bind {A} (state : AgentState.t) (m : M A) (k : A -> M AgentState.t) :
  (forall a, keeps_counters state (k a)) -> keeps_counters state (x <- m ;; k x).
Proof.
  intros Hk w s w' (a & w1 & _ & Hka)%bind_returned. exact (Hk a _ _ _ Hka).
Qed.

Lemma keeps_counters_bind_state (state : AgentState.t) (m : M AgentState.t)
    (k : AgentState.t -> M AgentState.t) :
  keeps_counters state m ->
  (forall s, counters s = counters state -> keeps_counters state (k s)) ->
  keeps_counters state (x <- m ;; k x).
Proof.
  intros Hm Hk w s w' (a & w1 & Hma & Hka)%bind_returned.
  exact (Hk a (Hm _ _ _ Hma) _ _ _ Hka).
Qed.

Lemma keeps_counters_snapshot (state state' : AgentState.t) :
  counters state' = counters state -> keeps_counters state (snapshot_reasoning_steps state').
Proof.
  intros Hc. unfold snapshot_reasoning_steps.
  apply keeps_counters_bind. intros r. apply keeps_counters_ret. exact Hc.
Qed.

Lemma call_model_keeps_counters (self : SynapseCoordinator.t) (state : AgentState.t) :
  keeps_counters state (_call_model_node self state).
Proof.
  unfold _call_model_node.
  apply keeps_counters_bind_state.
  - destruct (AgentState.messages state).
    + do 2 (apply keeps_counters_bind; intros ?). apply keeps_counters_ret. reflexivity.
    + apply keeps_counters_ret. reflexivity.
  - intros s Hs. apply keeps_counters_bind. intros n.
    apply keeps_counters_bind. intros answer.
    apply keeps_counters_bind_state.
    + destruct (_ && _).
      * apply keeps_counters_bind. intros [|c calls]; apply keeps_counters_ret; exact Hs.
      * apply keeps_counters_ret. exact Hs.
    + intros s' Hs'. apply keeps_counters_snapshot. exact Hs'.
Qed.

Lemma tools_node_keeps_counters (state : AgentState.t) :
  keeps_counters state (tools_node state).
Proof.
  unfold tools_node. do 2 (apply keeps_counters_bind; intros ?).
  apply keeps_counters_ret. reflexivity.
Qed.

Lemma record_call_keeps_counters (state0 state : AgentState.t) (call : ToolCall.t) :
  counters state = counters state0 -> keeps_counters state0 (record_call state call).
Proof.
  intros Hc. unfold record_call.
  apply keeps_counters_bind. intros now.
  apply keeps_counters_bind. intros step.
  apply keeps_counters_ret. destruct (negb _); exact Hc.
Qed.

Lemma record_calls_keeps_counters (state0 state : AgentState.t) (calls : list ToolCall.t) :
  counters state = counters state0 -> keeps_counters state0 (record_calls state calls).
Proof.
  revert state. induction calls as [|call rest IH]; intros state Hc; simpl.
  - apply keeps_counters_ret. exact Hc.
  - apply keeps_counters_bind_state.
    + apply record_call_keeps_counters. exact Hc.
    + intros s Hs. apply IH. exact Hs.
Qed.

(** The tool bookkeeping adds one to the iteration counter, once. *)
Lemma after_tools_counters (state state' : AgentState.t) (w w' : World) :
  _after_tools_node state w = (Returned state', w') ->
  counters state'
  = ((AgentState.current_iteration state + 1)%Z, AgentState.max_iterations state).
Proof.
  unfold _after_tools_node.
  intros (s & w1 & Hs & Hsnap)%bind_returned.
  assert (Hc : counters s = counters state).
  { destruct (last_ai_tool_calls _) as [[|call rest]|].
    - apply ret_returned in Hs as [<- _]. reflexivity.
    - exact (record_calls_keeps_counters state state _ eq_refl _ _ _ Hs).
    - apply ret_returned in Hs as [<- _]. reflexivity. }
  unfold snapshot_reasoning_steps in Hsnap.
  apply bind_returned in Hsnap as (r & w2 & _ & [<- _]%ret_returned).
  unfold counters in *. simpl. congruence.
Qed.

Lemma synthesis_keeps_counters (state : AgentState.t) :
  keeps_counters state (_synthesis_node state).
Proof.
  unfold _synthesis_node. do 3 (apply keeps_counters_bind; intros ?).
  apply keeps_counters_snapshot. reflexivity.
Qed.

Lemma verification_keeps_counters (state : AgentState.t) :
  keeps_counters state (_verification_node state).
Proof.
  unfold _verification_node. do 4 (apply keeps_counters_bind; intros ?).
  apply keeps_counters_snapshot. reflexivity.
Qed.

Lemma should_continue_at_ceiling (state : AgentState.t) :
  (AgentState.max_iterations state <= AgentState.current_iteration state)%Z ->
  _should_continue_reasoning state = "synthesize".
Proof.
  intros Hle. unfold _should_continue_reasoning.
  apply Z.leb_le in Hle. rewrite Hle. reflexivity.
Qed.

Lemma should_continue_below_ceiling (state : AgentState.t) :
  _should_continue_reasoning state = "continue" ->
  (AgentState.current_iteration state < AgentState.max_iterations state)%Z.
Proof.
  unfold _should_continue_reasoning.
  destruct (_ <=? _)%Z eqn:E; [discriminate|]. intros _. apply Z.leb_gt in E. exact E.
Qed.

Lemma run_invariant_step (self : SynapseCoordinator.t) (m : Z) (c c' : Config) :
  workflow_step self c c' -> run_invariant m c -> run_invariant m c'.
Proof.
  intros Hstep. destruct Hstep as [node state state' w w' Hnode Hrun].
  unfold run_invariant. intros (Hmax & Hrange & Hnodeinv).
  destruct node; simpl in Hrun; try congruence.
  - apply call_model_keeps_counters in Hrun. injection Hrun as Hi Hm.
    rewrite Hi, Hm. split; [assumption|]. split; [assumption|].
    simpl. destruct (String.eqb _ _); [assumption|].
    destruct (String.eqb _ _); [exact I|assumption].
  - apply tools_node_keeps_counters in Hrun. injection Hrun as Hi Hm.
    rewrite Hi, Hm. simpl. auto.
  - apply after_tools_counters in Hrun. injection Hrun as Hi Hm.
    rewrite Hi, Hm. split; [assumption|]. split; [lia|].
    simpl. destruct (String.eqb _ "continue") eqn:E; [|exact I].
    apply String.eqb_eq, should_continue_below_ceiling in E.
    rewrite Hi, Hm in E. right. lia.
  - apply synthesis_keeps_counters in Hrun. injection Hrun as Hi Hm.
    rewrite Hi, Hm. simpl. auto.
  - apply verification_keeps_counters in Hrun. injection Hrun as Hi Hm.
    rewrite Hi, Hm. simpl. auto.
Qed.

Lemma run_invariant_reachable (self : SynapseCoordinator.t) (m : Z) (c c' : Config) :
  rtc (workflow_step self) c c' -> run_invariant m c -> run_invariant m c'.
Proof.
  induction 1 as [|c1 c2 c3 Hstep _ IH]; [trivial|].
  intros Hinv. apply IH. exact (run_invariant_step self m c1 c2 Hstep Hinv).
Qed.

(** A run of [workflow.ainvoke] that returns has gone through the steps of
    the relation, up to the end marker. *)
Lemma workflow_run_reachable (self : SynapseCoordinator.t) (budget : nat) (node : Node)
    (state state' : AgentState.t) (w w' : World) :
  node <> N_END ->
  workflow_run self budget node state w = (Returned state', w') ->
  rtc (workflow_step self) (node, state, w) (N_END, state', w').
Proof.
  revert node state w. induction budget as [|budget IH]; intros node state w Hnode Hrun.
  - discriminate.
  - simpl in Hrun. apply bind_returned in Hrun as (s & w1 & Hs & Hrest).
    eapply rtc_l; [exact (workflow_step_intro self _ _ _ _ _ Hnode Hs)|].
    destruct (next_node node s) eqn:E;
      try (apply IH; [discriminate|exact Hrest]).
    apply ret_returned in Hrest as [<- <-]. apply rtc_refl.
Qed.

(** C2, as amended. At every configuration a run reaches from the initial
    state with ceiling [max_iterations]: the ceiling is still
    [max_iterations]; the iteration counter is at most the larger of 1 and
    [max_iterations], hence at most [max_iterations] when that is at least 1;
    once the counter has reached a ceiling of at least 1, no node of the
    loop runs again. And in every state whose counter has reached its
    ceiling the continuation decision is ["synthesize"], whatever the
    gathered data. *)
Theorem iteration_counter_bounded (self : SynapseCoordinator.t) (scenario : string)
    (max_iterations : Z) (w : World) (node : Node) (state : AgentState.t) (w' : World) :
  rtc (workflow_step self)
      (N_call_model, initial_state scenario max_iterations, w) (node, state, w') ->
  AgentState.max_iterations state = max_iterations
  /\ (AgentState.current_iteration state <= Z.max 1 max_iterations)%Z
  /\ ((1 <= max_iterations)%Z ->
      (AgentState.current_iteration state <= max_iterations)%Z)
  /\ ((1 <= max_iterations <= AgentState.current_iteration state)%Z ->
      node <> N_call_model /\ node <> N_tools /\ node <> N_after_tools)
  /\ (forall state0,
        (AgentState.max_iterations state0 <= AgentState.current_iteration state0)%Z ->
        _should_continue_reasoning state0 = "synthesize"
        /\ next_node N_after_tools state0 = N_synthesis).
Proof.
  intros Hreach.
  apply (run_invariant_reachable self max_iterations) in Hreach;
    [|unfold run_invariant; simpl; repeat split; auto; lia].
  destruct Hreach as (Hmax & Hrange & Hnode).
  split; [exact Hmax|]. split; [lia|]. split; [lia|]. split.
  - intros Hceil. destruct node; repeat split; try discriminate; intros _; lia.
  - intros state0 Hle. pose proof (should_continue_at_ceiling state0 Hle) as Hd.
    split; [exact Hd|]. unfold next_node. rewrite Hd. reflexivity.
Qed.

(** C3. At the continuation check after tool bookkeeping, when the gathered
    data names at least three distinct tools the decision is ["synthesize"]
    and the next node is the synthesis node, not the model call. *)
Theorem should_continue_three_tools (state : AgentState.t) :
  (3 <= size (list_to_set (GatheredDataEntry.tool_name <$> AgentState.gathered_data state)
              : gset string))%nat ->
  _should_continue_reasoning state = "synthesize"
  /\ next_node N_after_tools state = N_synthesis
  /\ next_node N_after_tools state <> N_call_model.
Proof.
  intros Hsize.
  assert (Hd : _should_continue_reasoning state = "synthesize").
  { unfold _should_continue_reasoning.
    destruct (AgentState.max_iterations state <=? AgentState.current_iteration state)%Z;
      [reflexivity|].
    apply Nat.leb_le in Hsize. rewrite Hsize. reflexivity. }
  split; [exact Hd|]. unfold next_node. rewrite Hd. split; [reflexivity|discriminate].
Qed.

(** ** Tool bookkeeping *)

(** The bookkeeping of one call. *)
Lemma record_call_bookkeeping (state : AgentState.t) (call : ToolCall.t) (w : World) :
  exists state' w' step,
    record_call state call w = (Returned state', w')
    /\ AgentState.messages state' = AgentState.messages state
    /\ AgentState.tool_calls_made state'
       = (AgentState.tool_calls_made state ++
          [ToolCallRecord.mk (ToolCall.name call) (ToolCall.args call) (ToolCall.id call)
             (isoformat (now_at (w_ticks w)))])%list
    /\ ChainOfThoughtReasoner.reasoning_steps (w_reasoner w')
       = (ChainOfThoughtReasoner.reasoning_steps (w_reasoner w) ++ [step])%list
    /\ ReasoningStep.step_type step = EXECUTION
    /\ AgentState.gathered_data state'
       = (AgentState.gathered_data state
          ++ entries_for_call (AgentState.messages state) call)%list.
Proof.
  do 3 eexists. split.
  { unfold record_call, record_tool_execution, add_reasoning_step, bind, ret,
      datetime_now, get_reasoner, set_reasoner.
    cbn [fst snd w_ticks w_requests w_reasoner w_executed
         ChainOfThoughtReasoner.reasoning_steps ChainOfThoughtReasoner.current_step
         ChainOfThoughtReasoner.reasoning_session_id].
    reflexivity. }
  split; [destruct (negb _); reflexivity|].
  split; [destruct (negb _); reflexivity|].
  split; [reflexivity|]. split; [reflexivity|].
  unfold parse_tool_output, entries_for_call.
  destruct (find_tool_message _ _) as [tool_content|]; simpl.
  - destruct (json_loads _) as [parsed|]; simpl.
    + destruct parsed; simpl; rewrite ?app_nil_r; reflexivity.
    + reflexivity.
  - rewrite app_nil_r. reflexivity.
Qed.

(** The bookkeeping of a list of calls, in order. *)
Lemma record_calls_bookkeeping (calls : list ToolCall.t) (state : AgentState.t) (w : World) :
  exists state' w' steps,
    record_calls state calls w = (Returned state', w')
    /\ AgentState.messages state' = AgentState.messages state
    /\ counters state' = counters state
    /\ (fun r => (ToolCallRecord.tool_name r, ToolCallRecord.args r,
                  ToolCallRecord.tool_call_id r)) <$> AgentState.tool_calls_made state'
       = (((fun r => (ToolCallRecord.tool_name r, ToolCallRecord.args r,
                      ToolCallRecord.tool_call_id r)) <$> AgentState.tool_calls_made state)
          ++ ((fun call => (ToolCall.name call, ToolCall.args call, ToolCall.id call))
                <$> calls))%list
    /\ ChainOfThoughtReasoner.reasoning_steps (w_reasoner w')
       = (ChainOfThoughtReasoner.reasoning_steps (w_reasoner w) ++ steps)%list
    /\ ReasoningStep.step_type <$> steps = (fun _ => EXECUTION) <$> calls
    /\ AgentState.gathered_data state'
       = (AgentState.gathered_data state
          ++ flat_map (entries_for_call (AgentState.messages state)) calls)%list.
Proof.
  revert state w. induction calls as [|call rest IH]; intros state w.
  - exists state, w, []. simpl. rewrite !app_nil_r. repeat split; reflexivity.
  - destruct (record_call_bookkeeping state call w)
      as (s1 & w1 & step & Hrun1 & Hmsg1 & Hcalls1 & Hsteps1 & Htype1 & Hdata1).
    destruct (IH s1 w1)
      as (s2 & w2 & steps & Hrun2 & Hmsg2 & Hcnt2 & Hcalls2 & Hsteps2 & Htypes2 & Hdata2).
    exists s2, w2, (step :: steps).
    split.
    { cbn [record_calls]. unfold bind. rewrite Hrun1. exact Hrun2. }
    split; [congruence|].
    split.
    { rewrite Hcnt2.
      exact (record_call_keeps_counters state state call eq_refl w s1 w1 Hrun1). }
    split.
    { rewrite Hcalls2, Hcalls1, fmap_app. cbn [fmap list_fmap].
      rewrite <- app_assoc. reflexivity. }
    split.
    { rewrite Hsteps2, Hsteps1, <- app_assoc. reflexivity. }
    split.
    { cbn [fmap list_fmap]. rewrite Htype1. f_equal. exact Htypes2. }
    rewrite Hdata2, Hdata1, Hmsg1, <- app_assoc. reflexivity.
Qed.

(** C4, as amended. The tool bookkeeping returns, and for the tool calls of
    the last [AIMessage], in order, it appends one tool-call record and one
    EXECUTION step per call, whether or not the output parsed. It appends a
    gathered-data entry for a call exactly when a tool message with the
    call's id is found and its text does not decode to [None]: the decoded
    value when decoding succeeds, the wrapper [{"raw": text}] when decoding
    fails. *)
Theorem after_tools_bookkeeping (state : AgentState.t) (w : World) :
  let calls := default [] (last_ai_tool_calls (AgentState.messages state)) in
  exists state' w' steps,
    _after_tools_node state w = (Returned state', w')
    /\ (fun r => (ToolCallRecord.tool_name r, ToolCallRecord.args r,
                  ToolCallRecord.tool_call_id r)) <$> AgentState.tool_calls_made state'
       = (((fun r => (ToolCallRecord.tool_name r, ToolCallRecord.args r,
                      ToolCallRecord.tool_call_id r)) <$> AgentState.tool_calls_made state)
          ++ ((fun call => (ToolCall.name call, ToolCall.args call, ToolCall.id call))
                <$> calls))%list
    /\ ChainOfThoughtReasoner.reasoning_steps (w_reasoner w')
       = (ChainOfThoughtReasoner.reasoning_steps (w_reasoner w) ++ steps)%list
    /\ ReasoningStep.step_type <$> steps = (fun _ => EXECUTION) <$> calls
    /\ AgentState.gathered_data state'
       = (AgentState.gathered_data state ++
          flat_map
            (fun call =>
               match find_tool_message (AgentState.messages state) (ToolCall.id call) with
               | None => []
               | Some tool_content =>
                   match json_loads (tool_message_text tool_content) with
                   | None =>
                       [GatheredDataEntry.mk (ToolCall.name call)
                          (PyDict [("raw", PyStr (tool_message_text tool_content))])]
                   | Some PyNone => []
                   | Some parsed => [GatheredDataEntry.mk (ToolCall.name call) parsed]
                   end
               end)
            calls)%list.
Proof.
  cbv zeta.
  destruct (record_calls_bookkeeping
              (default [] (last_ai_tool_calls (AgentState.messages state))) state w)
    as (s1 & w1 & steps & Hrun & _ & _ & Hcalls & Hsteps & Htypes & Hdata).
  exists (AgentState.set_reasoning_steps
            (AgentState.set_current_iteration s1 (AgentState.current_iteration s1 + 1))
            (step_to_dict <$> ChainOfThoughtReasoner.reasoning_steps (w_reasoner w1))),
         w1, steps.
  split.
  { unfold _after_tools_node. unfold bind at 1.
    replace (match last_ai_tool_calls (AgentState.messages state) with
             | Some (call :: rest) => record_calls state (call :: rest)
             | _ => ret state
             end w)
      with (record_calls state
              (default [] (last_ai_tool_calls (AgentState.messages state))) w)
      by (destruct (last_ai_tool_calls _) as [[|call rest]|]; reflexivity).
    rewrite Hrun. reflexivity. }
  split; [exact Hcalls|]. split; [exact Hsteps|]. split; [exact Htypes|].
  exact Hdata.
Qed.

(** ** Forced tool calls *)

Lemma prefix_spec (w s : string) :
  String.prefix w s = true <-> exists b, s = w +:+ b.
Proof.
  revert s. induction w as [|c w IH]; intros s.
  - split; [intros _; exists s; reflexivity|]. intros _. destruct s; reflexivity.
  - destruct s as [|d s]; simpl.
    + split; [discriminate|]. intros [b Hb]. discriminate.
    + destruct (ascii_dec c d) as [->|Hne].
      * rewrite IH. split; intros [b Hb]; exists b; [rewrite Hb; reflexivity|].
        injection Hb as Hb. exact Hb.
      * split; [discriminate|]. intros [b Hb]. injection Hb as Hc _. congruence.
Qed.

(** [contains s w] holds exactly when [s] is [a ++ w ++ b] for some [a], [b]. *)
Lemma contains_spec (s w : string) :
  contains s w = true <-> exists a b, s = a +:+ w +:+ b.
Proof.
  induction s as [|c s IH]; cbn [contains].
  - rewrite orb_false_r, prefix_spec. split.
    + intros [b Hb]. exists "", b. exact Hb.
    + intros (a & b & Hab). destruct a; [exists b; exact Hab|discriminate].
  - rewrite orb_true_iff, prefix_spec, IH. split.
    + intros [[b Hb]|(a & b & Hab)].
      * exists "", b. exact Hb.
      * exists (String c a), b. simpl. rewrite Hab. reflexivity.
    + intros (a & b & Hab). destruct a as [|d a].
      * left. exists b. exact Hab.
      * right. injection Hab as _ Hab. exists a, b. exact Hab.
Qed.

Lemma map_string_app (f : ascii -> ascii) (a b : string) :
  map_string f (a +:+ b) = map_string f a +:+ map_string f b.
Proof. induction a as [|c a IH]; simpl; [reflexivity|]. rewrite IH. reflexivity. Qed.

(** Lower-casing the text keeps the occurrences of a word. *)
Lemma contains_lower (s w : string) :
  contains s w = true -> contains (lower s) (lower w) = true.
Proof.
  rewrite !contains_spec. intros (a & b & ->).
  exists (lower a), (lower b). unfold lower. rewrite !map_string_app. reflexivity.
Qed.

Lemma any_in_of_contains (s w : string) (keywords : list string) :
  In w keywords -> contains s w = true -> any_in s keywords = true.
Proof.
  intros Hin Hc. unfold any_in. apply existsb_exists. exists w. split; assumption.
Qed.

(** C5, as amended. For a coordinator built from the registry, with any
    tools registered at runtime, and a scenario text that contains "traffic"
    and "customer": the fallback returns exactly three calls, the first two
    being [check_traffic] and [calculate_alternative_route]. When the
    lower-cased text contains none of the merchant keywords the third is
    [notify_customer], so that there is a customer-notification call; when
    it contains one, the third is [get_merchant_status]. *)
Theorem forced_tool_calls_traffic_customer (customs : list BaseTool.t) (scenario : string)
    (w : World) :
  contains scenario "traffic" = true ->
  contains scenario "customer" = true ->
  exists calls w',
    _create_forced_tool_calls
      (new_coordinator (foldl register_custom_tool new_registry customs)) scenario w
    = (Returned calls, w')
    /\ (length calls <= 3)%nat
    /\ ToolCall.name <$> calls
       = "check_traffic" :: "calculate_alternative_route" ::
         (if any_in (lower scenario) merchant_keywords
          then ["get_merchant_status"] else ["notify_customer"])
    /\ (exists call, In call calls
                     /\ (ToolCall.name call = "check_traffic"
                         \/ ToolCall.name call = "calculate_alternative_route"))
    /\ (any_in (lower scenario) merchant_keywords = false ->
        exists call, In call calls
                     /\ (ToolCall.name call = "notify_customer"
                         \/ ToolCall.name call = "contact_recipient")).
Proof.
  intros Htraffic Hcustomer.
  apply contains_lower in Htraffic, Hcustomer.
  change (lower "traffic") with "traffic" in Htraffic.
  change (lower "customer") with "customer" in Hcustomer.
  pose proof (any_in_of_contains (lower scenario) "traffic" traffic_keywords
                ltac:(simpl; auto) Htraffic) as Ht.
  pose proof (any_in_of_contains (lower scenario) "customer" customer_keywords
                ltac:(simpl; auto) Hcustomer) as Hc.
  set (self := new_coordinator _).
  assert (Hdef : forall calls n args,
             In n default_tool_names ->
             add_call self calls n args
             = (calls ++ [ToolCall.mk n args
                            (Some ("forced_" +:+ n +:+ "_" +:+ pretty (length calls + 1)%nat))])%list).
  { intros calls n args Hn. unfold add_call. subst self.
    rewrite (coordinator_has_defaults customs n Hn). reflexivity. }
  unfold _create_forced_tool_calls. rewrite Ht, Hc.
  unfold bind, datetime_now, ret.
  rewrite !Hdef by (simpl; auto 10).
  destruct (any_in (lower scenario) merchant_keywords).
  - simpl.
    do 2 eexists. split; [reflexivity|]. simpl.
    split; [lia|]. split; [reflexivity|]. split.
    + eexists. split; [left; reflexivity|]. left. reflexivity.
    + discriminate.
  - simpl. do 2 eexists. split; [reflexivity|]. simpl.
    split; [lia|]. split; [reflexivity|]. split.
    + eexists. split; [left; reflexivity|]. left. reflexivity.
    + intros _. eexists. split; [right; right; left; reflexivity|]. left. reflexivity.
Qed.

(** ** Confidence extraction *)

(** A percentage is looked for first: when one is found, the result is its
    number divided by 100, with no upper bound. *)
Lemma extract_confidence_percent (response_content g : string) :
  search_percent response_content = Some g ->
  _extract_confidence_from_response response_content
  = (inject_Z (digits_value g) / 100)%Q.
Proof.
  intros Hp. unfold _extract_confidence_from_response. rewrite Hp. reflexivity.
Qed.

Lemma py_min_le_1 (x : Q) : (py_min 1 x <= 1)%Q.
Proof.
  unfold py_min. destruct (Qlt_le_dec x 1) as [Hlt|Hle].
  - apply Qlt_le_weak, Hlt.
  - apply Qle_refl.
Qed.

(** Without a percentage, a labelled decimal that [float] accepts gives the
    smaller of 1 and its value; otherwise the result is 0.8. *)
Lemma extract_confidence_decimal (response_content g : string) (x : Q) :
  search_percent response_content = None ->
  search_decimal response_content = Some g ->
  float_of_digits_and_dots g = Some x ->
  _extract_confidence_from_response response_content = py_min 1 x.
Proof.
  intros Hp Hd Hf. unfold _extract_confidence_from_response.
  rewrite Hp, Hd. simpl. rewrite Hf. reflexivity.
Qed.

Lemma extract_confidence_default (response_content : string) :
  search_percent response_content = None ->
  search_decimal response_content ≫= float_of_digits_and_dots = None ->
  _extract_confidence_from_response response_content = (8 # 10)%Q.
Proof.
  intros Hp Hd. unfold _extract_confidence_from_response. rewrite Hp, Hd. reflexivity.
Qed.

(** Only the path without a percentage is bounded by 1. *)
Lemma extract_confidence_without_percent_le_1 (response_content : string) :
  search_percent response_content = None ->
  (_extract_confidence_from_response response_content <= 1)%Q.
Proof.
  intros Hp. unfold _extract_confidence_from_response. rewrite Hp.
  destruct (search_decimal response_content ≫= float_of_digits_and_dots) as [x|].
  - apply py_min_le_1.
  - unfold Qle. simpl. lia.
Qed.

(** The three examples of the specification. *)
Lemma extract_confidence_examples :
  (_extract_confidence_from_response "I am 92% confident in this plan" == 92 # 100)%Q
  /\ (_extract_confidence_from_response "confidence: 0.55" == 55 # 100)%Q
  /\ (_extract_confidence_from_response "The plan covers all stakeholders." == 8 # 10)%Q.
Proof. repeat split; reflexivity. Qed.

(** C6, at the input where the code departs from it. For the response
    "I am 150% confident" the percentage is found first and the result is
    150 / 100 = 1.5: it is not clamped to 1.0, while the labelled-decimal
    path is. *)
Theorem extract_confidence_percent_unclamped :
  (_extract_confidence_from_response "I am 150% confident" == 3 # 2)%Q
  /\ ~ (_extract_confidence_from_response "I am 150% confident" <= 1)%Q
  /\ (_extract_confidence_from_response "confidence: 1.5" == 1)%Q.
Proof.
  split; [reflexivity|]. split; [|reflexivity].
  intros Hle. vm_compute in Hle. apply Hle. reflexivity.
Qed.

(** ** The run as a whole *)

(** [resolve_scenario] after its first two statements, by the outcome of the
    workflow. *)
Lemma resolve_scenario_unfold (self : SynapseCoordinator.t) (scenario : string)
    (max_iterations : Z) (w : World) (o : Outcome AgentState.t) (w1 : World) :
  workflow_ainvoke self (initial_state scenario max_iterations)
    (clear_reasoning (datetime_now w).2).2 = (o, w1) ->
  resolve_scenario self scenario max_iterations w
  = match o with
    | Returned final_state =>
        let execution_time := total_seconds (now_at (w_ticks w1)) (now_at (w_ticks w)) in
        (Returned
           (ResolutionResult.mk
              (String.eqb (AgentState.status final_state) "completed")
              scenario
              (get_formatted_reasoning (w_reasoner w1))
              (ToolCallRecord.tool_name <$> AgentState.tool_calls_made final_state)
              (if truthy (AgentState.solution_plan final_state)
               then AgentState.solution_plan final_state else PyDict [])
              (Metrics.mk
                 (Z.of_nat (length (AgentState.reasoning_steps final_state)))
                 (Z.of_nat (length (AgentState.tool_calls_made final_state)))
                 execution_time
                 (AgentState.current_iteration final_state)
                 (AgentState.confidence_score final_state))
              (AgentState.confidence_score final_state)
              execution_time),
         (datetime_now w1).2)
    | Raised e =>
        let execution_time := total_seconds (now_at (w_ticks w1)) (now_at (w_ticks w)) in
        (Returned
           (ResolutionResult.mk false scenario ["Error occurred: " +:+ exn_str e] []
              (PyDict [("error", PyStr (exn_str e))])
              (Metrics.mk
                 (Z.of_nat (length (ChainOfThoughtReasoner.reasoning_steps (w_reasoner w1))))
                 0 execution_time 0 0)
              0 execution_time),
         (datetime_now w1).2)
    end.
Proof.
  intros Hrun.
  assert (Hnow : datetime_now w = (Returned (now_at (w_ticks w)), (datetime_now w).2))
    by reflexivity.
  assert (Hclear : clear_reasoning (datetime_now w).2
                   = (Returned tt, (clear_reasoning (datetime_now w).2).2))
    by reflexivity.
  unfold resolve_scenario. unfold bind at 1. rewrite Hnow.
  unfold bind at 1. rewrite Hclear.
  unfold try_except. unfold bind at 1. rewrite Hrun.
  destruct o as [final_state|e]; reflexivity.
Qed.

(** C8. When the workflow raises, at the first consultation of the model
    or anywhere later, [resolve_scenario] does not raise: it returns a
    result with [success = False], [confidence_score = 0.0] and an empty
    [tools_used], whose only reasoning line and whose plan carry the text of
    the exception. *)
Theorem resolve_scenario_reports_fault (self : SynapseCoordinator.t) (scenario : string)
    (max_iterations : Z) (w : World) (e : Exn) (w1 : World) :
  workflow_ainvoke self (initial_state scenario max_iterations)
    (clear_reasoning (datetime_now w).2).2 = (Raised e, w1) ->
  exists result w',
    resolve_scenario self scenario max_iterations w = (Returned result, w')
    /\ ResolutionResult.success result = false
    /\ ResolutionResult.confidence_score result = 0%Q
    /\ ResolutionResult.tools_used result = []
    /\ ResolutionResult.scenario result = scenario
    /\ ResolutionResult.reasoning_steps result = ["Error occurred: " +:+ exn_str e]
    /\ ResolutionResult.solution_plan result = PyDict [("error", PyStr (exn_str e))].
Proof.
  intros Hfault. rewrite (resolve_scenario_unfold _ _ _ _ _ _ Hfault).
  do 2 eexists. split; [reflexivity|]. repeat split; reflexivity.
Qed.

(** Whatever the workflow does, the caller of [resolve_scenario] gets a
    result, never an exception. *)
Lemma resolve_scenario_total (self : SynapseCoordinator.t) (scenario : string)
    (max_iterations : Z) (w : World) :
  exists result w', resolve_scenario self scenario max_iterations w = (Returned result, w').
Proof.
  destruct (workflow_ainvoke self (initial_state scenario max_iterations)
              (clear_reasoning (datetime_now w).2).2) as [o w1] eqn:Hrun.
  rewrite (resolve_scenario_unfold _ _ _ _ _ _ Hrun).
  destruct o; do 2 eexists; reflexivity.
Qed.

End SynapseProperties.

(** * Closed instances

    Each lemma below runs the code on explicit data, in the example
    environments declared before the properties. *)

(** From [H : run = (outcome, world)], the value of the observation [f] on
    both sides, with the left one evaluated. *)
Ltac observe_run H f := apply (f_equal f) in H; vm_compute in H.

(** [safe_execute_missing_parameter] at [check_traffic] called with an
    origin and no destination. *)
Lemma safe_execute_missing_parameter_witness :
  In "destination"
     (BaseTool.required_parameters example_check_traffic)
  /\ kwargs_without_destination !! "destination" = None
  /\ exists result w',
       safe_execute (env := direct_answer_environment) example_check_traffic
         kwargs_without_destination world_at_import = (Returned result, w')
       /\ ToolResult.success result = false
       /\ ToolResult.status result = FAILURE
       /\ ToolResult.execution_time_ms result = 0%Q
       /\ ToolResult.message result
          = "Parameter validation failed: Missing required parameters: destination"
       /\ w_executed w' = [].
Proof.
  assert (Hin : In "destination"
                   (BaseTool.required_parameters
                      example_check_traffic))
    by (right; left; reflexivity).
  assert (Hnone : kwargs_without_destination !! "destination" = None) by reflexivity.
  split; [exact Hin|]. split; [exact Hnone|].
  destruct (safe_execute_missing_parameter (env := direct_answer_environment)
              example_check_traffic kwargs_without_destination world_at_import
              (ex_intro _ "destination" (conj Hin (or_introl Hnone))))
    as (result & missing & w' & Hrun & Hsuccess & Hstatus & Htime & Hmsg & _ & Hmissing
        & _ & Hlog & _).
  exists result, w'. split; [exact Hrun|].
  split; [exact Hsuccess|]. split; [exact Hstatus|]. split; [exact Htime|].
  split; [|exact Hlog].
  rewrite Hmsg, Hmissing. reflexivity.
Defined.

(** [register_custom_tool_frame] at the registry after import, a weather
    tool registered at runtime, and a lookup of [check_traffic]. *)
Lemma register_custom_tool_frame_witness :
  "check_traffic" <> BaseTool.name weather_tool
  /\ get_tool (register_custom_tool example_registry weather_tool) "check_traffic"
     = Some example_check_traffic
  /\ get_tool (register_custom_tool example_registry weather_tool) "check_weather"
     = Some weather_tool.
Proof.
  assert (Hne : "check_traffic" <> BaseTool.name weather_tool) by discriminate.
  destruct (register_custom_tool_frame example_registry weather_tool
              "check_traffic" Hne) as (_ & _ & Hprev & Hnew & _).
  split; [exact Hne|]. split.
  - apply Hprev. reflexivity.
  - exact Hnew.
Defined.

(** Against C9 as stated: [check_traffic] is registered at import, and a
    tool of the same name whose body raises is registered at runtime. The
    two differ in behaviour (on the same arguments the first returns a
    result and the second raises), and after the call the lookup of
    [check_traffic] returns the new tool, not the instance registered
    before; the class entry changes with it. *)
Lemma register_custom_tool_replaces_entry :
  get_tool example_registry "check_traffic" = Some example_check_traffic
  /\ ToolRegistry._tool_classes example_registry !! "check_traffic"
     = Some "CheckTrafficTool"
  /\ BaseTool.name raising_tool = "check_traffic"
  /\ (exists result,
        BaseTool.execute example_check_traffic kwargs_with_route world_at_import
        = (Returned result, world_at_import))
  /\ (exists e,
        BaseTool.execute raising_tool kwargs_with_route world_at_import
        = (Raised e, world_at_import))
  /\ get_tool (register_custom_tool example_registry raising_tool) "check_traffic"
     = Some raising_tool
  /\ get_tool (register_custom_tool example_registry raising_tool) "check_traffic"
     <> Some example_check_traffic
  /\ ToolRegistry._tool_classes (register_custom_tool example_registry raising_tool)
       !! "check_traffic"
     = Some "RaisingTool".
Proof.
  split; [reflexivity|]. split; [reflexivity|]. split; [reflexivity|].
  split; [eexists; reflexivity|]. split; [eexists; reflexivity|].
  split; [reflexivity|]. split; [|reflexivity].
  intros Heq. apply (inj Some) in Heq.
  apply (f_equal BaseTool.class_name) in Heq. discriminate Heq.
Qed.

(** [should_continue_three_tools] at a state below its ceiling (iteration 1
    of 10) whose four entries name three tools. *)
Lemma should_continue_three_tools_witness :
  (3 <= size (list_to_set
                (GatheredDataEntry.tool_name <$>
                 AgentState.gathered_data state_with_three_tools) : gset string))%nat
  /\ (AgentState.current_iteration state_with_three_tools
      < AgentState.max_iterations state_with_three_tools)%Z
  /\ _should_continue_reasoning state_with_three_tools = "synthesize"
  /\ next_node N_after_tools state_with_three_tools = N_synthesis.
Proof.
  assert (Hsize : (3 <= size (list_to_set
                                (GatheredDataEntry.tool_name <$>
                                 AgentState.gathered_data state_with_three_tools)
                              : gset string))%nat)
    by (vm_compute; apply le_n).
  split; [exact Hsize|]. split; [reflexivity|].
  destruct (should_continue_three_tools state_with_three_tools Hsize) as (Hd & Hn & _).
  split; [exact Hd|exact Hn].
Defined.

(** Against C2 as stated: a run with ceiling 0 in which the model requests
    no tools. The forced calls are dispatched and recorded, the counter
    becomes 1, and the run ends with the counter above its ceiling. *)
Lemma iteration_counter_exceeds_zero_ceiling :
  let run := direct_answer_run "Heavy traffic, customer order late" 0 in
  rtc (workflow_step (py := example_python) (env := direct_answer_environment)
         example_coordinator)
      (N_call_model, initial_state "Heavy traffic, customer order late" 0, world_at_import)
      (N_END, run.1, run.2)
  /\ AgentState.max_iterations run.1 = 0%Z
  /\ AgentState.current_iteration run.1 = 1%Z.
Proof.
  split; [|split; vm_compute; reflexivity].
  apply (workflow_run_reachable (py := example_python) (env := direct_answer_environment)
           example_coordinator 25); [discriminate|].
  vm_compute. reflexivity.
Qed.

(** [iteration_counter_bounded] at the end of a run with ceiling 3 in which
    the model requests no tools. *)
Lemma iteration_counter_bounded_witness :
  let run := direct_answer_run "Heavy traffic, customer order late" 3 in
  rtc (workflow_step (py := example_python) (env := direct_answer_environment)
         example_coordinator)
      (N_call_model, initial_state "Heavy traffic, customer order late" 3, world_at_import)
      (N_END, run.1, run.2)
  /\ AgentState.max_iterations run.1 = 3%Z
  /\ (AgentState.current_iteration run.1 <= 3)%Z
  /\ AgentState.current_iteration run.1 = 1%Z.
Proof.
  assert (Hreach :
            rtc (workflow_step (py := example_python) (env := direct_answer_environment)
                   example_coordinator)
                (N_call_model, initial_state "Heavy traffic, customer order late" 3,
                 world_at_import)
                (N_END, (direct_answer_run "Heavy traffic, customer order late" 3).1,
                 (direct_answer_run "Heavy traffic, customer order late" 3).2)).
  { apply (workflow_run_reachable (py := example_python) (env := direct_answer_environment)
             example_coordinator 25); [discriminate|].
    vm_compute. reflexivity. }
  split; [exact Hreach|].
  destruct (iteration_counter_bounded (py := example_python)
              (env := direct_answer_environment) example_coordinator _ _ _ _ _ _ Hreach)
    as (Hmax & _ & Hle & _).
  split; [exact Hmax|]. split; [apply Hle; discriminate|].
  vm_compute. reflexivity.
Defined.

(** Against C4 as stated: the text of the tool message is not JSON, decoding
    fails, and the bookkeeping still appends a gathered-data entry, holding
    the raw wrapper. *)
Lemma gathered_data_appended_on_parse_failure :
  json_loads (Python := example_python) "Error: tool unavailable" = None
  /\ exists state' w',
       _after_tools_node (py := example_python) (env := direct_answer_environment)
         state_with_unparsable_output world_at_import = (Returned state', w')
       /\ AgentState.gathered_data state'
          = [GatheredDataEntry.mk "check_traffic"
               (PyDict [("raw", PyStr "Error: tool unavailable")])]
       /\ ToolCallRecord.tool_name <$> AgentState.tool_calls_made state' = ["check_traffic"].
Proof.
  split; [reflexivity|].
  destruct (_after_tools_node (py := example_python) (env := direct_answer_environment)
              state_with_unparsable_output world_at_import)
    as [[state'|e] w'] eqn:Hrun.
  - exists state', w'. split; [reflexivity|].
    observe_run Hrun (fun out : Outcome AgentState.t * World =>
                        match out.1 with
                        | Returned state' =>
                            (AgentState.gathered_data state',
                             ToolCallRecord.tool_name <$> AgentState.tool_calls_made state')
                        | Raised _ => ([], [])
                        end).
    injection Hrun as Hgathered Hcalls.
    split; symmetry; assumption.
  - observe_run Hrun (fun out : Outcome AgentState.t * World =>
                        match out.1 with Returned _ => true | Raised _ => false end).
    discriminate Hrun.
Qed.

(** Against C5 as stated: the text contains "traffic" and "customer", and
    also "order". The merchant call takes the third place and the cap of
    three drops both customer calls. *)
Lemma forced_tool_calls_without_customer_call :
  contains "Heavy traffic, customer order late" "traffic" = true
  /\ contains "Heavy traffic, customer order late" "customer" = true
  /\ exists calls w',
       _create_forced_tool_calls (py := example_python) (env := direct_answer_environment)
         example_coordinator "Heavy traffic, customer order late" world_at_import
       = (Returned calls, w')
       /\ ToolCall.name <$> calls
          = ["check_traffic"; "calculate_alternative_route"; "get_merchant_status"]
       /\ Forall (fun name => name <> "notify_customer" /\ name <> "contact_recipient")
                 (ToolCall.name <$> calls).
Proof.
  split; [vm_compute; reflexivity|]. split; [vm_compute; reflexivity|].
  destruct (_create_forced_tool_calls (py := example_python)
              (env := direct_answer_environment) example_coordinator
              "Heavy traffic, customer order late" world_at_import)
    as [[calls|e] w'] eqn:Hrun.
  - exists calls, w'. split; [reflexivity|].
    assert (Hnames : ToolCall.name <$> calls
                     = ["check_traffic"; "calculate_alternative_route";
                        "get_merchant_status"]).
    { observe_run Hrun (fun out : Outcome (list ToolCall.t) * World =>
                          match out.1 with
                          | Returned calls => ToolCall.name <$> calls
                          | Raised _ => []
                          end).
      symmetry. exact Hrun. }
    split; [exact Hnames|]. rewrite Hnames.
    repeat constructor; discriminate.
  - observe_run Hrun (fun out : Outcome (list ToolCall.t) * World =>
                        match out.1 with Returned _ => true | Raised _ => false end).
    discriminate Hrun.
Qed.

(** [forced_tool_calls_traffic_customer] at a text with "traffic" and
    "customer" and no merchant keyword, with a weather tool registered at
    runtime. *)
Lemma forced_tool_calls_traffic_customer_witness :
  contains "Heavy traffic; the customer is waiting" "traffic" = true
  /\ contains "Heavy traffic; the customer is waiting" "customer" = true
  /\ exists calls w',
       _create_forced_tool_calls (py := example_python) (env := direct_answer_environment)
         (new_coordinator (foldl register_custom_tool example_registry [weather_tool]))
         "Heavy traffic; the customer is waiting" world_at_import
       = (Returned calls, w')
       /\ ToolCall.name <$> calls
          = ["check_traffic"; "calculate_alternative_route"; "notify_customer"].
Proof.
  assert (Ht : contains "Heavy traffic; the customer is waiting" "traffic" = true)
    by reflexivity.
  assert (Hc : contains "Heavy traffic; the customer is waiting" "customer" = true)
    by reflexivity.
  split; [exact Ht|]. split; [exact Hc|].
  destruct (forced_tool_calls_traffic_customer (py := example_python)
              (env := direct_answer_environment) [weather_tool]
              "Heavy traffic; the customer is waiting" world_at_import Ht Hc)
    as (calls & w' & Hrun & _ & Hnames & _).
  exists calls, w'. split; [exact Hrun|]. exact Hnames.
Defined.

(** [resolve_scenario_reports_fault] when the model is unreachable: the
    first consultation raises. *)
Lemma resolve_scenario_reports_fault_witness :
  let w0 :=
    (clear_reasoning (py := example_python) (env := faulting_environment)
       (datetime_now (env := faulting_environment) world_at_import).2).2 in
  let out :=
    workflow_ainvoke (py := example_python) (env := faulting_environment)
      example_coordinator (initial_state "Heavy traffic, customer order late" 10) w0 in
  out.1 = Raised (mkExn "ConnectionError" "model unreachable")
  /\ w_requests out.2 = 1%nat
  /\ exists result w',
       resolve_scenario (py := example_python) (env := faulting_environment)
         example_coordinator "Heavy traffic, customer order late" 10 world_at_import
       = (Returned result, w')
       /\ ResolutionResult.success result = false
       /\ ResolutionResult.confidence_score result = 0%Q
       /\ ResolutionResult.tools_used result = [].
Proof.
  cbv zeta.
  set (out := workflow_ainvoke _ _ _).
  assert (Hout : out = (Raised (mkExn "ConnectionError" "model unreachable"), out.2))
    by (vm_compute; reflexivity).
  split; [rewrite Hout; reflexivity|]. split; [vm_compute; reflexivity|].
  destruct (resolve_scenario_reports_fault (py := example_python)
              (env := faulting_environment) example_coordinator
              "Heavy traffic, customer order late" 10 world_at_import _ _ Hout)
    as (result & w' & Hrun & Hsuccess & Hconf & Htools & _).
  exists result, w'. split; [exact Hrun|].
  split; [exact Hsuccess|]. split; [exact Hconf|exact Htools].
Defined.

(** * Further properties *)

Section SynapseFurtherProperties.
Context {py : Python} {env : Environment}.

(** ** The tool contract, further *)

Lemma validate_parameters_valid (self : BaseTool.t) (kwargs : Kwargs) :
  List.filter (is_missing kwargs) (BaseTool.required_parameters self) = [] ->
  validate_parameters self kwargs = (true, "").
Proof. intros Hnil. unfold validate_parameters. rewrite Hnil. reflexivity. Qed.

Lemma filter_is_missing_nil (kwargs : Kwargs) (required : list string) :
  List.filter (is_missing kwargs) required = [] <->
  forall param, In param required ->
                exists v, kwargs !! param = Some v /\ v <> PyNone.
Proof.
  split.
  - intros Hnil param Hin.
    destruct (is_missing kwargs param) eqn:Hm.
    + exfalso. exact (filter_is_missing_nonempty kwargs required param Hin Hm Hnil).
    + unfold is_missing in Hm. destruct (kwargs !! param) as [v|]; [|discriminate].
      exists v. split; [reflexivity|]. intros ->. discriminate.
  - intros Hall. induction required as [|p rest IH]; [reflexivity|].
    simpl. destruct (Hall p (or_introl eq_refl)) as (v & Hv & Hne).
    unfold is_missing at 1. rewrite Hv.
    destruct v; try congruence; simpl; apply IH; intros p' Hp'; apply Hall; right; exact Hp'.
Qed.

(** X1. [validate_parameters] accepts an argument map exactly when every
    required parameter is present and not [None]; then the message is
    empty; otherwise the message is ["Missing required parameters: "]
    followed by the missing names, in the order of
    [required_parameters], joined by [", "]. *)
Theorem validate_parameters_accepts (self : BaseTool.t) (kwargs : Kwargs) :
  ((validate_parameters self kwargs).1 = true <->
   forall param, In param (BaseTool.required_parameters self) ->
                 exists v, kwargs !! param = Some v /\ v <> PyNone)
  /\ ((validate_parameters self kwargs).1 = true ->
      (validate_parameters self kwargs).2 = "")
  /\ ((validate_parameters self kwargs).1 = false ->
      (validate_parameters self kwargs).2
      = "Missing required parameters: " +:+
        join ", " (List.filter (is_missing kwargs) (BaseTool.required_parameters self))).
Proof.
  rewrite <- filter_is_missing_nil. unfold validate_parameters.
  destruct (List.filter _ _) as [|p rest]; simpl.
  - split; [tauto|]. split; [reflexivity|discriminate].
  - split; [split; discriminate|]. split; [discriminate|reflexivity].
Qed.

(** [safe_execute] on complete arguments, by the outcome of the body. *)
Lemma safe_execute_valid (self : BaseTool.t) (kwargs : Kwargs) (w : World) :
  List.filter (is_missing kwargs) (BaseTool.required_parameters self) = [] ->
  safe_execute self kwargs w
  = match BaseTool.execute self kwargs
            (mkWorld (S (w_ticks w)) (w_requests w) (w_reasoner w)
               (w_executed w ++ [(BaseTool.name self, kwargs)])) with
    | (Returned result, w1) =>
        (Returned (ToolResult.with_execution_time_ms result
                     (total_seconds (now_at (w_ticks w1)) (now_at (w_ticks w)) * 1000)%Q),
         (datetime_now w1).2)
    | (Raised e, w1) =>
        (Returned
           (ToolResult.mk false
              [("error", PyStr (exn_str e)); ("error_type", PyStr (exn_type e))]
              ("Tool execution failed: " +:+ exn_str e)
              (now_at (w_ticks w))
              (total_seconds (now_at (w_ticks w1)) (now_at (w_ticks w)) * 1000)%Q
              FAILURE (BaseTool.name self) None None),
         (datetime_now w1).2)
    end.
Proof.
  intros Hnil.
  unfold safe_execute.
  rewrite (validate_parameters_valid self kwargs Hnil).
  cbv beta iota delta [bind try_except datetime_now await_execute log_execute ret negb
                       fst snd w_ticks w_requests w_reasoner w_executed].
  destruct (BaseTool.execute self kwargs _) as [[result|e] w1]; reflexivity.
Qed.

Lemma safe_execute_returns (self : BaseTool.t) (kwargs : Kwargs) (w : World) :
  exists result w', safe_execute self kwargs w = (Returned result, w').
Proof.
  destruct (List.filter (is_missing kwargs) (BaseTool.required_parameters self))
    as [|p rest] eqn:Hf.
  - rewrite (safe_execute_valid self kwargs w Hf).
    destruct (BaseTool.execute self kwargs _) as [[result|e] w1]; do 2 eexists; reflexivity.
  - assert (Hne : List.filter (is_missing kwargs) (BaseTool.required_parameters self) <> [])
      by (rewrite Hf; discriminate).
    rewrite (safe_execute_invalid self kwargs w Hne). do 2 eexists. reflexivity.
Qed.

(** X2. When every required parameter is present and not [None] and the
    body of [execute] returns a result, [safe_execute] returns that result
    with only [execution_time_ms] replaced, by the milliseconds between the
    clock reading taken before validation and the one taken after the body;
    success, data, message, timestamp, status, tool name, confidence and
    context are the body's, and the clock has been read exactly twice. *)
Theorem safe_execute_stamps_time (self : BaseTool.t) (kwargs : Kwargs) (w : World)
    (result : ToolResult.t) (w1 : World) :
  (forall param, In param (BaseTool.required_parameters self) ->
                 exists v, kwargs !! param = Some v /\ v <> PyNone) ->
  BaseTool.execute self kwargs
    (mkWorld (S (w_ticks w)) (w_requests w) (w_reasoner w)
       (w_executed w ++ [(BaseTool.name self, kwargs)])) = (Returned result, w1) ->
  safe_execute self kwargs w
  = (Returned
       (ToolResult.mk (ToolResult.success result) (ToolResult.data result)
          (ToolResult.message result) (ToolResult.timestamp result)
          (total_seconds (now_at (w_ticks w1)) (now_at (w_ticks w)) * 1000)%Q
          (ToolResult.status result) (ToolResult.tool_name result)
          (ToolResult.confidence_score result) (ToolResult.additional_context result)),
     mkWorld (S (w_ticks w1)) (w_requests w1) (w_reasoner w1) (w_executed w1)).
Proof.
  intros Hall Hbody. apply filter_is_missing_nil in Hall.
  rewrite (safe_execute_valid self kwargs w Hall), Hbody. reflexivity.
Qed.

(** X3. When every required parameter is present and not [None] and the
    body of [execute] raises an exception [e], [safe_execute] does not
    raise: it returns a result with [success = False], [status = FAILURE],
    [data = {"error": str(e), "error_type": type(e).__name__}], the message
    ["Tool execution failed: " + str(e)], the start time as timestamp, the
    tool's name, and the measured time. *)
Theorem safe_execute_reports_exception (self : BaseTool.t) (kwargs : Kwargs) (w : World)
    (e : Exn) (w1 : World) :
  (forall param, In param (BaseTool.required_parameters self) ->
                 exists v, kwargs !! param = Some v /\ v <> PyNone) ->
  BaseTool.execute self kwargs
    (mkWorld (S (w_ticks w)) (w_requests w) (w_reasoner w)
       (w_executed w ++ [(BaseTool.name self, kwargs)])) = (Raised e, w1) ->
  safe_execute self kwargs w
  = (Returned
       (ToolResult.mk false
          [("error", PyStr (exn_str e)); ("error_type", PyStr (exn_type e))]
          ("Tool execution failed: " +:+ exn_str e)
          (now_at (w_ticks w))
          (total_seconds (now_at (w_ticks w1)) (now_at (w_ticks w)) * 1000)%Q
          FAILURE (BaseTool.name self) None None),
     mkWorld (S (w_ticks w1)) (w_requests w1) (w_reasoner w1) (w_executed w1)).
Proof.
  intros Hall Hbody. apply filter_is_missing_nil in Hall.
  rewrite (safe_execute_valid self kwargs w Hall), Hbody. reflexivity.
Qed.

(** X4. The function the coordinator hands to LangChain for a tool: for all
    arguments and in every world, [safe_execute] returns a result (it never
    raises, whether validation fails, the body returns or the body raises),
    and [tool_func] returns the JSON text of that result's [to_dict] in the
    world [safe_execute] leaves. [json.dumps] is taken on JSON-like values,
    where it is total. *)
Theorem tool_func_reports_result (tool_obj : BaseTool.t) (kwargs : Kwargs) (w : World) :
  exists result w',
    safe_execute tool_obj kwargs w = (Returned result, w')
    /\ tool_func tool_obj kwargs w
       = (Returned (json_dumps (PyDict (tool_result_to_dict result))), w').
Proof.
  destruct (safe_execute_returns tool_obj kwargs w) as (result & w' & Hrun).
  exists result, w'. split; [exact Hrun|].
  unfold tool_func, bind. rewrite Hrun. reflexivity.
Qed.

Lemma tool_status_value_inj (s1 s2 : ToolStatus) :
  tool_status_value s1 = tool_status_value s2 -> s1 = s2.
Proof. destruct s1, s2; simpl; intros H; try reflexivity; discriminate H. Qed.

(** X5. [ToolResult.to_dict] loses nothing but what [isoformat] and the
    default of the context lose: two results with equal dicts have equal
    success, data, message, execution time, status, tool name and
    confidence score, timestamps with equal ISO texts, and equal contexts
    once [None] is read as the empty dict. *)
Theorem tool_result_to_dict_faithful (r1 r2 : ToolResult.t) :
  tool_result_to_dict r1 = tool_result_to_dict r2 ->
  ToolResult.success r1 = ToolResult.success r2
  /\ ToolResult.data r1 = ToolResult.data r2
  /\ ToolResult.message r1 = ToolResult.message r2
  /\ isoformat (ToolResult.timestamp r1) = isoformat (ToolResult.timestamp r2)
  /\ ToolResult.execution_time_ms r1 = ToolResult.execution_time_ms r2
  /\ ToolResult.status r1 = ToolResult.status r2
  /\ ToolResult.tool_name r1 = ToolResult.tool_name r2
  /\ ToolResult.confidence_score r1 = ToolResult.confidence_score r2
  /\ default [] (ToolResult.additional_context r1)
     = default [] (ToolResult.additional_context r2).
Proof.
  unfold tool_result_to_dict. intros H.
  injection H as Hs Hd Hm Ht He Hst Hn Hc Ha.
  apply tool_status_value_inj in Hst.
  repeat split; try assumption.
  destruct (ToolResult.confidence_score r1), (ToolResult.confidence_score r2);
    congruence.
Qed.

(** ** The registry, further *)

(** X6. After [register_custom_tool(tool)], [get_tool(tool.name)] is
    [tool], [is_tool_available(tool.name)] is true and the class stored
    under that name is the tool's class; registering another tool of the
    same name afterwards replaces it. *)
Theorem register_custom_tool_lookup (self : ToolRegistry.t) (tool : BaseTool.t) :
  get_tool (register_custom_tool self tool) (BaseTool.name tool) = Some tool
  /\ is_tool_available (register_custom_tool self tool) (BaseTool.name tool) = true
  /\ ToolRegistry._tool_classes (register_custom_tool self tool) !! BaseTool.name tool
     = Some (BaseTool.class_name tool)
  /\ (forall tool', BaseTool.name tool' = BaseTool.name tool ->
        get_tool (register_custom_tool (register_custom_tool self tool) tool')
          (BaseTool.name tool) = Some tool').
Proof.
  unfold get_tool, is_tool_available, register_custom_tool. simpl.
  rewrite !lookup_insert_eq. split; [reflexivity|]. split.
  - apply bool_decide_eq_true. eauto.
  - split; [reflexivity|]. intros tool' <-. apply lookup_insert_eq.
Qed.

Lemma registry_ok_empty : registry_ok (ToolRegistry.mk ∅ ∅).
Proof. intros n. simpl. rewrite !lookup_empty. reflexivity. Qed.

Lemma registry_ok_register (self : ToolRegistry.t) (tool : BaseTool.t) :
  registry_ok self -> registry_ok (register_custom_tool self tool).
Proof.
  intros Hok n. unfold register_custom_tool. simpl.
  destruct (decide (BaseTool.name tool = n)) as [<-|Hne].
  - rewrite !lookup_insert_eq. split; reflexivity.
  - rewrite !lookup_insert_ne by assumption. apply Hok.
Qed.

Lemma registry_ok_registrations (tools : list BaseTool.t) (self : ToolRegistry.t) :
  registry_ok self -> registry_ok (foldl register_custom_tool self tools).
Proof.
  revert self. induction tools as [|tool rest IH]; intros self Hok; [exact Hok|].
  simpl. apply IH, registry_ok_register, Hok.
Qed.

Lemma registry_ok_new : registry_ok new_registry.
Proof.
  unfold new_registry, _initialize_tools. apply registry_ok_registrations, registry_ok_empty.
Qed.

(** X7. In the registry as the constructor builds it, after any sequence
    of [register_custom_tool] calls: a tool found under a name has that
    name, and its class is stored under the same name; a name without a
    tool has no class; the eight default names stay available. *)
Theorem registry_keys_are_names (customs : list BaseTool.t) (n : string) :
  (forall tool,
     get_tool (foldl register_custom_tool new_registry customs) n = Some tool ->
     BaseTool.name tool = n
     /\ ToolRegistry._tool_classes (foldl register_custom_tool new_registry customs) !! n
        = Some (BaseTool.class_name tool))
  /\ (get_tool (foldl register_custom_tool new_registry customs) n = None ->
      ToolRegistry._tool_classes (foldl register_custom_tool new_registry customs) !! n
      = None)
  /\ (In n default_tool_names ->
      is_tool_available (foldl register_custom_tool new_registry customs) n = true).
Proof.
  pose proof (registry_ok_registrations customs new_registry registry_ok_new n) as Hok.
  unfold get_tool. split; [|split].
  - intros tool Ht. rewrite Ht in Hok. exact Hok.
  - intros Hn. rewrite Hn in Hok. exact Hok.
  - intros Hin. unfold is_tool_available. apply bool_decide_eq_true.
    apply (registrations_keep customs new_registry n), new_registry_defaults, Hin.
Qed.

Lemma foldl_register_tools (tools : list BaseTool.t) (self : ToolRegistry.t) (n : string) :
  (forall tool, In tool tools -> BaseTool.name tool <> n) ->
  get_tool (foldl register_custom_tool self tools) n = get_tool self n.
Proof.
  revert self. induction tools as [|tool rest IH]; intros self Hne; [reflexivity|].
  simpl. rewrite IH by (intros t Ht; apply Hne; right; exact Ht).
  unfold get_tool, register_custom_tool. simpl.
  apply lookup_insert_ne. apply Hne. left. reflexivity.
Qed.

(** X8. The registry as the constructor builds it holds a tool under a
    name exactly when the name is one of the eight default names; for any
    other name [get_tool] and [get_tool_info] return [None] and
    [is_tool_available] is false. *)
Theorem new_registry_exact (n : string) :
  (is_Some (get_tool new_registry n) <-> In n default_tool_names)
  /\ (~ In n default_tool_names -> get_tool new_registry n = None
                                   /\ get_tool_info new_registry n = None
                                   /\ is_tool_available new_registry n = false).
Proof.
  assert (Hnone : ~ In n default_tool_names -> get_tool new_registry n = None).
  { intros Hn. unfold new_registry, _initialize_tools.
    rewrite foldl_register_tools; [reflexivity|].
    intros tool Ht Heq. apply Hn. rewrite <- Heq.
    simpl in Ht. repeat (destruct Ht as [<-|Ht]; [simpl; auto 10|]). destruct Ht. }
  split.
  - split; [|apply new_registry_defaults].
    intros Hsome. destruct (In_dec String.string_dec n default_tool_names) as [Hin|Hout];
      [exact Hin|].
    rewrite (Hnone Hout) in Hsome. destruct Hsome as [t Ht]. discriminate.
  - intros Hout. pose proof (Hnone Hout) as Hget. split; [exact Hget|]. split.
    + unfold get_tool_info. rewrite Hget. reflexivity.
    + unfold is_tool_available. apply bool_decide_eq_false.
      unfold get_tool in Hget. rewrite Hget. intros [t Ht]. discriminate.
Qed.

(** X9. In the registry as the constructor builds it, after any sequence
    of [register_custom_tool] calls: [get_tool_info(n)] is [None] exactly
    when [n] is not available; otherwise its ["name"] is [n], its ["class"]
    is the class the registry stores under [n], and the whole dict is the
    tool's [get_schema()] followed by the ["class"] entry. *)
Theorem get_tool_info_names_the_tool (customs : list BaseTool.t) (n : string) :
  (get_tool_info (foldl register_custom_tool new_registry customs) n = None
   <-> is_tool_available (foldl register_custom_tool new_registry customs) n = false)
  /\ (forall info,
        get_tool_info (foldl register_custom_tool new_registry customs) n = Some info ->
        dict_get "name" info = Some (PyStr n)
        /\ (PyStr <$> ToolRegistry._tool_classes
                        (foldl register_custom_tool new_registry customs) !! n)
           = dict_get "class" info
        /\ exists tool,
             get_tool (foldl register_custom_tool new_registry customs) n = Some tool
             /\ info = (get_schema tool
                        ++ [("class", PyStr (BaseTool.class_name tool))])%list).
Proof.
  pose proof (registry_ok_registrations customs new_registry registry_ok_new n) as Hok.
  unfold get_tool_info, is_tool_available, get_tool in *.
  destruct (ToolRegistry._tools _ !! n) as [tool|].
  - destruct Hok as [Hname Hclass]. split.
    + split; [discriminate|]. intros Hf. apply bool_decide_eq_false in Hf.
      exfalso. apply Hf. eauto.
    + intros info [= <-]. rewrite Hclass. simpl. rewrite Hname.
      split; [reflexivity|]. split; [reflexivity|].
      exists tool. split; [reflexivity|]. unfold get_schema. rewrite Hname. reflexivity.
  - split.
    + split; [|reflexivity]. intros _. apply bool_decide_eq_false. intros [t Ht]. discriminate.
    + intros info Hinfo. discriminate.
Qed.

(** X10. [list_tool_names] lists exactly the names for which
    [is_tool_available] is true, each once, and as many as [get_all_tools]
    has entries. *)
Theorem list_tool_names_available (self : ToolRegistry.t) (n : string) :
  (In n (list_tool_names self) <-> is_tool_available self n = true)
  /\ NoDup (list_tool_names self)
  /\ length (list_tool_names self) = size (get_all_tools self).
Proof.
  unfold list_tool_names, is_tool_available, get_all_tools. split; [|split].
  - rewrite <- list_elem_of_In, bool_decide_eq_true.
    rewrite list_elem_of_fmap. split.
    + intros ([k t] & -> & Hkt). apply elem_of_map_to_list in Hkt. simpl. eauto.
    + intros [t Ht]. exists (n, t). split; [reflexivity|]. apply elem_of_map_to_list. exact Ht.
  - apply NoDup_fst_map_to_list.
  - rewrite length_fmap. apply length_map_to_list.
Qed.

(** ** Forced tool calls, further *)

Lemma add_call_cases (self : SynapseCoordinator.t) (calls : list ToolCall.t)
    (name : string) (args : Dict) :
  (is_Some (SynapseCoordinator.tools self !! name)
   /\ add_call self calls name args
      = (calls ++ [ToolCall.mk name args
                     (Some ("forced_" +:+ name +:+ "_" +:+ pretty (length calls + 1)%nat))])%list)
  \/ add_call self calls name args = calls.
Proof.
  unfold add_call. destruct (bool_decide _) eqn:E; [left|right; reflexivity].
  apply bool_decide_eq_true in E. split; [exact E|reflexivity].
Qed.

Lemma forced_calls_ok_add (self : SynapseCoordinator.t) (calls : list ToolCall.t)
    (name : string) (args : Dict) :
  forced_calls_ok self calls -> forced_calls_ok self (add_call self calls name args).
Proof.
  intros [Hreg Hids].
  destruct (add_call_cases self calls name args) as [[Hs ->]| ->]; [|split; assumption].
  split.
  - apply Forall_app. split; [exact Hreg|]. constructor; [exact Hs|constructor].
  - rewrite fmap_app, imap_app, Hids. f_equal.
    cbn [fmap list_fmap imap ToolCall.id ToolCall.name compose].
    rewrite Nat.add_0_r, Nat.add_1_r. reflexivity.
Qed.

Lemma forced_calls_ok_take (self : SynapseCoordinator.t) (calls : list ToolCall.t) (k : nat) :
  forced_calls_ok self calls -> forced_calls_ok self (take k calls).
Proof.
  intros [Hreg Hids]. split; [apply Forall_take, Hreg|].
  rewrite fmap_take, Hids. apply list_eq. intros i.
  rewrite list_lookup_imap.
  destruct (decide (i < k)%nat) as [Hlt|Hge].
  - rewrite !lookup_take_lt by assumption. rewrite list_lookup_imap. reflexivity.
  - rewrite !lookup_take_ge by lia. reflexivity.
Qed.

Lemma names_sublist_add (self : SynapseCoordinator.t) (calls : list ToolCall.t)
    (name : string) (args : Dict) (l : list string) :
  ToolCall.name <$> calls `sublist_of` l ->
  ToolCall.name <$> add_call self calls name args `sublist_of` (l ++ [name])%list.
Proof.
  intros Hsub.
  destruct (add_call_cases self calls name args) as [[_ ->]| ->].
  - rewrite fmap_app. apply sublist_app; [exact Hsub|reflexivity].
  - apply sublist_inserts_r, Hsub.
Qed.

Lemma forced_id_inj (n n' : string) (i j : nat) :
  In n forced_tool_names -> In n' forced_tool_names -> (i < 3)%nat -> (j < 3)%nat ->
  "forced_" +:+ n +:+ "_" +:+ pretty (S i) = "forced_" +:+ n' +:+ "_" +:+ pretty (S j) ->
  n = n'.
Proof.
  intros Hn Hn' Hi Hj Heq.
  destruct i as [|[|[|i]]]; try lia; destruct j as [|[|[|j]]]; try lia;
    unfold forced_tool_names in Hn, Hn'; cbn [In] in Hn, Hn';
    repeat (destruct Hn as [<-|Hn]; [|]); try (destruct Hn);
    repeat (destruct Hn' as [<-|Hn']; [|]); try (destruct Hn');
    first [reflexivity | vm_compute in Heq; discriminate Heq].
Qed.

(** The body of [_create_forced_tool_calls] as one expression. *)
Lemma forced_tool_calls_unfold (self : SynapseCoordinator.t) (scenario : string) (w : World) :
  _create_forced_tool_calls self scenario w
  = (let s := lower scenario in
     let calls1 :=
       if any_in s traffic_keywords then
         add_call self
           (add_call self [] "check_traffic"
              [("origin", PyStr "Current Location");
               ("destination", PyStr "Delivery Address");
               ("current_time", PyStr (strftime "%H:%M" (now_at (w_ticks w))))])
           "calculate_alternative_route"
           [("origin", PyStr "Current Location");
            ("destination", PyStr "Delivery Address");
            ("disruption_type", PyStr "traffic_obstruction")]
       else [] in
     let calls2 :=
       if any_in s merchant_keywords then
         add_call self calls1 "get_merchant_status" [("merchant_id", PyStr "MERCHANT_001")]
       else calls1 in
     let calls3 :=
       if any_in s customer_keywords then
         add_call self
           (add_call self calls2 "notify_customer"
              [("customer_id", PyStr "CUSTOMER_001");
               ("message_type", PyStr "delay_notification");
               ("estimated_delay", PyInt 15)])
           "contact_recipient"
           [("recipient_id", PyStr "RECIPIENT_001");
            ("contact_method", PyStr "chat");
            ("urgency_level", PyStr "high")]
       else calls2 in
     (Returned (take 3 calls3),
      if any_in s traffic_keywords
      then mkWorld (S (w_ticks w)) (w_requests w) (w_reasoner w) (w_executed w)
      else w)).
Proof.
  unfold _create_forced_tool_calls, bind, ret, datetime_now. cbv zeta.
  destruct (any_in (lower scenario) traffic_keywords); reflexivity.
Qed.

(** X11. [_create_forced_tool_calls] never raises. It returns at most three
    calls; each names a tool of [self.tools]; the names are distinct and
    appear in the order check_traffic, calculate_alternative_route,
    get_merchant_status, notify_customer, contact_recipient; the id of the
    call at position [i] (from 1) is [forced_<name>_<i>], so the ids are
    pairwise distinct; and when the lower-cased scenario contains no
    keyword of the three groups there is no call and the clock is not
    read. *)
Theorem forced_tool_calls_shape (self : SynapseCoordinator.t) (scenario : string)
    (w : World) :
  exists calls w',
    _create_forced_tool_calls self scenario w = (Returned calls, w')
    /\ (length calls <= 3)%nat
    /\ Forall (fun call => is_Some (SynapseCoordinator.tools self !! ToolCall.name call))
              calls
    /\ ToolCall.name <$> calls `sublist_of` forced_tool_names
    /\ NoDup (ToolCall.id <$> calls)
    /\ ToolCall.id <$> calls
       = imap (fun i call =>
                 Some ("forced_" +:+ ToolCall.name call +:+ "_" +:+ pretty (S i))) calls
    /\ (any_in (lower scenario) traffic_keywords = false ->
        any_in (lower scenario) merchant_keywords = false ->
        any_in (lower scenario) customer_keywords = false ->
        calls = [] /\ w' = w).
Proof.
  rewrite forced_tool_calls_unfold. cbv zeta.
  set (t := any_in (lower scenario) traffic_keywords).
  set (m := any_in (lower scenario) merchant_keywords).
  set (c := any_in (lower scenario) customer_keywords).
  match goal with
  | |- exists calls w', (Returned (take 3 ?l), ?w1) = _ /\ _ =>
      set (calls3 := l); exists (take 3 calls3), w1
  end.
  assert (Hok : forced_calls_ok self calls3).
  { subst calls3. destruct t, m, c;
      repeat apply forced_calls_ok_add; (split; [constructor|reflexivity]). }
  assert (Hsub : ToolCall.name <$> calls3 `sublist_of` forced_tool_names).
  { subst calls3. unfold forced_tool_names.
    assert (H1 : forall (b : bool) calls l n1 a1 n2 a2,
               ToolCall.name <$> calls `sublist_of` l ->
               ToolCall.name <$> (if b then add_call self (add_call self calls n1 a1) n2 a2
                                   else calls) `sublist_of` (l ++ [n1; n2])%list).
    { intros b calls l n1 a1 n2 a2 Hl. destruct b.
      - change (l ++ [n1; n2])%list with (l ++ [n1] ++ [n2])%list. rewrite app_assoc.
        apply names_sublist_add, names_sublist_add, Hl.
      - apply sublist_inserts_r, Hl. }
    assert (H2 : forall (b : bool) calls l n1 a1,
               ToolCall.name <$> calls `sublist_of` l ->
               ToolCall.name <$> (if b then add_call self calls n1 a1 else calls)
               `sublist_of` (l ++ [n1])%list).
    { intros b calls l n1 a1 Hl. destruct b.
      - apply names_sublist_add, Hl.
      - apply sublist_inserts_r, Hl. }
    apply (H1 c _ ["check_traffic"; "calculate_alternative_route"; "get_merchant_status"]).
    apply (H2 m _ ["check_traffic"; "calculate_alternative_route"]).
    apply (H1 t [] []). constructor. }
  destruct (forced_calls_ok_take self calls3 3 Hok) as [Hreg Hids].
  assert (Hsub3 : ToolCall.name <$> take 3 calls3 `sublist_of` forced_tool_names).
  { rewrite fmap_take. etransitivity; [apply sublist_take|exact Hsub]. }
  split; [reflexivity|].
  split; [rewrite length_take; lia|].
  split; [exact Hreg|]. split; [exact Hsub3|].
  split.
  { apply NoDup_alt. intros i j x Hi Hj.
    rewrite Hids in Hi, Hj. rewrite list_lookup_imap in Hi, Hj.
    destruct (take 3 calls3 !! i) as [ci|] eqn:Hci; [|discriminate].
    destruct (take 3 calls3 !! j) as [cj|] eqn:Hcj; [|discriminate].
    simpl in Hi, Hj. rewrite <- Hj in Hi. do 2 apply (inj Some) in Hi.
    assert (Hlen : (length (take 3 calls3) <= 3)%nat) by (rewrite length_take; lia).
    pose proof (lookup_lt_Some _ _ _ Hci) as Hilt.
    pose proof (lookup_lt_Some _ _ _ Hcj) as Hjlt.
    assert (Hni : (ToolCall.name <$> take 3 calls3) !! i = Some (ToolCall.name ci))
      by (rewrite list_lookup_fmap, Hci; reflexivity).
    assert (Hnj : (ToolCall.name <$> take 3 calls3) !! j = Some (ToolCall.name cj))
      by (rewrite list_lookup_fmap, Hcj; reflexivity).
    assert (Hname : ToolCall.name ci = ToolCall.name cj).
    { apply (forced_id_inj _ _ i j); try lia; try exact Hi.
      - apply list_elem_of_In. refine (elem_of_sublist _ _ _ _ Hsub3). exact (list_elem_of_lookup_2 _ i _ Hni).
      - apply list_elem_of_In. refine (elem_of_sublist _ _ _ _ Hsub3). exact (list_elem_of_lookup_2 _ j _ Hnj). }
    rewrite <- Hname in Hnj.
    assert (Hnd : NoDup (ToolCall.name <$> take 3 calls3)).
    { eapply sublist_NoDup; [|exact Hsub3]. unfold forced_tool_names.
      apply (bool_decide_unpack _). vm_compute. exact I. }
    exact (proj1 (NoDup_alt _) Hnd i j _ Hni Hnj). }
  split; [exact Hids|].
  intros Ht Hm Hc. subst calls3. rewrite Ht, Hm, Hc. split; reflexivity.
Qed.

Lemma add_call_accepted (self : SynapseCoordinator.t) (calls : list ToolCall.t)
    (name : string) (args : Dict) :
  (forall id, accepted_by_default_tool (ToolCall.mk name args id)) ->
  Forall accepted_by_default_tool calls ->
  Forall accepted_by_default_tool (add_call self calls name args).
Proof.
  intros Hnew Hcalls.
  destruct (add_call_cases self calls name args) as [[_ ->]| ->]; [|exact Hcalls].
  apply Forall_app. split; [exact Hcalls|]. constructor; [apply Hnew|constructor].
Qed.

Ltac accepted_call :=
  intros id; eexists; split; [vm_compute; reflexivity|vm_compute; reflexivity].

(** X12. Every call [_create_forced_tool_calls] returns names one of the
    eight tools of the registry, and its arguments, passed as keyword
    arguments, pass that tool's [validate_parameters]: with the default
    tools a forced call is never rejected for a missing parameter. *)
Theorem forced_tool_calls_pass_validation (self : SynapseCoordinator.t) (scenario : string)
    (w : World) :
  exists calls w',
    _create_forced_tool_calls self scenario w = (Returned calls, w')
    /\ Forall (fun call =>
                 exists tool,
                   get_tool new_registry (ToolCall.name call) = Some tool
                   /\ validate_parameters tool (list_to_map (ToolCall.args call))
                      = (true, "")) calls.
Proof.
  rewrite forced_tool_calls_unfold. cbv zeta.
  do 2 eexists. split; [reflexivity|].
  match goal with
  | |- Forall _ ?l => change (Forall accepted_by_default_tool l)
  end.
  apply Forall_take.
  destruct (any_in (lower scenario) customer_keywords),
           (any_in (lower scenario) merchant_keywords),
           (any_in (lower scenario) traffic_keywords);
    repeat (apply add_call_accepted; [accepted_call|]); constructor.
Qed.

(** ** The nodes and the workflow, further *)

Lemma wp_returned {A} (m : M A) (Q : A -> World -> Prop) (w w' : World) (a : A) :
  wp m Q w -> m w = (Returned a, w') -> Q a w'.
Proof. unfold wp. intros H E. rewrite E in H. exact H. Qed.

Lemma wp_intro {A} (m : M A) (Q : A -> World -> Prop) (w : World) :
  (forall a w', m w = (Returned a, w') -> Q a w') -> wp m Q w.
Proof. unfold wp. destruct (m w) as [[a|e] w']; auto. Qed.

Lemma wp_mono {A} (m : M A) (Q Q' : A -> World -> Prop) (w : World) :
  (forall a w', Q a w' -> Q' a w') -> wp m Q w -> wp m Q' w.
Proof. unfold wp. destruct (m w) as [[a|e] w']; auto. Qed.

Lemma wp_bind {A B} (m : M A) (k : A -> M B) (Q : B -> World -> Prop) (w : World) :
  wp m (fun a w1 => wp (k a) Q w1) w -> wp (x <- m ;; k x) Q w.
Proof. unfold wp, bind. destruct (m w) as [[a|e] w1]; auto. Qed.

Lemma wp_ret {A} (a : A) (Q : A -> World -> Prop) (w : World) :
  Q a w -> wp (ret a) Q w.
Proof. exact id. Qed.

Lemma wp_lift {A} (o : Outcome A) (Q : A -> World -> Prop) (w : World) :
  (forall a, o = Returned a -> Q a w) -> wp (lift_outcome o) Q w.
Proof. unfold wp, lift_outcome. destruct o; auto. Qed.

Lemma wp_datetime_now (Q : Z -> World -> Prop) (w : World) :
  Q (now_at (w_ticks w))
    (mkWorld (S (w_ticks w)) (w_requests w) (w_reasoner w) (w_executed w)) ->
  wp datetime_now Q w.
Proof. exact id. Qed.

Lemma wp_next_request (Q : nat -> World -> Prop) (w : World) :
  Q (w_requests w)
    (mkWorld (w_ticks w) (S (w_requests w)) (w_reasoner w) (w_executed w)) ->
  wp next_request Q w.
Proof. exact id. Qed.

Lemma wp_get_reasoner (Q : ChainOfThoughtReasoner.t -> World -> Prop) (w : World) :
  Q (w_reasoner w) w -> wp get_reasoner Q w.
Proof. exact id. Qed.

Lemma wp_add_reasoning_step t r c q a f (Q : ReasoningStep.t -> World -> Prop) (w : World) :
  (forall step,
     ReasoningStep.step_number step = (ChainOfThoughtReasoner.current_step (w_reasoner w) + 1)%Z ->
     ReasoningStep.step_type step = t ->
     ReasoningStep.confidence step = q ->
     Q step
       (mkWorld (S (w_ticks w)) (w_requests w)
          (ChainOfThoughtReasoner.mk
             (ChainOfThoughtReasoner.reasoning_steps (w_reasoner w) ++ [step])
             (ChainOfThoughtReasoner.current_step (w_reasoner w) + 1)
             (ChainOfThoughtReasoner.reasoning_session_id (w_reasoner w)))
          (w_executed w))) ->
  wp (add_reasoning_step t r c q a f) Q w.
Proof.
  intros H. unfold wp. rewrite add_reasoning_step_world. cbv zeta.
  apply H; reflexivity.
Qed.

Lemma wp_forced_tool_calls (self : SynapseCoordinator.t) (scenario : string)
    (Q : list ToolCall.t -> World -> Prop) (w : World) :
  (forall calls ticks,
     Q calls (mkWorld ticks (w_requests w) (w_reasoner w) (w_executed w))) ->
  wp (_create_forced_tool_calls self scenario) Q w.
Proof.
  intros H. unfold wp. rewrite forced_tool_calls_unfold. cbv zeta.
  destruct (any_in (lower scenario) traffic_keywords); [apply H|].
  destruct w. apply H.
Qed.

Ltac wp_step :=
  lazymatch goal with
  | |- wp (bind _ _) _ _ => apply wp_bind
  | |- wp (ret _) _ _ => apply wp_ret
  | |- wp datetime_now _ _ => apply wp_datetime_now
  | |- wp next_request _ _ => apply wp_next_request
  | |- wp get_reasoner _ _ => apply wp_get_reasoner
  | |- wp (lift_outcome _) _ _ => apply wp_lift; intros ? ?
  | |- wp (add_reasoning_step _ _ _ _ _ _) _ _ =>
      apply wp_add_reasoning_step; intros ? ? ? ?
  | |- wp (_create_forced_tool_calls _ _) _ _ => apply wp_forced_tool_calls; intros ? ?
  | |- wp (analyze_scenario _) _ _ => unfold analyze_scenario
  | |- wp (record_tool_execution _ _ _) _ _ => unfold record_tool_execution
  | |- wp (verify_solution _ _) _ _ => unfold verify_solution
  | |- wp (make_final_decision _ _ _) _ _ => unfold make_final_decision
  | |- wp (snapshot_reasoning_steps _) _ _ => unfold snapshot_reasoning_steps
  | |- wp (if ?b then _ else _) _ _ => destruct b eqn:?
  | |- wp (match ?x with _ => _ end) _ _ => destruct x eqn:?
  | |- wp (let _ := _ in _) _ _ => cbv zeta
  end.

Ltac state_simpl :=
  cbn [AgentState.messages AgentState.scenario AgentState.reasoning_steps
       AgentState.tool_calls_made AgentState.gathered_data AgentState.solution_plan
       AgentState.current_iteration AgentState.max_iterations AgentState.confidence_score
       AgentState.status AgentState.pending_tool_calls
       AgentState.set_messages AgentState.set_reasoning_steps AgentState.set_tool_calls_made
       AgentState.set_gathered_data AgentState.set_solution_plan
       AgentState.set_current_iteration AgentState.set_confidence_score
       AgentState.set_status
       w_ticks w_requests w_reasoner w_executed
       ChainOfThoughtReasoner.reasoning_steps ChainOfThoughtReasoner.current_step
       ChainOfThoughtReasoner.reasoning_session_id].

(** The last AI message of the transcript. *)

Lemma last_ai_tool_calls_app_ai (front : list Message) (content : string)
    (calls : list ToolCall.t) :
  last_ai_tool_calls (front ++ [AIMessage content calls]) = Some calls.
Proof.
  unfold last_ai_tool_calls. rewrite reverse_app. reflexivity.
Qed.

Lemma call_model_ends_with_ai (self : SynapseCoordinator.t) (state : AgentState.t)
    (w : World) :
  wp (_call_model_node self state)
     (fun state' _ => ends_with_ai (AgentState.messages state')) w.
Proof.
  unfold _call_model_node. repeat wp_step; state_simpl; unfold ends_with_ai; eauto.
Qed.

Lemma has_tool_calls_ends_with_ai (state : AgentState.t) :
  ends_with_ai (AgentState.messages state) ->
  _has_tool_calls state <> "retry"
  /\ (next_node N_call_model state = N_tools \/ next_node N_call_model state = N_synthesis).
Proof.
  intros (front & content & calls & Hm).
  unfold next_node, _has_tool_calls. rewrite Hm, last_ai_tool_calls_app_ai.
  destruct calls; simpl; split; auto; discriminate.
Qed.

(** X13. When [_call_model_node] returns, the transcript ends with an
    [AIMessage] (the model's answer or the forced-call message), so
    [_has_tool_calls] finds a last AI message and never answers ["retry"]:
    the node that follows [call_model] is [tools] or [synthesis], never
    [call_model] again. *)
Theorem call_model_never_retries (self : SynapseCoordinator.t) (state state' : AgentState.t)
    (w w' : World) :
  _call_model_node self state w = (Returned state', w') ->
  (exists calls, last_ai_tool_calls (AgentState.messages state') = Some calls)
  /\ _has_tool_calls state' <> "retry"
  /\ (next_node N_call_model state' = N_tools
      \/ next_node N_call_model state' = N_synthesis).
Proof.
  intros Hrun.
  pose proof (wp_returned _ _ _ _ _ (call_model_ends_with_ai self state w) Hrun) as Hai.
  split; [|exact (has_tool_calls_ends_with_ai state' Hai)].
  destruct Hai as (front & content & calls & ->). exists calls.
  apply last_ai_tool_calls_app_ai.
Qed.

(** The state only grows. *)

Lemma extends_refl (state : AgentState.t) : extends state state.
Proof. unfold extends. repeat split; reflexivity. Qed.

Lemma extends_trans (s1 s2 s3 : AgentState.t) :
  extends s1 s2 -> extends s2 s3 -> extends s1 s3.
Proof.
  intros (Hs & Hm & Hmsg & Ht & Hg & Hi) (Hs' & Hm' & Hmsg' & Ht' & Hg' & Hi').
  unfold extends. repeat split; try congruence; try (etransitivity; eassumption).
Qed.

Lemma extends_fields (state state' : AgentState.t) :
  AgentState.scenario state' = AgentState.scenario state ->
  AgentState.max_iterations state' = AgentState.max_iterations state ->
  AgentState.messages state `prefix_of` AgentState.messages state' ->
  AgentState.tool_calls_made state `prefix_of` AgentState.tool_calls_made state' ->
  AgentState.gathered_data state `prefix_of` AgentState.gathered_data state' ->
  (AgentState.current_iteration state <= AgentState.current_iteration state')%Z ->
  extends state state'.
Proof. unfold extends. auto 10. Qed.

Lemma record_call_extends (state : AgentState.t) (call : ToolCall.t) (w : World) :
  wp (record_call state call) (fun state' _ => extends state state') w.
Proof.
  unfold record_call. repeat wp_step.
  destruct (negb (is_none _)); apply extends_fields; state_simpl;
    try reflexivity; try apply prefix_app_r; reflexivity.
Qed.

Lemma record_calls_extends (calls : list ToolCall.t) (state : AgentState.t) (w : World) :
  wp (record_calls state calls) (fun state' _ => extends state state') w.
Proof.
  revert state w. induction calls as [|call rest IH]; intros state w; simpl.
  - apply wp_ret, extends_refl.
  - apply wp_bind. eapply wp_mono; [|apply record_call_extends].
    intros s1 w1 H1. eapply wp_mono; [|apply IH].
    intros s2 w2 H2. exact (extends_trans _ _ _ H1 H2).
Qed.

Lemma run_node_extends (self : SynapseCoordinator.t) (node : Node) (state : AgentState.t)
    (w : World) :
  wp (run_node self node state) (fun state' _ => extends state state') w.
Proof.
  destruct node; cbn [run_node].
  - unfold _call_model_node.
    repeat wp_step; apply extends_fields; state_simpl; try reflexivity;
      repeat match goal with H : AgentState.messages _ = _ |- _ => rewrite H end;
      try apply prefix_nil;
      try (rewrite <- ?app_assoc; apply prefix_app_r; reflexivity).
  - unfold tools_node.
    repeat wp_step; apply extends_fields; state_simpl; try reflexivity.
    apply prefix_app_r. reflexivity.
  - unfold _after_tools_node. apply wp_bind.
    eapply wp_mono; [|instantiate (1 := fun s _ => extends state s)].
    + intros s1 w1 H1. repeat wp_step.
      apply (extends_trans _ _ _ H1).
      apply extends_fields; state_simpl; try reflexivity. lia.
    + destruct (last_ai_tool_calls _) as [[|call rest]|].
      * apply wp_ret, extends_refl.
      * apply record_calls_extends.
      * apply wp_ret, extends_refl.
  - unfold _synthesis_node.
    repeat wp_step; apply extends_fields; state_simpl; try reflexivity.
    apply prefix_app_r. reflexivity.
  - unfold _verification_node.
    repeat wp_step; apply extends_fields; state_simpl; try reflexivity.
    apply prefix_app_r. reflexivity.
  - apply wp_ret, extends_refl.
Qed.

Lemma workflow_step_extends (self : SynapseCoordinator.t) (c c' : Config) :
  workflow_step self c c' -> extends c.1.2 c'.1.2.
Proof.
  intros [node state state' w w' _ Hrun]. simpl.
  exact (wp_returned _ _ _ _ _ (run_node_extends self node state w) Hrun).
Qed.

(** X15. Along a run of the workflow, from any configuration to any
    configuration reached from it: the scenario and the ceiling are
    unchanged, the transcript, the tool-call records and the gathered data
    are only appended to (the earlier value is a prefix of the later one),
    and the iteration counter does not decrease. *)
Theorem transcript_only_grows (self : SynapseCoordinator.t) (node node' : Node)
    (state state' : AgentState.t) (w w' : World) :
  rtc (workflow_step self) (node, state, w) (node', state', w') ->
  AgentState.scenario state' = AgentState.scenario state
  /\ AgentState.max_iterations state' = AgentState.max_iterations state
  /\ AgentState.messages state `prefix_of` AgentState.messages state'
  /\ AgentState.tool_calls_made state `prefix_of` AgentState.tool_calls_made state'
  /\ AgentState.gathered_data state `prefix_of` AgentState.gathered_data state'
  /\ (AgentState.current_iteration state <= AgentState.current_iteration state')%Z.
Proof.
  intros Hreach. change (extends (node, state, w).1.2 (node', state', w').1.2).
  induction Hreach as [c|c1 c2 c3 Hstep _ IH]; [apply extends_refl|].
  exact (extends_trans _ _ _ (workflow_step_extends self c1 c2 Hstep) IH).
Qed.

(** The number of super-steps. *)

Lemma steps_left_step (self : SynapseCoordinator.t) (m : Z) (c c' : Config) :
  workflow_step self c c' -> run_invariant m c ->
  (0 <= steps_left m c'.1.1 c'.1.2 < steps_left m c.1.1 c.1.2)%Z.
Proof.
  intros Hstep. destruct Hstep as [node state state' w w' Hnode Hrun].
  unfold run_invariant. intros (Hmax & Hrange & Hnodeinv).
  cbn [fst snd].
  destruct node; cbn [run_node] in Hrun; try congruence.
  - pose proof (wp_returned _ _ _ _ _ (call_model_ends_with_ai self state w) Hrun) as Hai.
    apply has_tool_calls_ends_with_ai in Hai as [_ Hnext].
    apply call_model_keeps_counters in Hrun. injection Hrun as Hi Hm.
    destruct Hnext as [-> | ->]; unfold steps_left; rewrite ?Hi; lia.
  - apply tools_node_keeps_counters in Hrun. injection Hrun as Hi Hm.
    cbn [next_node]. unfold steps_left. rewrite Hi. lia.
  - apply after_tools_counters in Hrun. injection Hrun as Hi Hm.
    cbn [next_node]. destruct (String.eqb _ "continue");
      unfold steps_left; rewrite ?Hi; lia.
  - cbn [next_node]. unfold steps_left. lia.
  - cbn [next_node]. unfold steps_left. lia.
Qed.

Lemma steps_left_positive (m : Z) (node : Node) (state : AgentState.t) (w : World) :
  run_invariant m (node, state, w) -> node <> N_END -> (1 <= steps_left m node state)%Z.
Proof.
  unfold run_invariant. intros (Hmax & Hrange & Hnodeinv) Hnode.
  destruct node; unfold steps_left; try lia. congruence.
Qed.

Lemma nsteps_steps_left (self : SynapseCoordinator.t) (m : Z) (k : nat) (c c' : Config) :
  nsteps (workflow_step self) k c c' -> run_invariant m c ->
  (Z.of_nat k + steps_left m c'.1.1 c'.1.2 <= steps_left m c.1.1 c.1.2)%Z.
Proof.
  induction 1 as [c|k c1 c2 c3 Hstep _ IH]; intros Hinv; [lia|].
  pose proof (steps_left_step self m c1 c2 Hstep Hinv) as Hdec.
  specialize (IH (run_invariant_step self m c1 c2 Hstep Hinv)). lia.
Qed.

Lemma initial_run_invariant (scenario : string) (m : Z) (w : World) :
  run_invariant m (N_call_model, initial_state scenario m, w).
Proof. unfold run_invariant. simpl. repeat split; auto; lia. Qed.

(** X16. A run of the workflow from the initial state with ceiling
    [max_iterations] executes at most [3 * max(1, max_iterations) + 2]
    nodes; any configuration reached that is not the end marker is reached
    in strictly fewer. *)
Theorem workflow_steps_bounded (self : SynapseCoordinator.t) (scenario : string)
    (max_iterations : Z) (w : World) (k : nat) (node : Node) (state : AgentState.t)
    (w' : World) :
  nsteps (workflow_step self) k
    (N_call_model, initial_state scenario max_iterations, w) (node, state, w') ->
  (Z.of_nat k <= 3 * Z.max 1 max_iterations + 2)%Z
  /\ (node <> N_END -> (Z.of_nat k < 3 * Z.max 1 max_iterations + 2)%Z).
Proof.
  intros Hsteps.
  pose proof (initial_run_invariant scenario max_iterations w) as Hinv.
  pose proof (nsteps_steps_left self max_iterations k _ _ Hsteps Hinv) as Hle.
  assert (Hinv' : run_invariant max_iterations (node, state, w')).
  { apply (run_invariant_reachable self max_iterations _ _
             (rtc_nsteps_2 _ _ _ Hsteps) Hinv). }
  cbn [fst snd] in Hle. unfold steps_left at 2 in Hle. simpl in Hle.
  split.
  - destruct Hinv' as (_ & Hrange & Hnodeinv).
    destruct node; unfold steps_left in Hle; lia.
  - intros Hnode. pose proof (steps_left_positive _ _ _ _ Hinv' Hnode). lia.
Qed.

Lemma workflow_run_budget (self : SynapseCoordinator.t) (m : Z) (b1 : nat) :
  forall (b2 : nat) (node : Node) (state : AgentState.t) (w : World),
    run_invariant m (node, state, w) -> node <> N_END ->
    (steps_left m node state <= Z.of_nat b1)%Z ->
    (steps_left m node state <= Z.of_nat b2)%Z ->
    workflow_run self b1 node state w = workflow_run self b2 node state w.
Proof.
  induction b1 as [|b1 IH]; intros b2 node state w Hinv Hnode H1 H2.
  - pose proof (steps_left_positive _ _ _ _ Hinv Hnode). lia.
  - destruct b2 as [|b2];
      [pose proof (steps_left_positive _ _ _ _ Hinv Hnode); lia|].
    cbn [workflow_run]. unfold bind.
    destruct (run_node self node state w) as [[s|e] w1] eqn:Hrun; [|reflexivity].
    pose proof (workflow_step_intro self _ _ _ _ _ Hnode Hrun) as Hstep.
    pose proof (steps_left_step self m _ _ Hstep Hinv) as Hdec.
    pose proof (run_invariant_step self m _ _ Hstep Hinv) as Hinv'.
    cbn [fst snd] in Hdec.
    destruct (next_node node s) eqn:E; try reflexivity;
      apply IH; try assumption; try discriminate; lia.
Qed.

(** X17. With any two step budgets of at least
    [3 * max(1, max_iterations) + 2], [workflow.ainvoke] from the initial
    state has the same outcome and leaves the same world: above that bound
    the step budget never decides a run. *)
Theorem recursion_budget_suffices (self : SynapseCoordinator.t) (scenario : string)
    (max_iterations : Z) (w : World) (budget budget' : nat) :
  (3 * Z.max 1 max_iterations + 2 <= Z.of_nat budget)%Z ->
  (3 * Z.max 1 max_iterations + 2 <= Z.of_nat budget')%Z ->
  workflow_run self budget N_call_model (initial_state scenario max_iterations) w
  = workflow_run self budget' N_call_model (initial_state scenario max_iterations) w.
Proof.
  intros H1 H2.
  apply (workflow_run_budget self max_iterations);
    [apply initial_run_invariant|discriminate| |];
    unfold steps_left; simpl; lia.
Qed.

(** A run that returns. *)

Lemma workflow_run_ends_in_verification (self : SynapseCoordinator.t) (budget : nat) :
  forall (node : Node) (state : AgentState.t) (w : World) (state' : AgentState.t)
         (w' : World),
    node <> N_END ->
    workflow_run self budget node state w = (Returned state', w') ->
    exists state0 w0, _verification_node state0 w0 = (Returned state', w').
Proof.
  induction budget as [|budget IH]; intros node state w state' w' Hnode Hrun.
  - discriminate.
  - cbn [workflow_run] in Hrun. apply bind_returned in Hrun as (s & w1 & Hs & Hrest).
    destruct (next_node node s) eqn:E;
      try (eapply IH; [|exact Hrest]; discriminate).
    apply ret_returned in Hrest as [<- <-].
    destruct node; cbn [next_node] in E.
    + destruct (String.eqb _ _); [discriminate|].
      destruct (String.eqb _ _); discriminate.
    + discriminate.
    + destruct (String.eqb _ _); discriminate.
    + discriminate.
    + exists state, w. exact Hs.
    + congruence.
Qed.

Lemma digits_value_from_nonneg (s : string) (acc : Z) :
  (0 <= acc)%Z -> (0 <= digits_value_from acc s)%Z.
Proof.
  revert acc. induction s as [|c s IH]; intros acc Hacc; simpl; [exact Hacc|].
  apply IH. unfold digit_value. lia.
Qed.

Lemma digits_value_nonneg (s : string) : (0 <= digits_value s)%Z.
Proof. apply digits_value_from_nonneg. lia. Qed.

Lemma inject_Z_nonneg (z : Z) : (0 <= z)%Z -> (0 <= inject_Z z)%Q.
Proof. intros Hz. unfold Qle. simpl. lia. Qed.

Lemma float_of_digits_and_dots_nonneg (g : string) (x : Q) :
  float_of_digits_and_dots g = Some x -> (0 <= x)%Q.
Proof.
  unfold float_of_digits_and_dots.
  destruct (span is_digit g) as [int_part rest].
  destruct rest as [|c frac].
  - destruct int_part; [discriminate|]. intros [= <-].
    apply inject_Z_nonneg, digits_value_nonneg.
  - destruct (span is_digit frac) as [frac_part rest'].
    destruct rest'; [|discriminate].
    assert (Hsum : (0 <= inject_Z (digits_value int_part) +
                         inject_Z (digits_value frac_part) /
                         inject_Z (10 ^ Z.of_nat (String.length frac_part)))%Q).
    { apply (Qplus_le_compat 0 _ 0); [apply inject_Z_nonneg, digits_value_nonneg|].
      apply Qmult_le_0_compat; [apply inject_Z_nonneg, digits_value_nonneg|].
      apply Qinv_le_0_compat, inject_Z_nonneg. apply Z.pow_nonneg. lia. }
    destruct int_part, frac_part; intros [= <-]; exact Hsum.
Qed.

Lemma extract_confidence_nonneg (response_content : string) :
  (0 <= _extract_confidence_from_response response_content)%Q.
Proof.
  unfold _extract_confidence_from_response.
  destruct (search_percent response_content) as [g|].
  - apply Qmult_le_0_compat; [apply inject_Z_nonneg, digits_value_nonneg|].
    unfold Qle. simpl. lia.
  - destruct (search_decimal response_content ≫= float_of_digits_and_dots) as [x|] eqn:E.
    + assert (Hx : (0 <= x)%Q).
      { destruct (search_decimal response_content) as [g|]; [|discriminate].
        exact (float_of_digits_and_dots_nonneg g x E). }
      unfold py_min. destruct (Qlt_le_dec x 1); [exact Hx|].
      unfold Qle. simpl. lia.
    + unfold Qle. simpl. lia.
Qed.

(** X21. The confidence [_extract_confidence_from_response] extracts is
    never negative; without a percentage in the text it is at most 1; with a
    percentage it is at most 1 exactly when the number before the [%] is at
    most 100. *)
Theorem extract_confidence_range (response_content : string) :
  (0 <= _extract_confidence_from_response response_content)%Q
  /\ (search_percent response_content = None ->
      (_extract_confidence_from_response response_content <= 1)%Q)
  /\ (forall g, search_percent response_content = Some g ->
        ((_extract_confidence_from_response response_content <= 1)%Q
         <-> (digits_value g <= 100)%Z)).
Proof.
  split; [apply extract_confidence_nonneg|]. split.
  - apply extract_confidence_without_percent_le_1.
  - intros g Hg. rewrite (extract_confidence_percent _ _ Hg).
    unfold Qle, Qdiv, Qmult, Qinv, inject_Z. simpl. lia.
Qed.

Lemma verification_post (state : AgentState.t) (w : World) :
  wp (_verification_node state)
     (fun state' w' =>
        AgentState.status state' = "completed"
        /\ AgentState.reasoning_steps state'
           = step_to_dict <$> ChainOfThoughtReasoner.reasoning_steps (w_reasoner w')
        /\ (0 <= AgentState.confidence_score state')%Q
        /\ AgentState.solution_plan state' = AgentState.solution_plan state
        /\ exists front verification decision,
             ChainOfThoughtReasoner.reasoning_steps (w_reasoner w')
             = (front ++ [verification; decision])%list
             /\ ReasoningStep.step_type verification = VERIFICATION
             /\ ReasoningStep.step_type decision = DECISION
             /\ ReasoningStep.confidence decision = AgentState.confidence_score state') w.
Proof.
  unfold _verification_node. repeat wp_step. state_simpl.
  split; [reflexivity|]. split; [reflexivity|].
  split; [apply extract_confidence_nonneg|]. split; [reflexivity|].
  eexists _, _, _. split; [rewrite <- app_assoc; reflexivity|].
  split; [assumption|]. split; assumption.
Qed.

(** X19. When the workflow returns, [resolve_scenario] returns a result with
    [success = True] and the scenario it was given; [tools_used] is the
    list of the tool names of the call records and [tools_called] is its
    length; [total_reasoning_steps] is the number of reasoning lines of the
    result and is at least 2; [iterations] is between 0 and
    [max(1, max_iterations)]; the confidence in the metrics is that of the
    result and is not negative. *)
Theorem resolve_scenario_reports_completion (self : SynapseCoordinator.t)
    (scenario : string) (max_iterations : Z) (w : World) (final_state : AgentState.t)
    (w1 : World) :
  workflow_ainvoke self (initial_state scenario max_iterations)
    (clear_reasoning (datetime_now w).2).2 = (Returned final_state, w1) ->
  exists result w',
    resolve_scenario self scenario max_iterations w = (Returned result, w')
    /\ ResolutionResult.success result = true
    /\ ResolutionResult.scenario result = scenario
    /\ ResolutionResult.tools_used result
       = ToolCallRecord.tool_name <$> AgentState.tool_calls_made final_state
    /\ Metrics.tools_called (ResolutionResult.metrics result)
       = Z.of_nat (length (ResolutionResult.tools_used result))
    /\ Metrics.total_reasoning_steps (ResolutionResult.metrics result)
       = Z.of_nat (length (ResolutionResult.reasoning_steps result))
    /\ (2 <= Metrics.total_reasoning_steps (ResolutionResult.metrics result))%Z
    /\ (0 <= Metrics.iterations (ResolutionResult.metrics result)
        <= Z.max 1 max_iterations)%Z
    /\ ResolutionResult.confidence_score result
       = Metrics.confidence_score (ResolutionResult.metrics result)
    /\ (0 <= ResolutionResult.confidence_score result)%Q.
Proof.
  intros Hrun. rewrite (resolve_scenario_unfold _ _ _ _ _ _ Hrun).
  do 2 eexists. split; [reflexivity|].
  cbn [ResolutionResult.success ResolutionResult.scenario ResolutionResult.tools_used
       ResolutionResult.metrics ResolutionResult.reasoning_steps
       ResolutionResult.confidence_score Metrics.tools_called
       Metrics.total_reasoning_steps Metrics.iterations Metrics.confidence_score].
  unfold workflow_ainvoke in Hrun.
  assert (Hentry : N_call_model <> N_END) by discriminate.
  destruct (workflow_run_ends_in_verification self _ _ _ _ _ _ Hentry Hrun)
    as (state0 & w0 & Hver).
  pose proof (wp_returned _ _ _ _ _ (verification_post state0 w0) Hver)
    as (Hstatus & Hsteps & Hconf & _ & front & verification & decision & Hlast & _).
  apply workflow_run_reachable in Hrun; [|discriminate].
  apply (run_invariant_reachable self max_iterations) in Hrun;
    [|apply initial_run_invariant].
  destruct Hrun as (_ & Hrange & _).
  rewrite Hstatus, Hsteps. unfold get_formatted_reasoning.
  rewrite !length_fmap, Hlast, length_app. cbn [length].
  repeat split; try reflexivity; try lia; try exact Hconf.
Qed.

(** The snapshot of the ledger in the state. *)

Lemma ledger_ok_snoc (steps : list ReasoningStep.t) (cur : Z) (sid : string)
    (step : ReasoningStep.t) :
  ledger_ok (ChainOfThoughtReasoner.mk steps cur sid) ->
  ReasoningStep.step_number step = (cur + 1)%Z ->
  ledger_ok (ChainOfThoughtReasoner.mk (steps ++ [step]) (cur + 1) sid).
Proof. intros Hok Hn. exact (ledger_ok_append _ step Hok Hn). Qed.

Ltac ledger_solve :=
  cbn [w_reasoner ChainOfThoughtReasoner.current_step
       ChainOfThoughtReasoner.reasoning_steps] in *;
  repeat (apply ledger_ok_snoc; [|assumption]); assumption.

Lemma record_call_ledger (state : AgentState.t) (call : ToolCall.t) (w : World) :
  ledger_ok (w_reasoner w) ->
  wp (record_call state call)
     (fun state' w' =>
        ledger_ok (w_reasoner w')
        /\ AgentState.reasoning_steps state' = AgentState.reasoning_steps state) w.
Proof.
  destruct w as [ticks requests [steps cur sid] executed]. intros Hok.
  unfold record_call. repeat wp_step. split; [ledger_solve|].
  destruct (negb (is_none _)); reflexivity.
Qed.

Lemma record_calls_ledger (calls : list ToolCall.t) (state : AgentState.t) (w : World) :
  ledger_ok (w_reasoner w) ->
  wp (record_calls state calls)
     (fun state' w' =>
        ledger_ok (w_reasoner w')
        /\ AgentState.reasoning_steps state' = AgentState.reasoning_steps state) w.
Proof.
  revert state w. induction calls as [|call rest IH]; intros state w Hok; simpl.
  - apply wp_ret. split; [exact Hok|reflexivity].
  - apply wp_bind. eapply wp_mono; [|apply record_call_ledger, Hok].
    intros s1 w1 [Hok1 Hs1]. eapply wp_mono; [|apply IH, Hok1].
    intros s2 w2 [Hok2 Hs2]. split; [exact Hok2|congruence].
Qed.

Lemma run_node_mirrors (self : SynapseCoordinator.t) (node : Node) (state : AgentState.t)
    (w : World) :
  mirrors_ledger state w -> wp (run_node self node state) mirrors_ledger w.
Proof.
  intros [Hok Hsnap]. destruct node; cbn [run_node].
  - destruct w as [ticks requests [steps cur sid] executed].
    unfold _call_model_node. repeat wp_step; (split; [ledger_solve|reflexivity]).
  - unfold tools_node. repeat wp_step. split; [exact Hok|exact Hsnap].
  - unfold _after_tools_node. apply wp_bind.
    eapply wp_mono;
      [|instantiate (1 := fun s w' => ledger_ok (w_reasoner w'))].
    + intros s1 w1 H1. repeat wp_step. split; [exact H1|reflexivity].
    + destruct (last_ai_tool_calls _) as [[|call rest]|].
      * apply wp_ret. exact Hok.
      * eapply wp_mono; [|apply record_calls_ledger, Hok]. intros s1 w1 [H1 _]. exact H1.
      * apply wp_ret. exact Hok.
  - destruct w as [ticks requests [steps cur sid] executed].
    unfold _synthesis_node. repeat wp_step. split; [ledger_solve|reflexivity].
  - destruct w as [ticks requests [steps cur sid] executed].
    unfold _verification_node. repeat wp_step. split; [ledger_solve|reflexivity].
  - apply wp_ret. split; [exact Hok|exact Hsnap].
Qed.

Lemma mirrors_reachable (self : SynapseCoordinator.t) (c c' : Config) :
  rtc (workflow_step self) c c' -> mirrors_ledger c.1.2 c.2 -> mirrors_ledger c'.1.2 c'.2.
Proof.
  induction 1 as [|c1 c2 c3 Hstep _ IH]; [trivial|].
  intros Hm. apply IH. destruct Hstep as [node state state' w w' _ Hrun].
  exact (wp_returned _ _ _ _ _ (run_node_mirrors self node state w Hm) Hrun).
Qed.

Lemma step_number_of_dict (steps : list ReasoningStep.t) :
  dict_get "step_number" <$> (step_to_dict <$> steps)
  = (fun step => Some (PyInt (ReasoningStep.step_number step))) <$> steps.
Proof. rewrite <- list_fmap_compose. reflexivity. Qed.

(** X18. At every configuration the workflow reaches from the initial state
    in a world where [clear_reasoning] has just run, as in
    [resolve_scenario]: [state["reasoning_steps"]] is the list of the dicts
    of the ledger's steps, the ledger's counter is their number, and their
    ["step_number"] entries are 1, 2, ..., n in order. *)
Theorem reasoning_steps_mirror_ledger (self : SynapseCoordinator.t) (scenario : string)
    (max_iterations : Z) (w : World) (node : Node) (state : AgentState.t) (w' : World) :
  rtc (workflow_step self)
      (N_call_model, initial_state scenario max_iterations, (clear_reasoning w).2)
      (node, state, w') ->
  AgentState.reasoning_steps state
  = step_to_dict <$> ChainOfThoughtReasoner.reasoning_steps (w_reasoner w')
  /\ ChainOfThoughtReasoner.current_step (w_reasoner w')
     = Z.of_nat (length (AgentState.reasoning_steps state))
  /\ dict_get "step_number" <$> AgentState.reasoning_steps state
     = (fun i => Some (PyInt (Z.of_nat i)))
         <$> seq 1 (length (AgentState.reasoning_steps state)).
Proof.
  intros Hreach.
  apply mirrors_reachable in Hreach; [|split; [apply ledger_ok_clear|reflexivity]].
  cbn [fst snd] in Hreach. destruct Hreach as [[Hcur Hnum] Hsnap].
  split; [exact Hsnap|]. rewrite Hsnap, length_fmap. split; [exact Hcur|].
  rewrite step_number_of_dict.
  change (fun step => Some (PyInt (ReasoningStep.step_number step)))
    with ((fun z => Some (PyInt z)) ∘ ReasoningStep.step_number).
  rewrite list_fmap_compose, Hnum, <- list_fmap_compose. reflexivity.
Qed.

(** The iteration counter, step by step. *)

(** X14. In one super-step of the workflow the ceiling is not reassigned, and
    the iteration counter grows by one when the node that ran is
    [after_tools] and is unchanged when it is any other node. *)
Theorem iteration_counts_tool_passes (self : SynapseCoordinator.t) (node node' : Node)
    (state state' : AgentState.t) (w w' : World) :
  workflow_step self (node, state, w) (node', state', w') ->
  AgentState.max_iterations state' = AgentState.max_iterations state
  /\ AgentState.current_iteration state'
     = (AgentState.current_iteration state
        + match node with N_after_tools => 1 | _ => 0 end)%Z.
Proof.
  intros Hstep. inversion Hstep as [n s s' w0 w0' Hnode Hrun]; subst.
  destruct node; cbn [run_node] in Hrun; try congruence.
  - apply call_model_keeps_counters in Hrun. injection Hrun as Hi Hm. split; [exact Hm|lia].
  - apply tools_node_keeps_counters in Hrun. injection Hrun as Hi Hm. split; [exact Hm|lia].
  - apply after_tools_counters in Hrun. injection Hrun as Hi Hm. split; [exact Hm|lia].
  - apply synthesis_keeps_counters in Hrun. injection Hrun as Hi Hm. split; [exact Hm|lia].
  - apply verification_keeps_counters in Hrun. injection Hrun as Hi Hm. split; [exact Hm|lia].
Qed.

(** ** Plan extraction and the reasoning summary *)

(** [str.find] and [str.rfind]. *)

Lemma str_find_range (c : ascii) (s : string) : (-1 <= str_find c s)%Z.
Proof.
  induction s as [|a s IH]; simpl; [lia|].
  destruct (Ascii.eqb a c); [lia|]. destruct (str_find c s <? 0)%Z; lia.
Qed.

Lemma str_find_found (c : ascii) (s : string) :
  (0 <= str_find c s)%Z ->
  String.get (Z.to_nat (str_find c s)) s = Some c
  /\ forall k, (k < Z.to_nat (str_find c s))%nat -> String.get k s <> Some c.
Proof.
  induction s as [|a s IH]; simpl; [lia|].
  destruct (Ascii.eqb a c) eqn:E.
  - intros _. apply Ascii.eqb_eq in E. subst a. split; [reflexivity|]. simpl. lia.
  - destruct (str_find c s <? 0)%Z eqn:F; [lia|]. intros _.
    apply Z.ltb_ge in F. destruct (IH F) as [Hget Hfirst].
    replace (Z.to_nat (str_find c s + 1)) with (S (Z.to_nat (str_find c s))) by lia.
    split; [exact Hget|]. intros [|k] Hk; simpl.
    + intros [= ->]. rewrite Ascii.eqb_refl in E. discriminate.
    + apply Hfirst. lia.
Qed.

Lemma str_find_absent (c : ascii) (s : string) :
  (forall k, String.get k s <> Some c) -> str_find c s = (-1)%Z.
Proof.
  intros Habs. pose proof (str_find_range c s) as Hr.
  destruct (Z.eq_dec (str_find c s) (-1)%Z) as [E|E]; [exact E|].
  assert (H0 : (0 <= str_find c s)%Z) by lia.
  destruct (str_find_found c s H0) as [Hget _]. exfalso. exact (Habs _ Hget).
Qed.

Lemma str_rfind_range (c : ascii) (s : string) : (-1 <= str_rfind c s)%Z.
Proof.
  induction s as [|a s IH]; simpl; [lia|].
  destruct (0 <=? str_rfind c s)%Z; [lia|]. destruct (Ascii.eqb a c); lia.
Qed.

Lemma str_rfind_found (c : ascii) (s : string) :
  (0 <= str_rfind c s)%Z ->
  String.get (Z.to_nat (str_rfind c s)) s = Some c
  /\ forall k, (Z.to_nat (str_rfind c s) < k)%nat -> String.get k s <> Some c.
Proof.
  induction s as [|a s IH]; simpl; [lia|].
  destruct (0 <=? str_rfind c s)%Z eqn:F.
  - intros _. apply Z.leb_le in F. destruct (IH F) as [Hget Hlast].
    replace (Z.to_nat (str_rfind c s + 1)) with (S (Z.to_nat (str_rfind c s))) by lia.
    split; [exact Hget|]. intros [|k] Hk; [lia|]. simpl. apply Hlast. lia.
  - apply Z.leb_gt in F. destruct (Ascii.eqb a c) eqn:E; [|lia]. intros _.
    apply Ascii.eqb_eq in E. subst a. split; [reflexivity|].
    intros [|k] Hk; [lia|]. simpl.
    clear Hk. revert k.
    assert (Hnone : forall s', (str_rfind c s' < 0)%Z -> forall k, String.get k s' <> Some c).
    { clear. induction s' as [|a' s' IH']; simpl; intros Hlt k.
      - destruct k; discriminate.
      - destruct (0 <=? str_rfind c s')%Z eqn:F'.
        + apply Z.leb_le in F'. lia.
        + apply Z.leb_gt in F'. destruct (Ascii.eqb a' c) eqn:E'; [lia|].
          destruct k as [|k]; simpl.
          * intros [= ->]. rewrite Ascii.eqb_refl in E'. discriminate.
          * apply IH'. exact F'. }
    apply Hnone. exact F.
Qed.

Lemma str_rfind_absent (c : ascii) (s : string) :
  (forall k, String.get k s <> Some c) -> str_rfind c s = (-1)%Z.
Proof.
  intros Habs. pose proof (str_rfind_range c s) as Hr.
  destruct (Z.eq_dec (str_rfind c s) (-1)%Z) as [E|E]; [exact E|].
  assert (H0 : (0 <= str_rfind c s)%Z) by lia.
  destruct (str_rfind_found c s H0) as [Hget _]. exfalso. exact (Habs _ Hget).
Qed.

(** X20. [_extract_solution_from_response] returns the fallback plan when
    the text has no opening brace and when it has no closing brace;
    otherwise the result is the fallback plan or the value [json.loads]
    gives for the text from the first opening brace to the last closing
    brace, which then does not precede it. The fallback plan is truthy. *)
Theorem extract_solution_cases (response_content : string) :
  ((forall k, String.get k response_content <> Some "{"%char) ->
   _extract_solution_from_response response_content = fallback_solution)
  /\ ((forall k, String.get k response_content <> Some "}"%char) ->
      _extract_solution_from_response response_content = fallback_solution)
  /\ (_extract_solution_from_response response_content = fallback_solution
      \/ exists i j,
           (i <= j)%nat
           /\ String.get i response_content = Some "{"%char
           /\ String.get j response_content = Some "}"%char
           /\ (forall k, (k < i)%nat -> String.get k response_content <> Some "{"%char)
           /\ (forall k, (j < k)%nat -> String.get k response_content <> Some "}"%char)
           /\ json_loads (String.substring i (j - i + 1) response_content)
              = Some (_extract_solution_from_response response_content))
  /\ truthy fallback_solution = true.
Proof.
  unfold _extract_solution_from_response.
  pose proof (str_find_range "{"%char response_content) as Hfr.
  pose proof (str_rfind_range "}"%char response_content) as Hrr.
  split; [|split; [|split; [|reflexivity]]].
  - intros Habs. rewrite (str_find_absent _ _ Habs). reflexivity.
  - intros Habs. rewrite (str_rfind_absent _ _ Habs).
    destruct (_ && _)%Z eqn:E; [|reflexivity].
    apply andb_true_iff in E as [E1 E2]. apply Z.leb_le in E1. apply Z.ltb_lt in E2. lia.
  - destruct (_ && _)%Z eqn:E; [|left; reflexivity].
    apply andb_true_iff in E as [E1 E2]. apply Z.leb_le in E1. apply Z.ltb_lt in E2.
    destruct (json_loads _) as [plan|] eqn:Hj; [|left; reflexivity].
    right.
    assert (H0 : (0 <= str_rfind "}"%char response_content)%Z) by lia.
    destruct (str_find_found _ _ E1) as [Hgi Hfirst].
    destruct (str_rfind_found _ _ H0) as [Hgj Hlast].
    exists (Z.to_nat (str_find "{"%char response_content)),
           (Z.to_nat (str_rfind "}"%char response_content)).
    split; [lia|]. split; [exact Hgi|]. split; [exact Hgj|].
    split; [exact Hfirst|]. split; [exact Hlast|].
    rewrite <- Hj. f_equal. f_equal. lia.
Qed.

(** The summary of the ledger. *)

Lemma summary_loop_counts (steps : list ReasoningStep.t) :
  forall (acc : gmap string Z) (q : Q) (key : string),
    default 0%Z ((summary_loop steps acc q).1 !! key)
    = (default 0%Z (acc !! key) + count_type key steps)%Z
    /\ (is_Some ((summary_loop steps acc q).1 !! key)
        <-> is_Some (acc !! key)
            \/ exists step, In step steps
                            /\ step_type_value (ReasoningStep.step_type step) = key).
Proof.
  induction steps as [|step rest IH]; intros acc q key.
  - simpl. unfold count_type. simpl. split; [lia|]. split; [auto|].
    intros [H|(step & [] & _)]. exact H.
  - cbn [summary_loop]. destruct (IH (<[step_type_value (ReasoningStep.step_type step) :=
                          (default 0 (acc !! step_type_value (ReasoningStep.step_type step)) + 1)%Z]> acc)
                     (q + ReasoningStep.confidence step)%Q key) as [Hc Hs].
    rewrite Hc. unfold count_type. cbn [List.filter].
    destruct (decide (step_type_value (ReasoningStep.step_type step) = key)) as [Heq|Hne].
    + subst key. rewrite lookup_insert_eq, String.eqb_refl. cbn [from_option length]. unfold id.
      split; [lia|]. rewrite Hs, lookup_insert_eq. split.
      * intros _. right. exists step. split; [left; reflexivity|reflexivity].
      * intros _. left. eauto.
    + rewrite lookup_insert_ne by exact Hne.
      apply String.eqb_neq in Hne as Hneb. rewrite Hneb.
      split; [reflexivity|]. rewrite Hs, lookup_insert_ne by exact Hne. split.
      * intros [H|(s & Hin & Hk)]; [left; exact H|].
        right. exists s. split; [right; exact Hin|exact Hk].
      * intros [H|(s & [<-|Hin] & Hk)]; [left; exact H|congruence|].
        right. exists s. split; assumption.
Qed.

Lemma get_reasoning_summary_returns (self : ChainOfThoughtReasoner.t) :
  exists avg duration,
    get_reasoning_summary self
    = Returned (ReasoningSummary.mk
                  (ChainOfThoughtReasoner.reasoning_session_id self)
                  (Z.of_nat (length (ChainOfThoughtReasoner.reasoning_steps self)))
                  (summary_loop (ChainOfThoughtReasoner.reasoning_steps self) ∅ 0%Q).1
                  (round2 avg)
                  duration
                  (if Qlt_le_dec (8 # 10) avg then "high"
                   else if Qlt_le_dec (6 # 10) avg then "medium" else "low"))
    /\ match ChainOfThoughtReasoner.reasoning_steps self with
       | [] => avg = 0%Q
       | _ :: _ =>
           avg = ((summary_loop (ChainOfThoughtReasoner.reasoning_steps self) ∅ 0%Q).2
                  / inject_Z (Z.of_nat (length (ChainOfThoughtReasoner.reasoning_steps self))))%Q
       end.
Proof.
  unfold get_reasoning_summary.
  destruct (summary_loop _ _ _) as [step_types total_confidence] eqn:Hloop.
  cbn [fst snd].
  destruct (ChainOfThoughtReasoner.reasoning_steps self) as [|s1 [|s2 rest]] eqn:Hsteps.
  - do 2 eexists. split; reflexivity.
  - do 2 eexists. split; reflexivity.
  - unfold py_div.
    replace (Z.of_nat (length (s1 :: s2 :: rest)) =? 0)%Z with false
      by (symmetry; apply Z.eqb_neq; simpl; lia).
    cbn [bind_outcome].
    destruct (py_index_last (s1 :: s2 :: rest)) as [last Hlast]; [discriminate|].
    rewrite Hlast.
    replace (1 <? Z.of_nat (length (s1 :: s2 :: rest)))%Z with true
      by (symmetry; apply Z.ltb_lt; simpl; lia).
    cbn [bind_outcome]. do 2 eexists. split; reflexivity.
Qed.

Lemma count_type_all (steps : list ReasoningStep.t) :
  (foldr Z.add 0 ((fun t => count_type (step_type_value t) steps) <$> all_step_types))%Z
  = Z.of_nat (length steps).
Proof.
  induction steps as [|step rest IH]; [reflexivity|].
  unfold all_step_types, count_type in *. cbn [fmap list_fmap foldr step_type_value] in *.
  cbn [List.filter length].
  destruct (ReasoningStep.step_type step); cbn [step_type_value];
    repeat match goal with
           | |- context [String.eqb ?a ?b] =>
               let v := eval vm_compute in (String.eqb a b) in
               change (String.eqb a b) with v
           end;
    cbn [length]; lia.
Qed.

(** X22. [get_reasoning_summary] returns a summary whose [total_steps] is
    the number of steps and whose [step_types] maps the value of each step
    type that occurs to the number of steps of that type, and has no other
    key; the counts over the seven step types add up to [total_steps]. *)
Theorem reasoning_summary_counts (self : ChainOfThoughtReasoner.t) :
  exists summary,
    get_reasoning_summary self = Returned summary
    /\ ReasoningSummary.total_steps summary
       = Z.of_nat (length (ChainOfThoughtReasoner.reasoning_steps self))
    /\ (forall key,
          default 0%Z (ReasoningSummary.step_types summary !! key)
          = count_type key (ChainOfThoughtReasoner.reasoning_steps self)
          /\ (is_Some (ReasoningSummary.step_types summary !! key)
              <-> exists step,
                    In step (ChainOfThoughtReasoner.reasoning_steps self)
                    /\ step_type_value (ReasoningStep.step_type step) = key))
    /\ (foldr Z.add 0
          ((fun t => default 0 (ReasoningSummary.step_types summary !! step_type_value t))
             <$> all_step_types))%Z
       = ReasoningSummary.total_steps summary.
Proof.
  destruct (get_reasoning_summary_returns self) as (avg & duration & Hret & _).
  eexists. split; [exact Hret|].
  cbn [ReasoningSummary.total_steps ReasoningSummary.step_types].
  assert (Hkey : forall key,
             default 0%Z ((summary_loop (ChainOfThoughtReasoner.reasoning_steps self) ∅ 0%Q).1 !! key)
             = count_type key (ChainOfThoughtReasoner.reasoning_steps self)
             /\ (is_Some ((summary_loop (ChainOfThoughtReasoner.reasoning_steps self) ∅ 0%Q).1 !! key)
                 <-> exists step, In step (ChainOfThoughtReasoner.reasoning_steps self)
                                  /\ step_type_value (ReasoningStep.step_type step) = key)).
  { intros key.
    destruct (summary_loop_counts (ChainOfThoughtReasoner.reasoning_steps self) ∅ 0%Q key)
      as [Hc Hs].
    rewrite lookup_empty in Hc, Hs. split; [rewrite Hc; simpl; lia|].
    rewrite Hs. split; [intros [[x Hx]|H]; [discriminate|exact H]|auto]. }
  split; [reflexivity|]. split; [exact Hkey|].
  rewrite <- (count_type_all (ChainOfThoughtReasoner.reasoning_steps self)).
  unfold all_step_types. cbn [fmap list_fmap foldr].
  rewrite !(fun key => proj1 (Hkey key)). reflexivity.
Qed.

(** X23. [export_reasoning_log] never raises. Its summary is the one
    [get_reasoning_summary] returns, with the same session id; its steps are
    the dicts of the ledger's steps; the metadata's [total_steps] is their
    number and equals the summary's; [start_time] and [end_time] are the ISO
    texts of the timestamps of the first and the last step, and [None]
    without steps. *)
Theorem export_reasoning_log_consistent (self : ChainOfThoughtReasoner.t) :
  exists log summary,
    export_reasoning_log self = Returned log
    /\ get_reasoning_summary self = Returned summary
    /\ ReasoningLog.summary log = summary
    /\ ReasoningLog.session_id log = ReasoningSummary.session_id summary
    /\ ReasoningLog.steps log
       = step_to_dict <$> ChainOfThoughtReasoner.reasoning_steps self
    /\ ReasoningLog.metadata_total_steps log = Z.of_nat (length (ReasoningLog.steps log))
    /\ ReasoningLog.metadata_total_steps log = ReasoningSummary.total_steps summary
    /\ ReasoningLog.metadata_start_time log
       = (fun step => isoformat (ReasoningStep.timestamp step))
           <$> head (ChainOfThoughtReasoner.reasoning_steps self)
    /\ ReasoningLog.metadata_end_time log
       = (fun step => isoformat (ReasoningStep.timestamp step))
           <$> last (ChainOfThoughtReasoner.reasoning_steps self).
Proof.
  destruct (get_reasoning_summary_returns self) as (avg & duration & Hret & _).
  unfold export_reasoning_log. rewrite Hret. cbn [bind_outcome].
  destruct (ChainOfThoughtReasoner.reasoning_steps self) as [|s1 rest] eqn:Hsteps.
  - cbn [bind_outcome]. do 2 eexists. split; [reflexivity|]. split; [reflexivity|].
    repeat split; reflexivity.
  - destruct (py_index_last (s1 :: rest)) as [lst Hlast]; [discriminate|].
    assert (Hl : last (s1 :: rest) = Some lst).
    { unfold py_index in Hlast.
      replace ((-1 <? 0)%Z) with true in Hlast by reflexivity.
      destruct (_ && _)%Z; [|discriminate].
      destruct ((s1 :: rest) !! _) as [x|] eqn:E; [|discriminate].
      injection Hlast as ->. rewrite last_lookup.
      rewrite <- E. f_equal. simpl. lia. }
    rewrite Hlast. cbn [bind_outcome py_index].
    do 2 eexists. split; [reflexivity|]. split; [reflexivity|].
    cbn [ReasoningLog.summary ReasoningLog.session_id ReasoningLog.steps
         ReasoningLog.metadata_total_steps ReasoningLog.metadata_start_time
         ReasoningLog.metadata_end_time ReasoningSummary.session_id
         ReasoningSummary.total_steps].
    rewrite Hl, length_fmap. repeat split; reflexivity.
Qed.

(** ** The entry point of [main.py] *)

Lemma builtin_scenarios_nonempty (id text : string) :
  _get_builtin_scenarios !! id = Some text -> text <> "".
Proof.
  unfold _get_builtin_scenarios. intros H.
  repeat (apply lookup_insert_Some in H as [[_ <-]|[_ H]]; [discriminate|]).
  rewrite lookup_empty in H. discriminate.
Qed.

(** X24. [load_scenario_text] of [main.py] never raises and never returns
    the empty text. A non-empty [scenario_text] is returned as it is;
    without one, a non-empty [scenario_id] gives the built-in scenario of
    that name, or the id itself when there is none; without either, the
    built-in ["traffic_obstruction"] scenario. *)
Theorem load_scenario_text_total (scenario_id scenario_text : option string) :
  exists text,
    load_scenario_text scenario_id scenario_text = Returned text
    /\ text <> ""
    /\ (forall given, scenario_text = Some given -> given <> "" -> text = given)
    /\ (scenario_text = None \/ scenario_text = Some "" ->
        forall id, scenario_id = Some id -> id <> "" ->
                   text = default id (_get_builtin_scenarios !! id))
    /\ (scenario_text = None \/ scenario_text = Some "" ->
        scenario_id = None \/ scenario_id = Some "" ->
        _get_builtin_scenarios !! "traffic_obstruction" = Some text).
Proof.
  assert (Hdefault : exists t, _get_builtin_scenarios !! "traffic_obstruction" = Some t).
  { eexists. vm_compute. reflexivity. }
  destruct Hdefault as [t0 Ht0].
  assert (Hby : forall id, id <> "" -> default id (_get_builtin_scenarios !! id) <> "").
  { intros id Hid. destruct (_get_builtin_scenarios !! id) as [t|] eqn:E; simpl.
    - exact (builtin_scenarios_nonempty id t E).
    - exact Hid. }
  unfold load_scenario_text, py_getitem. rewrite Ht0.
  destruct scenario_text as [text|]; [destruct (String.eqb text "") eqn:Et|];
    try (apply String.eqb_eq in Et; subst text);
    try (apply String.eqb_neq in Et); cbn [negb].
  - destruct scenario_id as [id|]; [destruct (String.eqb id "") eqn:Ei|];
      try (apply String.eqb_eq in Ei; subst id);
      try (apply String.eqb_neq in Ei); cbn [negb];
      eexists; (split; [reflexivity|]);
      (split; [first [exact (builtin_scenarios_nonempty _ _ Ht0) | apply Hby, Ei]|]);
      (split; [intros given [= <-] Hg; congruence|]);
      (split; [intros _ id' Hid' Hne; try discriminate; try injection Hid' as <-; congruence
              |intros _ [H|H]; try discriminate; try (injection H as ->);
               try reflexivity; congruence]).
  - eexists. split; [reflexivity|]. split; [exact Et|].
    split; [intros given [= <-] _; reflexivity|].
    split; [intros [H|H]; [discriminate|injection H as ->; congruence]
           |intros [H|H]; [discriminate|injection H as ->; congruence]].
  - destruct scenario_id as [id|]; [destruct (String.eqb id "") eqn:Ei|];
      try (apply String.eqb_eq in Ei; subst id);
      try (apply String.eqb_neq in Ei); cbn [negb];
      eexists; (split; [reflexivity|]);
      (split; [first [exact (builtin_scenarios_nonempty _ _ Ht0) | apply Hby, Ei]|]);
      (split; [intros given; discriminate|]);
      (split; [intros _ id' Hid' Hne; try discriminate; try injection Hid' as <-; congruence
              |intros _ [H|H]; try discriminate; try (injection H as ->);
               try reflexivity; congruence]).
Qed.

End SynapseFurtherProperties.

(** * Closed instances of the further properties *)

(** [safe_execute_stamps_time] at [check_traffic] called with an origin and
    a destination: the body's result comes back, stamped with the one
    second between the two clock readings. *)
Lemma safe_execute_stamps_time_witness :
  exists result w',
    safe_execute (env := direct_answer_environment)
      example_check_traffic kwargs_with_route world_at_import = (Returned result, w')
    /\ ToolResult.success result = true
    /\ (ToolResult.execution_time_ms result == 1000)%Q
    /\ w_ticks w' = 2%nat.
Proof.
  do 2 eexists. split.
  - apply (safe_execute_stamps_time (env := direct_answer_environment)
             example_check_traffic kwargs_with_route world_at_import).
    + intros param [<-|[<-|[]]]; eexists; (split; [vm_compute; reflexivity|discriminate]).
    + reflexivity.
  - split; [reflexivity|]. split; [vm_compute; reflexivity|reflexivity].
Defined.

(** [safe_execute_reports_exception] at a tool whose body raises
    [KeyError('destination')]. *)
Lemma safe_execute_reports_exception_witness :
  exists result w',
    safe_execute (env := direct_answer_environment)
      raising_tool kwargs_with_route world_at_import = (Returned result, w')
    /\ ToolResult.success result = false
    /\ ToolResult.status result = FAILURE
    /\ ToolResult.message result = "Tool execution failed: 'destination'".
Proof.
  do 2 eexists. split.
  - apply (safe_execute_reports_exception (env := direct_answer_environment)
             raising_tool kwargs_with_route world_at_import).
    + intros param [<-|[]]; eexists; (split; [vm_compute; reflexivity|discriminate]).
    + reflexivity.
  - split; [reflexivity|]. split; reflexivity.
Defined.

(** [tool_result_to_dict_faithful] at two results that differ only in the
    context, absent in one and empty in the other: their dicts are equal. *)
Lemma tool_result_to_dict_faithful_witness :
  tool_result_to_dict (py := example_python) result_without_context
  = tool_result_to_dict (py := example_python) result_with_empty_context
  /\ result_without_context <> result_with_empty_context
  /\ ToolResult.status result_without_context = ToolResult.status result_with_empty_context
  /\ ToolResult.data result_without_context = ToolResult.data result_with_empty_context.
Proof.
  assert (Hdict : tool_result_to_dict (py := example_python) result_without_context
                  = tool_result_to_dict (py := example_python) result_with_empty_context)
    by reflexivity.
  split; [exact Hdict|]. split; [discriminate|].
  destruct (tool_result_to_dict_faithful (py := example_python) _ _ Hdict)
    as (_ & Hdata & _ & _ & _ & Hstatus & _).
  split; [exact Hstatus|exact Hdata].
Defined.

(** [call_model_never_retries] at the first model call of a run in which
    the model requests no tools: the forced calls lead to the tool node. *)
Lemma call_model_never_retries_witness :
  exists state' w',
    _call_model_node (py := example_python) (env := direct_answer_environment)
      example_coordinator (initial_state "Heavy traffic, customer order late" 3)
      world_at_import = (Returned state', w')
    /\ _has_tool_calls state' <> "retry"
    /\ (next_node N_call_model state' = N_tools
        \/ next_node N_call_model state' = N_synthesis).
Proof.
  destruct (_call_model_node (py := example_python) (env := direct_answer_environment)
              example_coordinator (initial_state "Heavy traffic, customer order late" 3)
              world_at_import) as [[state'|e] w'] eqn:Hrun.
  - exists state', w'. split; [reflexivity|].
    exact (proj2 (call_model_never_retries (py := example_python)
                    (env := direct_answer_environment) _ _ _ _ _ Hrun)).
  - exfalso.
    observe_run Hrun (fun out : Outcome AgentState.t * World =>
                        match out.1 with Returned _ => true | Raised _ => false end).
    discriminate Hrun.
Defined.

(** [iteration_counts_tool_passes] at the tool bookkeeping of a state whose
    counter is 0. *)
Lemma iteration_counts_tool_passes_witness :
  exists state' w',
    workflow_step (py := example_python) (env := direct_answer_environment)
      example_coordinator
      (N_after_tools, state_with_unparsable_output, world_at_import)
      (next_node N_after_tools state', state', w')
    /\ AgentState.current_iteration state' = 1%Z
    /\ AgentState.max_iterations state' = 10%Z.
Proof.
  destruct (_after_tools_node (py := example_python) (env := direct_answer_environment)
              state_with_unparsable_output world_at_import) as [[state'|e] w'] eqn:Hrun.
  - exists state', w'.
    assert (Hstep :
              workflow_step (py := example_python) (env := direct_answer_environment)
                example_coordinator
                (N_after_tools, state_with_unparsable_output, world_at_import)
                (next_node N_after_tools state', state', w'))
      by (apply workflow_step_intro; [discriminate|exact Hrun]).
    split; [exact Hstep|].
    destruct (iteration_counts_tool_passes (py := example_python)
                (env := direct_answer_environment) _ _ _ _ _ _ _ Hstep) as [Hm Hi].
    split; [exact Hi|exact Hm].
  - exfalso.
    observe_run Hrun (fun out : Outcome AgentState.t * World =>
                        match out.1 with Returned _ => true | Raised _ => false end).
    discriminate Hrun.
Defined.

(** [transcript_only_grows] from the start to the end of a run with
    ceiling 3 in which the model requests no tools. *)
Lemma transcript_only_grows_witness :
  let run := direct_answer_run "Heavy traffic, customer order late" 3 in
  rtc (workflow_step (py := example_python) (env := direct_answer_environment)
         example_coordinator)
      (N_call_model, initial_state "Heavy traffic, customer order late" 3, world_at_import)
      (N_END, run.1, run.2)
  /\ AgentState.scenario run.1 = "Heavy traffic, customer order late"
  /\ AgentState.max_iterations run.1 = 3%Z
  /\ (0 <= AgentState.current_iteration run.1)%Z.
Proof.
  assert (Hreach :
            rtc (workflow_step (py := example_python) (env := direct_answer_environment)
                   example_coordinator)
                (N_call_model, initial_state "Heavy traffic, customer order late" 3,
                 world_at_import)
                (N_END, (direct_answer_run "Heavy traffic, customer order late" 3).1,
                 (direct_answer_run "Heavy traffic, customer order late" 3).2)).
  { apply (workflow_run_reachable (py := example_python) (env := direct_answer_environment)
             example_coordinator 25); [discriminate|].
    vm_compute. reflexivity. }
  split; [exact Hreach|].
  destruct (transcript_only_grows (py := example_python)
              (env := direct_answer_environment) _ _ _ _ _ _ _ Hreach)
    as (Hs & Hm & _ & _ & _ & Hi).
  split; [exact Hs|]. split; [exact Hm|exact Hi].
Defined.

(** [workflow_steps_bounded] at the same run: it ends within 11 nodes. *)
Lemma workflow_steps_bounded_witness :
  let run := direct_answer_run "Heavy traffic, customer order late" 3 in
  exists k,
    nsteps (workflow_step (py := example_python) (env := direct_answer_environment)
              example_coordinator) k
      (N_call_model, initial_state "Heavy traffic, customer order late" 3, world_at_import)
      (N_END, run.1, run.2)
    /\ (Z.of_nat k <= 11)%Z.
Proof.
  assert (Hreach :
            rtc (workflow_step (py := example_python) (env := direct_answer_environment)
                   example_coordinator)
                (N_call_model, initial_state "Heavy traffic, customer order late" 3,
                 world_at_import)
                (N_END, (direct_answer_run "Heavy traffic, customer order late" 3).1,
                 (direct_answer_run "Heavy traffic, customer order late" 3).2)).
  { apply (workflow_run_reachable (py := example_python) (env := direct_answer_environment)
             example_coordinator 25); [discriminate|].
    vm_compute. reflexivity. }
  apply rtc_nsteps_1 in Hreach as [k Hk].
  exists k. split; [exact Hk|].
  exact (proj1 (workflow_steps_bounded (py := example_python)
                  (env := direct_answer_environment) _ _ _ _ _ _ _ _ Hk)).
Defined.

(** [recursion_budget_suffices] with ceiling 3: 25 steps and 40 steps give
    the same run. *)
Lemma recursion_budget_suffices_witness :
  workflow_run (py := example_python) (env := direct_answer_environment)
    example_coordinator 25 N_call_model
    (initial_state "Heavy traffic, customer order late" 3) world_at_import
  = workflow_run (py := example_python) (env := direct_answer_environment)
      example_coordinator 40 N_call_model
      (initial_state "Heavy traffic, customer order late" 3) world_at_import.
Proof.
  apply (recursion_budget_suffices (py := example_python)
           (env := direct_answer_environment)); simpl; lia.
Defined.

(** [reasoning_steps_mirror_ledger] at the end of a run that starts where
    [clear_reasoning] leaves the world at import. *)
Lemma reasoning_steps_mirror_ledger_witness :
  exists state' w',
    rtc (workflow_step (py := example_python) (env := direct_answer_environment)
           example_coordinator)
        (N_call_model, initial_state "Heavy traffic, customer order late" 3,
         (clear_reasoning (py := example_python) (env := direct_answer_environment)
            world_at_import).2)
        (N_END, state', w')
    /\ AgentState.reasoning_steps state'
       = step_to_dict (py := example_python)
           <$> ChainOfThoughtReasoner.reasoning_steps (w_reasoner w')
    /\ ChainOfThoughtReasoner.current_step (w_reasoner w')
       = Z.of_nat (length (AgentState.reasoning_steps state')).
Proof.
  destruct (workflow_run (py := example_python) (env := direct_answer_environment)
              example_coordinator 25 N_call_model
              (initial_state "Heavy traffic, customer order late" 3)
              (clear_reasoning (py := example_python) (env := direct_answer_environment)
                 world_at_import).2) as [[state'|e] w'] eqn:Hrun.
  - exists state', w'.
    apply workflow_run_reachable in Hrun; [|discriminate].
    split; [exact Hrun|].
    destruct (reasoning_steps_mirror_ledger (py := example_python)
                (env := direct_answer_environment) _ _ _ _ _ _ _ Hrun)
      as (Hsnap & Hcur & _).
    split; [exact Hsnap|exact Hcur].
  - exfalso.
    observe_run Hrun (fun out : Outcome AgentState.t * World =>
                        match out.1 with Returned _ => true | Raised _ => false end).
    discriminate Hrun.
Defined.

(** [resolve_scenario_reports_completion] at a run in which the model
    requests no tools. *)
Lemma resolve_scenario_reports_completion_witness :
  exists result w',
    resolve_scenario (py := example_python) (env := direct_answer_environment)
      example_coordinator "Heavy traffic, customer order late" 3 world_at_import
    = (Returned result, w')
    /\ ResolutionResult.success result = true
    /\ ResolutionResult.scenario result = "Heavy traffic, customer order late"
    /\ (Metrics.iterations (ResolutionResult.metrics result) <= 3)%Z.
Proof.
  destruct (workflow_ainvoke (py := example_python) (env := direct_answer_environment)
              example_coordinator (initial_state "Heavy traffic, customer order late" 3)
              (clear_reasoning (py := example_python) (env := direct_answer_environment)
                 (datetime_now (env := direct_answer_environment) world_at_import).2).2)
    as [[final_state|e] w1] eqn:Hrun.
  - destruct (resolve_scenario_reports_completion (py := example_python)
                (env := direct_answer_environment) _ _ _ _ _ _ Hrun)
      as (result & w' & Hres & Hsuccess & Hscenario & _ & _ & _ & _ & Hiter & _).
    exists result, w'. split; [exact Hres|]. split; [exact Hsuccess|].
    split; [exact Hscenario|exact (proj2 Hiter)].
  - exfalso.
    observe_run Hrun (fun out : Outcome AgentState.t * World =>
                        match out.1 with Returned _ => true | Raised _ => false end).
    discriminate Hrun.
Defined.
